(** * DeepFlow droplet: the UDP flow generator and the pcap worker

    A shallow embedding of [flowgenerator/flow_udp.go] and of the pcap
    worker (package [pcap]: writer keys, file names, the capture-file
    registry and the routing of [Worker.Process]), with the properties
    the specification states about them.

    Conventions.
    - Go's fixed-width integers are [Z] with the wrap-around written out
      ([GoInt]).
    - A panic is the [Panic] result of [Res]; everything after it is
      skipped, as the Go runtime unwinds the goroutine.
    - Maps are stdpp's [gmap]; a [container/list] is a Rocq list
      ([PushBack] appends, [Remove] deletes a position).
    - Pointers to records that live in a map or a list are modelled by
      writing the updated record back at its key or position.
    - Logging is not modelled. *)

From Stdlib Require Import ZArith Bool Lia.
From Stdlib.Strings Require Import Byte Ascii String.
From stdpp Require Import base option list gmap strings pretty.

#[local] Open Scope Z_scope.

(* ================================================================= *)
(** ** Go's machine integers *)

Module GoInt.

(** Conversion to an unsigned [w]-bit type: the low [w] bits. *)
Definition uint (w x : Z) : Z := x mod 2 ^ w.

(** Conversion to a signed [w]-bit type (two's complement). *)
Definition sint (w x : Z) : Z := (x + 2 ^ (w - 1)) mod 2 ^ w - 2 ^ (w - 1).

Definition uint8 : Z -> Z := uint 8.
Definition uint32 : Z -> Z := uint 32.
Definition uint64 : Z -> Z := uint 64.
Definition int32 : Z -> Z := sint 32.
Definition int64 : Z -> Z := sint 64.

(** [x << n] on [uint64]. *)
Definition shl64 (x n : Z) : Z := uint64 (Z.shiftl x n).

(** [x + y] and [x++] on [uint64]; [x - y] and [x + y] on [int64]. *)
Definition add64 (x y : Z) : Z := uint64 (x + y).
Definition incr64 (x : Z) : Z := add64 x 1.
Definition int64_add (x y : Z) : Z := int64 (x + y).
Definition int64_sub (x y : Z) : Z := int64 (x - y).

(** The values of an unsigned, respectively signed, [w]-bit type. *)
Definition is_uint (w x : Z) : Prop := 0 <= x < 2 ^ w.
Definition is_sint (w x : Z) : Prop := - 2 ^ (w - 1) <= x < 2 ^ (w - 1).

End GoInt.

Import GoInt.

(* ================================================================= *)
(** ** Results of code that may panic *)

Inductive Res (A : Type) : Type :=
| Ok (a : A)
| Panic (msg : string).

Arguments Ok {A} a.
Arguments Panic {A} msg.

Definition res_bind {A B : Type} (r : Res A) (k : A -> Res B) : Res B :=
  match r with
  | Ok a => k a
  | Panic msg => Panic msg
  end.

(** [returns r P]: the computation [r] does not panic, and its result
    satisfies [P]. *)
Definition returns {A : Type} (r : Res A) (P : A -> Prop) : Prop :=
  match r with
  | Ok a => P a
  | Panic _ => False
  end.

(* ================================================================= *)
(** ** The verbs of [fmt.Sprintf] the package uses *)

Module Fmt.

(** [%d]. *)
Definition d (x : Z) : string := pretty x.

Fixpoint zeros (n : nat) : string :=
  match n with
  | O => EmptyString
  | S n' => String "0" (zeros n')
  end.

(** Left padding with zeros up to [width] characters (the [0] flag). *)
Definition pad0 (width : nat) (s : string) : string :=
  zeros (width - String.length s) +:+ s.

(** [%03d] of a non-negative value. *)
Definition d03 (x : Z) : string := pad0 3 (d x).

Definition hex_digit (x : Z) : ascii :=
  match x with
  | 0 => "0" | 1 => "1" | 2 => "2" | 3 => "3" | 4 => "4"
  | 5 => "5" | 6 => "6" | 7 => "7" | 8 => "8" | 9 => "9"
  | 10 => "a" | 11 => "b" | 12 => "c" | 13 => "d" | 14 => "e"
  | _ => "f"
  end%char.

Fixpoint hex_go (fuel : nat) (x : Z) (acc : string) : string :=
  match fuel with
  | O => acc
  | S fuel' =>
      let acc' := String (hex_digit (x mod 16)) acc in
      if x / 16 =? 0 then acc' else hex_go fuel' (x / 16) acc'
  end.

(** [%x] of a [uint64] (at most sixteen digits), and [%012x]. *)
Definition x (v : Z) : string := hex_go 16 v EmptyString.
Definition x012 (v : Z) : string := pad0 12 (x v).

End Fmt.

(* ================================================================= *)
(** ** [net.IP] (Go's standard library)

    An address is a byte slice of length 4 or 16; the nil slice is the
    empty list.  The three methods the worker calls follow the
    library's definitions. *)

Module Net.

Definition IP : Type := list byte.

Fixpoint bytes_eqb (a b : list byte) : bool :=
  match a, b with
  | [], [] => true
  | x :: a', y :: b' => Byte.eqb x y && bytes_eqb a' b'
  | _, _ => false
  end.

Definition IPv4len : nat := 4.
Definition IPv6len : nat := 16.

Definition v4InV6Prefix : list byte :=
  [x00; x00; x00; x00; x00; x00; x00; x00; x00; x00; xff; xff].

(** [ip.Equal(x)]: equal slices, or an IPv4 address and its IPv4-mapped
    IPv6 form. *)
Definition Equal (ip x : IP) : bool :=
  if Nat.eqb (length ip) (length x) then bytes_eqb ip x
  else if Nat.eqb (length ip) IPv4len && Nat.eqb (length x) IPv6len then
    bytes_eqb (take 12 x) v4InV6Prefix && bytes_eqb ip (drop 12 x)
  else if Nat.eqb (length ip) IPv6len && Nat.eqb (length x) IPv4len then
    bytes_eqb (take 12 ip) v4InV6Prefix && bytes_eqb (drop 12 ip) x
  else false.

(** [ip.To4()]; [None] is the nil result. *)
Definition To4 (ip : IP) : option IP :=
  if Nat.eqb (length ip) IPv4len then Some ip
  else if Nat.eqb (length ip) IPv6len && bytes_eqb (take 12 ip) v4InV6Prefix
  then Some (drop 12 ip)
  else None.

Definition byte_at (ip : IP) (i : nat) : Z := Z.of_N (Byte.to_N (nth i ip x00)).

(** [ip.IsMulticast()]. *)
Definition IsMulticast (ip : IP) : bool :=
  match To4 ip with
  | Some ip4 => Z.land (byte_at ip4 0) 0xf0 =? 0xe0
  | None => Nat.eqb (length ip) IPv6len && (byte_at ip 0 =? 0xff)
  end.

End Net.

(* ================================================================= *)
(** ** The packet record the two subsystems consume
    ([datatype.MetaPacket] of droplet-libs, as far as the code reads it) *)

Module datatype.

Record EndpointInfo : Type := {
  L3EpcId : Z;
  L2End : bool
}.

Record EndpointData_t : Type := {
  SrcInfo : EndpointInfo;
  DstInfo : EndpointInfo
}.

(** One [AclAction]: what [GetACLGID] and [GetActionFlags] return. *)
Record AclAction : Type := {
  GetACLGID : Z;
  GetActionFlags : Z
}.

Record PolicyData_t : Type := {
  AclActions : list AclAction
}.

Record MetaPacket : Type := {
  Timestamp : Z;
  InPort : Z;
  EthType : Z;
  PacketLen : Z;
  MacSrc : Z;
  MacDst : Z;
  IpSrc : Z;
  IpDst : Z;
  Ip6Src : Net.IP;
  Ip6Dst : Net.IP;
  Protocol : Z;
  PortSrc : Z;
  PortDst : Z;
  L2End0 : bool;
  L2End1 : bool;
  EndpointData : option EndpointData_t;
  PolicyData : option PolicyData_t
}.

End datatype.

Import datatype.

(* ================================================================= *)
(** ** Package [pcap]: keys, file names and the worker *)

Module Pcap.

(** *** Constants *)

Definition QUEUE_BATCH_SIZE : Z := 1024.

(** [datatype.MacInt(^uint64(0) >> 16)] and [datatype.IPv4Int(^uint32(0))]. *)
Definition BROADCAST_MAC : Z := Z.shiftr (uint64 (Z.lnot 0)) 16.
Definition BROADCAST_IP : Z := uint32 (Z.lnot 0).

(** [layers.EthernetTypeIPv6] of gopacket. *)
Definition EthernetTypeIPv6 : Z := 0x86DD.

(** [zerodoc.ToR] of droplet-libs: the tap type that [tapTypeToString]
    prints as "tor". *)
Definition ToR : Z := 3.

(** *** Writer keys *)

Definition byteZ (b : byte) : Z := Z.of_N (Byte.to_N b).

(** The [uint32] read through [unsafe.Pointer(&ip[i])]: the four bytes
    from [ip[i]] as one word, least significant byte first (the byte
    order of the platforms droplet is built for). *)
Definition word32 (b0 b1 b2 b3 : byte) : Z :=
  Z.lor (Z.lor (byteZ b0) (Z.shiftl (byteZ b1) 8))
        (Z.lor (Z.shiftl (byteZ b2) 16) (Z.shiftl (byteZ b3) 24)).

(** The loop [for i := 0; i < len(ip); i += 4 { ipHash ^= word(i) }].
    A read that runs past the slice (a length that is no multiple of
    four, which no caller passes) sees zero bytes in the model. *)
Fixpoint ipHashLoop (ip : list byte) (ipHash : Z) : Z :=
  match ip with
  | [] => ipHash
  | b0 :: b1 :: b2 :: b3 :: rest => ipHashLoop rest (Z.lxor ipHash (word32 b0 b1 b2 b3))
  | [b0; b1; b2] => Z.lxor ipHash (word32 b0 b1 b2 x00)
  | [b0; b1] => Z.lxor ipHash (word32 b0 b1 x00 x00)
  | [b0] => Z.lxor ipHash (word32 b0 x00 x00 x00)
  end.

Definition getWriterIpv6Key (ip : Net.IP) (aclGID tapType : Z) : Z :=
  let ipHash := ipHashLoop ip 0 in
  Z.lor (Z.lor (shl64 (uint64 ipHash) 32) (shl64 (uint64 aclGID) 16))
        (uint64 tapType).

Definition getWriterKey (ipInt aclGID tapType : Z) : Z :=
  Z.lor (Z.lor (shl64 (uint64 ipInt) 32) (shl64 (uint64 aclGID) 16))
        (uint64 tapType).

(** *** Port ranges and strings *)

Definition isISP (inPort : Z) : bool := (0x10000 <=? inPort) && (inPort <? 0x20000).

Definition isTOR (inPort : Z) : bool := (0x30000 <=? inPort) && (inPort <? 0x40000).

Definition macToString (mac : Z) : string := Fmt.x012 mac.

Definition ipToString (ip : Z) : string :=
  Fmt.d03 (uint8 (Z.shiftr ip 24)) +:+ Fmt.d03 (uint8 (Z.shiftr ip 16)) +:+
  Fmt.d03 (uint8 (Z.shiftr ip 8)) +:+ Fmt.d03 (uint8 ip).

Definition tapTypeToString (tapType : Z) : Res string :=
  if tapType =? 3 then Ok "tor"%string
  else if (0 <=? tapType) && (tapType <=? 30) then Ok ("isp" +:+ Fmt.d tapType)
  else Panic ("unsupported tap type " +:+ Fmt.d tapType).

(** [utils.IpFromUint32] of droplet-libs: the four bytes of an IPv4
    address in network order. *)
Definition byte_of_Z (z : Z) : byte :=
  match Byte.of_N (Z.to_N (z mod 256)) with
  | Some b => b
  | None => x00
  end.

Definition IpFromUint32 (ipInt : Z) : Net.IP :=
  [byte_of_Z (Z.shiftr ipInt 24); byte_of_Z (Z.shiftr ipInt 16);
   byte_of_Z (Z.shiftr ipInt 8); byte_of_Z ipInt].

(** *** Counters *)

(** What [Writer.GetAndResetStats] returns ([writer.go]). *)
Record WriterCounter : Type := {
  totalBufferedCount : Z;
  totalWrittenCount : Z;
  totalBufferedBytes : Z;
  totalWrittenBytes : Z
}.

Record WorkerCounter : Type := {
  FileCreations : Z;
  FileCloses : Z;
  FileRejections : Z;
  FileCreationFailures : Z;
  FileWritingFailures : Z;
  BufferedCount : Z;
  WrittenCount : Z;
  BufferedBytes : Z;
  WrittenBytes : Z
}.

(** *** The records

    [WrappedWriterOf] and [WorkerOf] take the type of the embedded
    [*Writer] of [writer.go] as a parameter; [WrappedWriter] and
    [Worker] below are the two records at the writer of the
    environment. *)

Section Records.
Context {W : Type}.

(** [writer] is the embedded [*Writer]; [ip6 = []] is the nil address. *)
Record WrappedWriterOf : Type := {
  writer : W;
  tapType : Z;
  aclGID : Z;
  ip : Z;
  ip6 : Net.IP;
  mac : Z;
  tid : Z;
  tempFilename : string;
  firstPacketTime : Z;
  lastPacketTime : Z
}.

Record WorkerOf : Type := {
  index : Z;
  maxConcurrentFiles : Z;
  maxFileSize : Z;
  maxFilePeriod : Z;
  baseDirectory : string;
  counter : WorkerCounter;
  writers : gmap Z WrappedWriterOf;
  writersIpv6 : gmap Z (list WrappedWriterOf);
  writerBufferSize : Z;
  tcpipChecksum : bool;
  exiting : bool;
  exited : bool
}.

End Records.

Arguments WrappedWriterOf : clear implicits.
Arguments WorkerOf : clear implicits.


(** *** [newWorker]

    The fields of [WorkerManager] that [newWorker] reads; the record is
    declared in another file of the package. *)

Module WorkerManager.

Record t : Type := {
  maxConcurrentFiles : Z;
  nQueues : Z;
  maxFileSizeMB : Z;
  maxFilePeriodSecond : Z;
  baseDirectory : string;
  blockSizeKB : Z;
  tcpipChecksum : bool
}.

End WorkerManager.

(** [time.Second], in nanoseconds. *)
Definition time_Second : Z := 1000000000.

(** [&WorkerCounter{}]. *)
Definition zeroCounter : WorkerCounter :=
  {| FileCreations := 0; FileCloses := 0; FileRejections := 0;
     FileCreationFailures := 0; FileWritingFailures := 0; BufferedCount := 0;
     WrittenCount := 0; BufferedBytes := 0; WrittenBytes := 0 |}.

(** [(m *WorkerManager).newWorker(index)].  Go's [int] is taken at 64
    bits; the division panics when [nQueues] is zero.  The input queue,
    its key and the wait group are not part of the worker record of the
    model. *)
Definition newWorker {W : Type} (m : WorkerManager.t) (idx : Z) : Res (WorkerOf W) :=
  if WorkerManager.nQueues m =? 0 then Panic "integer divide by zero"
  else
    Ok {| index := idx;
          maxConcurrentFiles :=
            int64 (Z.quot (WorkerManager.maxConcurrentFiles m) (WorkerManager.nQueues m));
          maxFileSize := int64 (Z.shiftl (int64 (WorkerManager.maxFileSizeMB m)) 20);
          maxFilePeriod :=
            int64 (int64 (WorkerManager.maxFilePeriodSecond m) * time_Second);
          baseDirectory := WorkerManager.baseDirectory m;
          counter := zeroCounter;
          writers := ∅;
          writersIpv6 := ∅;
          writerBufferSize := int64 (Z.shiftl (WorkerManager.blockSizeKB m) 10);
          tcpipChecksum := WorkerManager.tcpipChecksum m;
          exiting := false;
          exited := false |}.

(** *** What lies outside the file

    The buffered pcap writer of [writer.go], the file system calls of
    package [os], the time and address formatting of Go's library, the
    packet pool, [utils.IpToUint32], and two declarations of
    droplet-libs: the width of
    [zerodoc.TAPTypeEnum] (an unsigned integer type, so at least eight
    bits) and the flag [datatype.ACTION_PACKET_CAPTURING] (one bit of
    the action flags, so not zero).  [World] is the state these calls
    act on. *)
Class PcapEnv : Type := {
  World : Type;
  Writer : Type;
  NewWriter : string -> Z -> bool -> World -> option Writer * World;
  Writer_Write : Writer -> MetaPacket -> World -> Writer * bool * World;
  Writer_Close : Writer -> World -> Writer * World;
  Writer_FileSize : Writer -> Z;
  Writer_BufferSize : Writer -> Z;
  Writer_GetAndResetStats : Writer -> WriterCounter * Writer;
  os_Stat_IsNotExist : string -> World -> bool;
  os_MkdirAll : string -> World -> World;
  os_Rename : string -> string -> World -> World;
  ReleaseMetaPacket : MetaPacket -> World -> World;
  time_Format : Z -> string;
  IP_String : Net.IP -> string;
  IpToUint32 : Net.IP -> Z;
  ACTION_PACKET_CAPTURING : Z;
  ACTION_PACKET_CAPTURING_bit : ACTION_PACKET_CAPTURING <> 0;
  TAPTypeEnum_bits : Z;
  TAPTypeEnum_bits_ge : 8 <= TAPTypeEnum_bits
}.

Abbreviation WrappedWriter := (WrappedWriterOf Writer).
Abbreviation Worker := (WorkerOf Writer).

Section Worker.
Context `{PcapEnv}.

(** Conversion to [zerodoc.TAPTypeEnum]. *)
Definition TAPTypeEnum (x : Z) : Z := uint TAPTypeEnum_bits x.

(** [time.Unix(0, int64(d)).Format(TIME_FORMAT)]. *)
Definition formatDuration (d : Z) : string := time_Format (int64 d).

Definition getTempFilename (tapType mac ip firstPacketTime index : Z) : Res string :=
  res_bind (tapTypeToString tapType) (fun tap =>
  Ok (tap +:+ "_" +:+ macToString mac +:+ "_" +:+ ipToString ip +:+ "_" +:+
      formatDuration firstPacketTime +:+ "_." +:+ Fmt.d index +:+ ".pcap.temp")).

Definition getTempFilenameByIpv6 (tapType mac : Z) (ip : Net.IP)
    (firstPacketTime index : Z) : Res string :=
  res_bind (tapTypeToString tapType) (fun tap =>
  Ok (tap +:+ "_" +:+ macToString mac +:+ "_" +:+ IP_String ip +:+ "_" +:+
      formatDuration firstPacketTime +:+ "_." +:+ Fmt.d index +:+ ".pcap.temp")).

(** *** Field updates *)

Definition set_writer (x : Writer) (ww : WrappedWriter) : WrappedWriter :=
  {| writer := x; tapType := tapType ww; aclGID := aclGID ww; ip := ip ww;
     ip6 := ip6 ww; mac := mac ww; tid := tid ww;
     tempFilename := tempFilename ww; firstPacketTime := firstPacketTime ww;
     lastPacketTime := lastPacketTime ww |}.

Definition set_lastPacketTime (t : Z) (ww : WrappedWriter) : WrappedWriter :=
  {| writer := writer ww; tapType := tapType ww; aclGID := aclGID ww; ip := ip ww;
     ip6 := ip6 ww; mac := mac ww; tid := tid ww;
     tempFilename := tempFilename ww; firstPacketTime := firstPacketTime ww;
     lastPacketTime := t |}.

Definition set_counter (c : WorkerCounter) (w : Worker) : Worker :=
  {| index := index w; maxConcurrentFiles := maxConcurrentFiles w;
     maxFileSize := maxFileSize w; maxFilePeriod := maxFilePeriod w;
     baseDirectory := baseDirectory w; counter := c; writers := writers w;
     writersIpv6 := writersIpv6 w; writerBufferSize := writerBufferSize w;
     tcpipChecksum := tcpipChecksum w; exiting := exiting w; exited := exited w |}.

Definition set_writers (m : gmap Z WrappedWriter) (w : Worker) : Worker :=
  {| index := index w; maxConcurrentFiles := maxConcurrentFiles w;
     maxFileSize := maxFileSize w; maxFilePeriod := maxFilePeriod w;
     baseDirectory := baseDirectory w; counter := counter w; writers := m;
     writersIpv6 := writersIpv6 w; writerBufferSize := writerBufferSize w;
     tcpipChecksum := tcpipChecksum w; exiting := exiting w; exited := exited w |}.

Definition set_writersIpv6 (m : gmap Z (list WrappedWriter)) (w : Worker) : Worker :=
  {| index := index w; maxConcurrentFiles := maxConcurrentFiles w;
     maxFileSize := maxFileSize w; maxFilePeriod := maxFilePeriod w;
     baseDirectory := baseDirectory w; counter := counter w; writers := writers w;
     writersIpv6 := m; writerBufferSize := writerBufferSize w;
     tcpipChecksum := tcpipChecksum w; exiting := exiting w; exited := exited w |}.

(** [w.FileCreations++] and its siblings. *)
Definition incr_FileCreations (c : WorkerCounter) : WorkerCounter :=
  {| FileCreations := incr64 (FileCreations c); FileCloses := FileCloses c;
     FileRejections := FileRejections c;
     FileCreationFailures := FileCreationFailures c;
     FileWritingFailures := FileWritingFailures c;
     BufferedCount := BufferedCount c; WrittenCount := WrittenCount c;
     BufferedBytes := BufferedBytes c; WrittenBytes := WrittenBytes c |}.

Definition incr_FileCloses (c : WorkerCounter) : WorkerCounter :=
  {| FileCreations := FileCreations c; FileCloses := incr64 (FileCloses c);
     FileRejections := FileRejections c;
     FileCreationFailures := FileCreationFailures c;
     FileWritingFailures := FileWritingFailures c;
     BufferedCount := BufferedCount c; WrittenCount := WrittenCount c;
     BufferedBytes := BufferedBytes c; WrittenBytes := WrittenBytes c |}.

Definition incr_FileRejections (c : WorkerCounter) : WorkerCounter :=
  {| FileCreations := FileCreations c; FileCloses := FileCloses c;
     FileRejections := incr64 (FileRejections c);
     FileCreationFailures := FileCreationFailures c;
     FileWritingFailures := FileWritingFailures c;
     BufferedCount := BufferedCount c; WrittenCount := WrittenCount c;
     BufferedBytes := BufferedBytes c; WrittenBytes := WrittenBytes c |}.

Definition incr_FileCreationFailures (c : WorkerCounter) : WorkerCounter :=
  {| FileCreations := FileCreations c; FileCloses := FileCloses c;
     FileRejections := FileRejections c;
     FileCreationFailures := incr64 (FileCreationFailures c);
     FileWritingFailures := FileWritingFailures c;
     BufferedCount := BufferedCount c; WrittenCount := WrittenCount c;
     BufferedBytes := BufferedBytes c; WrittenBytes := WrittenBytes c |}.

Definition incr_FileWritingFailures (c : WorkerCounter) : WorkerCounter :=
  {| FileCreations := FileCreations c; FileCloses := FileCloses c;
     FileRejections := FileRejections c;
     FileCreationFailures := FileCreationFailures c;
     FileWritingFailures := incr64 (FileWritingFailures c);
     BufferedCount := BufferedCount c; WrittenCount := WrittenCount c;
     BufferedBytes := BufferedBytes c; WrittenBytes := WrittenBytes c |}.

(** The four [+=] that drain a writer's statistics into the worker's. *)
Definition addStats (s : WriterCounter) (c : WorkerCounter) : WorkerCounter :=
  {| FileCreations := FileCreations c; FileCloses := FileCloses c;
     FileRejections := FileRejections c;
     FileCreationFailures := FileCreationFailures c;
     FileWritingFailures := FileWritingFailures c;
     BufferedCount := add64 (BufferedCount c) (totalBufferedCount s);
     WrittenCount := add64 (WrittenCount c) (totalWrittenCount s);
     BufferedBytes := add64 (BufferedBytes c) (totalBufferedBytes s);
     WrittenBytes := add64 (WrittenBytes c) (totalWrittenBytes s) |}.

(** *** Methods of [WrappedWriter] *)

(** [(w *WrappedWriter).getTempFilename(base)].  [generateWrappedWriter]
    calls it before the embedded writer exists, so the model passes the
    fields it reads. *)
Definition WrappedWriter_getTempFilename (base : string)
    (tap gid macInt ipInt : Z) (ipv6 : Net.IP) (first index : Z) : Res string :=
  match ipv6 with
  | [] =>
      res_bind (getTempFilename tap macInt ipInt first index) (fun name =>
      Ok (base +:+ "/" +:+ Fmt.d gid +:+ "/" +:+ name))
  | _ :: _ =>
      res_bind (getTempFilenameByIpv6 tap macInt ipv6 first index) (fun name =>
      Ok (base +:+ "/" +:+ Fmt.d gid +:+ "/" +:+ name))
  end.

Definition getFilename (ww : WrappedWriter) (base : string) : Res string :=
  let ipString :=
    match ip6 ww with
    | [] => ipToString (ip ww)
    | _ :: _ => IP_String (ip6 ww)
    end in
  res_bind (tapTypeToString (tapType ww)) (fun tap =>
  Ok (base +:+ "/" +:+ Fmt.d (aclGID ww) +:+ "/" +:+ tap +:+ "_" +:+
      macToString (mac ww) +:+ "_" +:+ ipString +:+ "_" +:+
      formatDuration (firstPacketTime ww) +:+ "_" +:+
      formatDuration (lastPacketTime ww) +:+ "." +:+ Fmt.d (tid ww) +:+ ".pcap")).

(** *** The worker's methods, threading the world and the worker *)

Definition M (A : Type) : Type := World -> Worker -> Res (A * World * Worker).

Definition ret {A : Type} (a : A) : M A := fun world w => Ok (a, world, w).

Definition bind {A B : Type} (m : M A) (k : A -> M B) : M B :=
  fun world w =>
    match m world w with
    | Ok (a, world', w') => k a world' w'
    | Panic msg => Panic msg
    end.

#[local] Notation "x <- m ;; k" := (bind m (fun x => k))
  (at level 100, m at next level, right associativity).
#[local] Notation "m ;; k" := (bind m (fun _ => k))
  (at level 100, right associativity).

Definition getWorker : M Worker := fun world w => Ok (w, world, w).

Definition modifyWorker (f : Worker -> Worker) : M unit :=
  fun world w => Ok (tt, world, f w).

Definition modifyCounter (f : WorkerCounter -> WorkerCounter) : M unit :=
  modifyWorker (fun w => set_counter (f (counter w)) w).

Definition inWorld {A : Type} (f : World -> A * World) : M A :=
  fun world w => let (a, world') := f world in Ok (a, world', w).

Definition inWorld_ (f : World -> World) : M unit :=
  fun world w => Ok (tt, f world, w).

Definition liftRes {A : Type} (r : Res A) : M A :=
  fun world w =>
    match r with
    | Ok a => Ok (a, world, w)
    | Panic msg => Panic msg
    end.

Fixpoint forEach {A : Type} (l : list A) (f : A -> M unit) : M unit :=
  match l with
  | [] => ret tt
  | a :: l' => f a ;; forEach l' f
  end.

Definition shouldCloseFile (w : Worker) (ww : WrappedWriter) (packet : MetaPacket) : bool :=
  if int64_add (Writer_FileSize (writer ww)) (int64 (Writer_BufferSize (writer ww)))
       >=? maxFileSize w then true
  else if int64_sub (Timestamp packet) (firstPacketTime ww) >? maxFilePeriod w then true
  else false.

(** Returns the record as the calls through the pointer left it. *)
Definition finishWriter (ww : WrappedWriter) (newFilename : string) : M WrappedWriter :=
  closed <- inWorld (Writer_Close (writer ww)) ;;
  let (stats, reset) := Writer_GetAndResetStats closed in
  modifyCounter (addStats stats) ;;
  inWorld_ (os_Rename (tempFilename ww) newFilename) ;;
  modifyCounter incr_FileCloses ;;
  ret (set_writer reset ww).

Definition generateWrappedWriter (ipAddr : Net.IP) (macInt tap gid timestamp : Z)
    : M (option WrappedWriter) :=
  w <- getWorker ;;
  if Z.of_nat (size (writers w)) >=? maxConcurrentFiles w then
    modifyCounter incr_FileRejections ;;
    ret None
  else
    let directory := baseDirectory w +:+ "/" +:+ Fmt.d gid in
    notExist <- inWorld (fun world => (os_Stat_IsNotExist directory world, world)) ;;
    (if notExist : bool then inWorld_ (os_MkdirAll directory) else ret tt) ;;
    let ipInt := match Net.To4 ipAddr with Some _ => IpToUint32 ipAddr | None => 0 end in
    let ipv6 := match Net.To4 ipAddr with Some _ => [] | None => ipAddr end in
    name <- liftRes (WrappedWriter_getTempFilename (baseDirectory w) tap gid macInt
                       ipInt ipv6 timestamp (index w)) ;;
    created <- inWorld (NewWriter name (writerBufferSize w) (tcpipChecksum w)) ;;
    match created with
    | None =>
        modifyCounter incr_FileCreationFailures ;;
        ret None
    | Some x =>
        modifyCounter incr_FileCreations ;;
        ret (Some {| writer := x; tapType := tap; aclGID := gid; ip := ipInt;
                     ip6 := ipv6; mac := macInt; tid := index w;
                     tempFilename := name; firstPacketTime := timestamp;
                     lastPacketTime := timestamp |})
    end.

Definition writePacket (packet : MetaPacket) (tap ipInt macInt gid : Z) : M unit :=
  let key := getWriterKey ipInt gid tap in
  w <- getWorker ;;
  kept <-
    match writers w !! key with
    | Some ww =>
        if shouldCloseFile w ww packet then
          newFilename <- liftRes (getFilename ww (baseDirectory w)) ;;
          finishWriter ww newFilename ;;
          modifyWorker (fun w => set_writers (delete key (writers w)) w) ;;
          ret None
        else ret (Some ww)
    | None => ret None
    end ;;
  target <-
    match kept with
    | Some ww => ret (Some ww)
    | None =>
        made <- generateWrappedWriter (IpFromUint32 ipInt) macInt tap gid
                  (Timestamp packet) ;;
        match made with
        | None => ret None
        | Some ww =>
            modifyWorker (fun w => set_writers (<[key := ww]> (writers w)) w) ;;
            ret (Some ww)
        end
    end ;;
  match target with
  | None => ret tt
  | Some ww =>
      written <- inWorld (Writer_Write (writer ww) packet) ;;
      let (x, err) := written : Writer * bool in
      if err then
        modifyWorker (fun w => set_writers (<[key := set_writer x ww]> (writers w)) w) ;;
        modifyCounter incr_FileWritingFailures
      else
        let (stats, reset) := Writer_GetAndResetStats x in
        modifyCounter (addStats stats) ;;
        modifyWorker (fun w =>
          set_writers
            (<[key := set_lastPacketTime (Timestamp packet) (set_writer reset ww)]>
               (writers w)) w)
  end.

(** The bucket of a key; a key that is absent has no element. *)
Definition bucket (w : Worker) (key : Z) : list WrappedWriter :=
  default [] (writersIpv6 w !! key).

Definition set_bucket (key : Z) (l : list WrappedWriter) (w : Worker) : Worker :=
  set_writersIpv6 (<[key := l]> (writersIpv6 w)) w.

(** The scan of a bucket: the first element whose address equals [ipAddr]. *)
Definition findWriter (ipAddr : Net.IP) (l : list WrappedWriter)
    : option (nat * WrappedWriter) :=
  list_find (fun ww => Net.Equal (ip6 ww) ipAddr = true) l.

(** The result is the writer and its position in the bucket of the key. *)
Definition getWrappedWriter (ipAddr : Net.IP) (macInt tap gid : Z)
    (packet : MetaPacket) : M (option (nat * WrappedWriter)) :=
  let key := getWriterIpv6Key ipAddr gid tap in
  w <- getWorker ;;
  found <-
    match writersIpv6 w !! key with
    | Some writerList => ret (findWriter ipAddr writerList)
    | None =>
        modifyWorker (set_bucket key []) ;;
        ret None
    end ;;
  result <-
    match found with
    | Some (i, ww) =>
        if shouldCloseFile w ww packet then
          newFilename <- liftRes (getFilename ww (baseDirectory w)) ;;
          finishWriter ww newFilename ;;
          modifyWorker (fun w => set_bucket key (delete i (bucket w key)) w) ;;
          ret None
        else ret (Some (i, ww))
    | None => ret None
    end ;;
  match result with
  | Some r => ret (Some r)
  | None =>
      made <- generateWrappedWriter ipAddr macInt tap gid (Timestamp packet) ;;
      match made with
      | Some ww =>
          w' <- getWorker ;;
          modifyWorker (set_bucket key (bucket w' key ++ [ww])) ;;
          ret (Some (length (bucket w' key), ww))
      | None => ret None
      end
  end.

Definition writePacketIpv6 (packet : MetaPacket) (tap : Z) (ipAddr : Net.IP)
    (macInt gid : Z) : M unit :=
  let key := getWriterIpv6Key ipAddr gid tap in
  got <- getWrappedWriter ipAddr macInt tap gid packet ;;
  match got with
  | None => ret tt
  | Some (i, ww) =>
      written <- inWorld (Writer_Write (writer ww) packet) ;;
      let (x, err) := written : Writer * bool in
      if err then
        modifyWorker (fun w => set_bucket key (<[i := set_writer x ww]> (bucket w key)) w) ;;
        modifyCounter incr_FileWritingFailures
      else
        let (stats, reset) := Writer_GetAndResetStats x in
        modifyCounter (addStats stats) ;;
        modifyWorker (fun w =>
          set_bucket key
            (<[i := set_lastPacketTime (Timestamp packet) (set_writer reset ww)]>
               (bucket w key)) w)
  end.

(** The writers a worker holds open: those of the IPv4 map and those of
    all IPv6 buckets. *)
Definition openWriterCount (w : Worker) : Z :=
  Z.of_nat (size (writers w))
  + map_fold (fun _ l n => n + Z.of_nat (length l)) 0 (writersIpv6 w).

(** *** [Worker.Process] *)

(** The slices [ips], [macs] and [ip6s] after the routing of one packet,
    with the tap type. *)
Record EmitSet : Type := {
  emitTapType : Z;
  ips : list Z;
  macs : list Z;
  ip6s : list Net.IP
}.

(** [if c { l = append(l, x) }]. *)
Definition appendIf {A : Type} (c : bool) (x : A) (l : list A) : list A :=
  if c then l ++ [x] else l.

(** The routing table of [Process]; [None] is the branch that releases
    the packet (a port of neither range). *)
Definition emitSet (packet : MetaPacket) (ed : EndpointData_t) : option EmitSet :=
  if isISP (InPort packet) then
    let tap := TAPTypeEnum (uint32 (InPort packet - 0x10000)) in
    if negb (EthType packet =? EthernetTypeIPv6) then
      let src := negb (L3EpcId (SrcInfo ed) =? 0)
                 && negb (IpSrc packet =? BROADCAST_IP)
                 && negb (MacSrc packet =? BROADCAST_MAC) in
      let dst := negb (L3EpcId (DstInfo ed) =? 0)
                 && negb (IpDst packet =? BROADCAST_IP)
                 && negb (MacDst packet =? BROADCAST_MAC) in
      Some {| emitTapType := tap;
              ips := appendIf dst (IpDst packet) (appendIf src (IpSrc packet) []);
              macs := appendIf dst (MacDst packet) (appendIf src (MacSrc packet) []);
              ip6s := [] |}
    else
      let src := negb (L3EpcId (SrcInfo ed) =? 0)
                 && Net.IsMulticast (Ip6Src packet)
                 && negb (MacSrc packet =? BROADCAST_MAC) in
      let dst := negb (L3EpcId (DstInfo ed) =? 0)
                 && Net.IsMulticast (Ip6Dst packet)
                 && negb (MacDst packet =? BROADCAST_MAC) in
      Some {| emitTapType := tap;
              ips := [];
              macs := appendIf dst (MacDst packet) (appendIf src (MacSrc packet) []);
              ip6s := appendIf dst (Ip6Dst packet) (appendIf src (Ip6Src packet) []) |}
  else if isTOR (InPort packet) then
    if negb (EthType packet =? EthernetTypeIPv6) then
      let src := (L2End0 packet || L2End (SrcInfo ed))
                 && negb (IpSrc packet =? BROADCAST_IP)
                 && negb (MacSrc packet =? BROADCAST_MAC) in
      let dst := (L2End1 packet || L2End (DstInfo ed))
                 && negb (IpDst packet =? BROADCAST_IP)
                 && negb (MacDst packet =? BROADCAST_MAC) in
      Some {| emitTapType := ToR;
              ips := appendIf dst (IpDst packet) (appendIf src (IpSrc packet) []);
              macs := appendIf dst (MacDst packet) (appendIf src (MacSrc packet) []);
              ip6s := [] |}
    else
      let src := (L2End0 packet || L2End (SrcInfo ed))
                 && negb (Net.IsMulticast (Ip6Src packet))
                 && negb (MacSrc packet =? BROADCAST_MAC) in
      let dst := (L2End1 packet || L2End (DstInfo ed))
                 && negb (Net.IsMulticast (Ip6Dst packet))
                 && negb (MacDst packet =? BROADCAST_MAC) in
      Some {| emitTapType := ToR;
              ips := [];
              macs := appendIf dst (MacDst packet) (appendIf src (MacSrc packet) []);
              ip6s := appendIf dst (Ip6Dst packet) (appendIf src (Ip6Src packet) []) |}
  else None.

(** [l[i]]: an index out of range panics. *)
Definition at_index {A : Type} (l : list A) (i : nat) : M A :=
  match l !! i with
  | Some a => ret a
  | None => liftRes (Panic "index out of range")
  end.

(** The body of [for _, policy := range packet.PolicyData.AclActions]. *)
Definition capture (packet : MetaPacket) (e : EmitSet) (policy : AclAction) : M unit :=
  if GetACLGID policy <=? 0 then ret tt
  else if negb (Z.land (GetActionFlags policy) ACTION_PACKET_CAPTURING =? 0) then
    if negb (EthType packet =? EthernetTypeIPv6) then
      forEach (seq 0 (length (ips e))) (fun i =>
        ipInt <- at_index (ips e) i ;;
        macInt <- at_index (macs e) i ;;
        writePacket packet (emitTapType e) ipInt macInt (GetACLGID policy))
    else
      forEach (seq 0 (length (ip6s e))) (fun i =>
        ipAddr <- at_index (ip6s e) i ;;
        macInt <- at_index (macs e) i ;;
        writePacketIpv6 packet (emitTapType e) ipAddr macInt (GetACLGID policy))
  else ret tt.

(** One element of the batch that is a packet. *)
Definition processPacket (packet : MetaPacket) : M unit :=
  match PolicyData packet, EndpointData packet with
  | Some pd, Some ed =>
      match emitSet packet ed with
      | None => inWorld_ (ReleaseMetaPacket packet)
      | Some e =>
          forEach (AclActions pd) (capture packet e) ;;
          inWorld_ (ReleaseMetaPacket packet)
      end
  | _, _ => inWorld_ (ReleaseMetaPacket packet)
  end.

(** The test of both loops of a tick. *)
Definition expired (w : Worker) (timeNow : Z) (ww : WrappedWriter) : bool :=
  int64_sub timeNow (firstPacketTime ww) >? maxFilePeriod w.

(** The body of [for key, writer := range w.writers] in a tick. *)
Definition tickWriter (timeNow : Z) (entry : Z * WrappedWriter) : M unit :=
  w <- getWorker ;;
  if expired w timeNow (snd entry) then
    newFilename <- liftRes (getFilename (snd entry) (baseDirectory w)) ;;
    finishWriter (snd entry) newFilename ;;
    modifyWorker (fun w => set_writers (delete (fst entry) (writers w)) w)
  else ret tt.

(** The walk over one bucket in a tick; the result is what stays in it. *)
Fixpoint tickList (timeNow : Z) (l : list WrappedWriter) : M (list WrappedWriter) :=
  match l with
  | [] => ret []
  | ww :: rest =>
      w <- getWorker ;;
      if expired w timeNow ww then
        newFilename <- liftRes (getFilename ww (baseDirectory w)) ;;
        finishWriter ww newFilename ;;
        tickList timeNow rest
      else
        rest' <- tickList timeNow rest ;;
        ret (ww :: rest')
  end.

Definition tickBucket (timeNow : Z) (entry : Z * list WrappedWriter) : M unit :=
  kept <- tickList timeNow (snd entry) ;;
  modifyWorker (set_bucket (fst entry) kept).

(** A tick.  Go leaves the order of a [range] over a map open; the
    model walks the entries in the order of [map_to_list]. *)
Definition tick (timeNow : Z) : M unit :=
  w <- getWorker ;;
  forEach (map_to_list (writers w)) (tickWriter timeNow) ;;
  forEach (map_to_list (writersIpv6 w)) (tickBucket timeNow).

(** One element of a batch; the result says whether the working loop
    is left. *)
Definition processElement (timeNow : Z) (e : option MetaPacket) : M bool :=
  match e with
  | None =>
      w <- getWorker ;;
      if exiting w then ret true
      else tick timeNow ;; ret false
  | Some packet => processPacket packet ;; ret false
  end.

(** The elements of one batch, [timeNow] being the time read after
    [Gets] returned.  The loop around it, which reads the queue until
    [Close] has set [exiting] from another goroutine, is not part of
    the model; the closing of all writers after it is [closeAll]. *)
Fixpoint processBatch (timeNow : Z) (elements : list (option MetaPacket)) : M bool :=
  match elements with
  | [] => ret false
  | e :: rest =>
      stop <- processElement timeNow e ;;
      if stop : bool then ret true else processBatch timeNow rest
  end.

(** *** The end of [Process], and [GetCounter] *)

(** The body of [for _, writer := range w.writers] after the working
    loop: the writer is finished and stays in the map. *)
Definition closeWriter (entry : Z * WrappedWriter) : M unit :=
  w <- getWorker ;;
  newFilename <- liftRes (getFilename (snd entry) (baseDirectory w)) ;;
  closed <- finishWriter (snd entry) newFilename ;;
  modifyWorker (fun w => set_writers (<[fst entry := closed]> (writers w)) w).

(** The walk over one bucket after the working loop; the result is the
    bucket with every writer as [finishWriter] left it. *)
Fixpoint closeList (l : list WrappedWriter) : M (list WrappedWriter) :=
  match l with
  | [] => ret []
  | ww :: rest =>
      w <- getWorker ;;
      newFilename <- liftRes (getFilename ww (baseDirectory w)) ;;
      closed <- finishWriter ww newFilename ;;
      rest' <- closeList rest ;;
      ret (closed :: rest')
  end.

Definition closeBucket (entry : Z * list WrappedWriter) : M unit :=
  closed <- closeList (snd entry) ;;
  modifyWorker (set_bucket (fst entry) closed).

(** The two loops of [Process] after the working loop, in the order of
    [map_to_list] as in a tick. *)
Definition closeAll : M unit :=
  w <- getWorker ;;
  forEach (map_to_list (writers w)) closeWriter ;;
  forEach (map_to_list (writersIpv6 w)) closeBucket.

(** [GetCounter] swaps a fresh counter block for the worker's and
    returns the old one. *)
Definition GetCounter : M WorkerCounter :=
  w <- getWorker ;;
  modifyWorker (set_counter zeroCounter) ;;
  ret (counter w).

(** *** Notions the properties are stated with *)

(** The members of the emit set of an IPv6 packet, as (address, MAC)
    pairs in the order of emission. *)
Definition emitted6 (e : EmitSet) : list (Net.IP * Z) := zip (ip6s e) (macs e).

(** The fields of a worker that no method of the registry writes. *)
Definition sameConfig (w w' : Worker) : Prop :=
  index w' = index w /\ maxConcurrentFiles w' = maxConcurrentFiles w /\
  maxFileSize w' = maxFileSize w /\ maxFilePeriod w' = maxFilePeriod w /\
  baseDirectory w' = baseDirectory w /\ writerBufferSize w' = writerBufferSize w /\
  tcpipChecksum w' = tcpipChecksum w /\ exiting w' = exiting w /\ exited w' = exited w.

(** A writer whose tap type [tapTypeToString] names. *)
Definition printable (ww : WrappedWriter) : Prop := 0 <= tapType ww <= 30.

(** Every writer of both registries has a tap type that
    [tapTypeToString] names, as every writer [generateWrappedWriter]
    returned has. *)
Definition allPrintable (w : Worker) : Prop :=
  map_Forall (fun _ ww => printable ww) (writers w) /\
  map_Forall (fun _ b => Forall printable b) (writersIpv6 w).

(** What the first loop of a tick leaves of the map after the entries
    [l], and what the second loop leaves of the buckets. *)
Definition sweep (P : WrappedWriter -> bool) (m : gmap Z WrappedWriter)
    (l : list (Z * WrappedWriter)) : gmap Z WrappedWriter :=
  foldl (fun m e => if P (snd e) then delete (fst e) m else m) m l.

Definition sweep6 (P : WrappedWriter -> bool) (m : gmap Z (list WrappedWriter))
    (l : list (Z * list WrappedWriter)) : gmap Z (list WrappedWriter) :=
  foldl (fun m e => <[fst e := filter (fun ww => P ww = false) (snd e)]> m) m l.

(** What finishing the writer [ww] leaves of the world and of the
    counters: the file is closed, the statistics of the writer are added
    to the worker's, the file is renamed from its temporary name to the
    name [getFilename] gives it, and FileCloses grows by one. *)
Definition closeFile (base : string) (s : World * WorkerCounter) (ww : WrappedWriter)
    : World * WorkerCounter :=
  let (closed, world1) := Writer_Close (writer ww) (fst s) in
  match getFilename ww base with
  | Ok newFilename =>
      (os_Rename (tempFilename ww) newFilename world1,
       incr_FileCloses (addStats (fst (Writer_GetAndResetStats closed)) (snd s)))
  | Panic _ => s
  end.

(** The writers a tick at [timeNow] finds past the period, in the order
    in which its two loops meet them. *)
Definition expiredWriters (w : Worker) (timeNow : Z) : list WrappedWriter :=
  filter (fun ww => expired w timeNow ww = true) (map_to_list (writers w)).*2
  ++ filter (fun ww => expired w timeNow ww = true)
       (concat (map_to_list (writersIpv6 w)).*2).

(** The IPv4 map holds no more writers than the cap allows. *)
Definition underCap (w : Worker) : Prop :=
  Z.of_nat (size (writers w)) <= maxConcurrentFiles w.

(** The configuration of [w0], and the cap kept if [w0] kept it. *)
Definition capInv (w0 w : Worker) : Prop :=
  sameConfig w0 w /\ (underCap w0 -> underCap w).

(** [keeps I m]: whenever [m] returns, it has kept [I].
    [runs I m]: under [I], [m] returns and keeps [I]. *)
Definition keeps (I : Worker -> Prop) {A : Type} (m : M A) : Prop :=
  forall world w a world' w', I w -> m world w = Ok (a, world', w') -> I w'.

Definition runs (I : Worker -> Prop) {A : Type} (m : M A) : Prop :=
  forall world w, I w -> exists a world' w', m world w = Ok (a, world', w') /\ I w'.

(** The writers of all IPv6 buckets, and of a list of buckets. *)
Definition bucketTotal (m : gmap Z (list WrappedWriter)) : Z :=
  map_fold (fun _ l n => n + Z.of_nat (length l)) 0 m.

Definition listTotal (es : list (Z * list WrappedWriter)) : Z :=
  foldr (fun e n => n + Z.of_nat (length (snd e))) 0 es.

(** Files created, less files closed, less writers open, as a [uint64]. *)
Definition fileBalance (w : Worker) : Z :=
  uint64 (FileCreations (counter w) - FileCloses (counter w) - openWriterCount w).

(** [w'] holds the keys of [w], and buckets of the same lengths. *)
Definition sameShape (w w' : Worker) : Prop :=
  (forall k, is_Some (writers w' !! k) <-> is_Some (writers w !! k)) /\
  (forall k, length <$> (writersIpv6 w' !! k) = length <$> (writersIpv6 w !! k)).

(** No writer of either registry has exceeded the period at [timeNow]. *)
Definition noneExpired (w : Worker) (timeNow : Z) : Prop :=
  map_Forall (fun _ ww => expired w timeNow ww = false) (writers w) /\
  map_Forall (fun _ b => Forall (fun ww => expired w timeNow ww = false) b)
    (writersIpv6 w).

(** The tap type [Process] derives from the port of the packet is one
    that [tapTypeToString] names. *)
Definition printablePort (packet : MetaPacket) : Prop :=
  isISP (InPort packet) = true ->
  0 <= TAPTypeEnum (uint32 (InPort packet - 0x10000)) <= 30.

(** The packets of a batch; a tick is no packet. *)
Definition isPacket (e : option MetaPacket) : Prop := is_Some e.

End Worker.

(** *** Notions for the keys and the names *)

(** An address as a list of four-byte words, the XOR of the words as
    [getWriterIpv6Key] reads them. *)
Definition wordBytes (ws : list (byte * byte * byte * byte)) : list byte :=
  ws ≫= (fun '(b0, b1, b2, b3) => [b0; b1; b2; b3]).

Definition wordOf (wd : byte * byte * byte * byte) : Z :=
  let '(b0, b1, b2, b3) := wd in word32 b0 b1 b2 b3.

Definition xorWords (ws : list (byte * byte * byte * byte)) : Z :=
  foldr (fun wd acc => Z.lxor (wordOf wd) acc) 0 ws.

(** The value of a hexadecimal digit and of a string of such digits,
    read from the left. *)
Definition hex_value (c : ascii) : Z :=
  let n := Z.of_N (N_of_ascii c) in
  if (48 <=? n) && (n <=? 57) then n - 48
  else if (97 <=? n) && (n <=? 102) then n - 87
  else 0.

Fixpoint parse_hex (s : string) (acc : Z) : Z :=
  match s with
  | EmptyString => acc
  | String c s' => parse_hex s' (acc * 16 + hex_value c)
  end.

End Pcap.

(* ================================================================= *)
(** ** Package [flowgenerator]: the UDP path *)

Module FlowGen.

(** *** The records, as far as [flow_udp.go] reads and writes them *)

(** One directional peer of a flow.  [platformTag] stands for the
    platform and endpoint fields of the peer, which only
    [updatePlatformData] writes. *)
Record FlowMetricsPeer : Type := {
  ArrTime0 : Z;
  ArrTimeLast : Z;
  TotalPacketCount : Z;
  PacketCount : Z;
  TotalByteCount : Z;
  ByteCount : Z;
  platformTag : option EndpointInfo
}.

(** The 5-tuple of the flow and its two peers. *)
Record TaggedFlow : Type := {
  IPSrc : Z;
  IPDst : Z;
  PortSrc_ : Z;
  PortDst_ : Z;
  Proto : Z;
  FlowMetricsPeerSrc : FlowMetricsPeer;
  FlowMetricsPeerDst : FlowMetricsPeer
}.

(** The states of a flow.  The UDP path assigns [FLOW_STATE_ESTABLISHED]
    only; the other constructor stands for the remaining states. *)
Inductive FlowState : Type :=
| FLOW_STATE_ESTABLISHED
| FLOW_STATE_other (code : nat).

Record FlowExtra : Type := {
  taggedFlow : TaggedFlow;
  flowState : FlowState;
  timeout : Z;
  recentTime : Z
}.

(** A shard of the flow table (its mutex is not modelled: one call of
    [processUdpPacket] holds it from the lookup to the end). *)
Record FlowCache : Type := {
  flowList : list FlowExtra
}.

Record TimeoutConfig_t : Type := {
  Opening : Z;
  EstablishedRst : Z
}.

(** [TotalNumFlows] and [FloodDropPackets] are [uint64], [CurrNumFlows]
    is the [int32] of [atomic.AddInt32]. *)
Record FlowGeneratorStats : Type := {
  TotalNumFlows : Z;
  CurrNumFlows : Z;
  FloodDropPackets : Z
}.

Record FlowGenerator : Type := {
  hashMap : list FlowCache;
  stats : FlowGeneratorStats;
  flowLimitNum : Z;
  TimeoutConfig : TimeoutConfig_t
}.

(** *** What lies outside the file

    The declarations and methods of package [flowgenerator] that
    [flow_udp.go] uses and that are declared in its other files.
    [keyMatch] returns a pointer into the shard: the model returns the
    position of the flow in [flowList], with the reply flag. *)
Class FlowEnv : Type := {
  hashMapSize : Z;
  hashMapSize_pos : 0 < hashMapSize;
  getQuinTupleHash : MetaPacket -> Z;
  keyMatch : FlowGenerator -> FlowCache -> MetaPacket -> option (nat * bool);
  initFlow : FlowGenerator -> MetaPacket -> Z -> FlowExtra;
  updateFlow : FlowGenerator -> FlowExtra -> MetaPacket -> bool -> FlowExtra;
  updatePlatformData : TaggedFlow -> option EndpointData_t -> bool -> TaggedFlow;
  addFlow : FlowGenerator -> FlowCache -> FlowExtra -> FlowCache
}.

(** *** Field updates *)

Definition set_taggedFlow (tf : TaggedFlow) (fe : FlowExtra) : FlowExtra :=
  {| taggedFlow := tf; flowState := flowState fe; timeout := timeout fe;
     recentTime := recentTime fe |}.

Definition set_flowState (s : FlowState) (fe : FlowExtra) : FlowExtra :=
  {| taggedFlow := taggedFlow fe; flowState := s; timeout := timeout fe;
     recentTime := recentTime fe |}.

Definition set_timeout (t : Z) (fe : FlowExtra) : FlowExtra :=
  {| taggedFlow := taggedFlow fe; flowState := flowState fe; timeout := t;
     recentTime := recentTime fe |}.

Definition set_FlowMetricsPeerSrc (p : FlowMetricsPeer) (tf : TaggedFlow) : TaggedFlow :=
  {| IPSrc := IPSrc tf; IPDst := IPDst tf; PortSrc_ := PortSrc_ tf;
     PortDst_ := PortDst_ tf; Proto := Proto tf;
     FlowMetricsPeerSrc := p; FlowMetricsPeerDst := FlowMetricsPeerDst tf |}.

Definition set_hashMap (m : list FlowCache) (f : FlowGenerator) : FlowGenerator :=
  {| hashMap := m; stats := stats f; flowLimitNum := flowLimitNum f;
     TimeoutConfig := TimeoutConfig f |}.

Definition set_stats (s : FlowGeneratorStats) (f : FlowGenerator) : FlowGenerator :=
  {| hashMap := hashMap f; stats := s; flowLimitNum := flowLimitNum f;
     TimeoutConfig := TimeoutConfig f |}.

Definition incr_FloodDropPackets (s : FlowGeneratorStats) : FlowGeneratorStats :=
  {| TotalNumFlows := TotalNumFlows s; CurrNumFlows := CurrNumFlows s;
     FloodDropPackets := incr64 (FloodDropPackets s) |}.

Definition incr_TotalNumFlows (s : FlowGeneratorStats) : FlowGeneratorStats :=
  {| TotalNumFlows := incr64 (TotalNumFlows s); CurrNumFlows := CurrNumFlows s;
     FloodDropPackets := FloodDropPackets s |}.

(** [atomic.AddInt32(&f.stats.CurrNumFlows, 1)]. *)
Definition add_CurrNumFlows (s : FlowGeneratorStats) : FlowGeneratorStats :=
  {| TotalNumFlows := TotalNumFlows s; CurrNumFlows := int32 (CurrNumFlows s + 1);
     FloodDropPackets := FloodDropPackets s |}.

(** The six counters and times of a peer. *)
Definition metricsOf (p : FlowMetricsPeer) : Z * Z * Z * Z * Z * Z :=
  (ArrTime0 p, ArrTimeLast p, TotalPacketCount p, PacketCount p,
   TotalByteCount p, ByteCount p).

Section Udp.
Context `{FlowEnv}.

(** *** [flow_udp.go] *)

Definition initUdpFlow (f : FlowGenerator) (meta : MetaPacket) : FlowExtra :=
  let now := Timestamp meta in
  let flowExtra := initFlow f meta now in
  let tf := taggedFlow flowExtra in
  let src := FlowMetricsPeerSrc tf in
  let src :=
    {| ArrTime0 := now;
       ArrTimeLast := now;
       TotalPacketCount := 1;
       PacketCount := 1;
       TotalByteCount := uint64 (PacketLen meta);
       ByteCount := uint64 (PacketLen meta);
       platformTag := platformTag src |} in
  let tf := set_FlowMetricsPeerSrc src tf in
  let tf := updatePlatformData tf (EndpointData meta) false in
  let flowExtra := set_taggedFlow tf flowExtra in
  let flowExtra := set_flowState FLOW_STATE_ESTABLISHED flowExtra in
  set_timeout (Opening (TimeoutConfig f)) flowExtra.

Definition updateUdpFlow (f : FlowGenerator) (flowExtra : FlowExtra)
    (meta : MetaPacket) (reply : bool) : FlowExtra :=
  let flowExtra := updateFlow f flowExtra meta reply in
  if reply then set_timeout (EstablishedRst (TimeoutConfig f)) flowExtra
  else flowExtra.

(** The index of the shard of a packet. *)
Definition shardIndex (meta : MetaPacket) : nat :=
  Z.to_nat (uint64 (getQuinTupleHash meta) mod hashMapSize).

(** [processUdpPacket] returns nothing; the result is the generator as
    the call leaves it.  The shard and the matched flow are reached
    through pointers, so the updated records are written back at their
    positions. *)
Definition processUdpPacket (f : FlowGenerator) (meta : MetaPacket) : Res FlowGenerator :=
  let i := shardIndex meta in
  match hashMap f !! i with
  | None => Panic "index out of range"
  | Some flowCache =>
      match keyMatch f flowCache meta with
      | Some (j, reply) =>
          match flowList flowCache !! j with
          | None => Panic "invalid memory address or nil pointer dereference"
          | Some flowExtra =>
              let flowExtra := updateUdpFlow f flowExtra meta reply in
              let flowCache := {| flowList := <[j := flowExtra]> (flowList flowCache) |} in
              Ok (set_hashMap (<[i := flowCache]> (hashMap f)) f)
          end
      | None =>
          if CurrNumFlows (stats f) >=? flowLimitNum f then
            Ok (set_stats (incr_FloodDropPackets (stats f)) f)
          else
            let flowExtra := initUdpFlow f meta in
            let f := set_stats (incr_TotalNumFlows (stats f)) f in
            let flowCache := addFlow f flowCache flowExtra in
            let f := set_hashMap (<[i := flowCache]> (hashMap f)) f in
            Ok (set_stats (add_CurrNumFlows (stats f)) f)
      end
  end.

End Udp.

End FlowGen.

(* ================================================================= *)
(** ** The helpers of package [flowgenerator], from the specification

    [flow_udp.go] calls methods that are declared in other files of its
    package.  The theorems below hold for every [FlowEnv]; this instance
    follows what the specification says about the helpers, and is the
    one the concrete runs use. *)

Module FlowSpecModel.

Import FlowGen.

(** Modelled from the spec: the number of shards [hashMapSize], a power
    of two. *)
Definition hashMapSize : Z := 16.

(** Modelled from the spec: [getQuinTupleHash], a hash of (proto, ipSrc,
    ipDst, portSrc, portDst) that is the same for both directions of a
    5-tuple. *)
Definition getQuinTupleHash (meta : MetaPacket) : Z :=
  uint64 (Z.lxor (Protocol meta)
            (Z.lxor (Z.lxor (IpSrc meta) (IpDst meta))
                    (Z.lxor (PortSrc meta) (PortDst meta)))).

(** Modelled from the spec: whether a flow matches a packet: in the
    forward direction ([Some false]), in the reversed one, where the
    source side of the packet is the destination side of the flow
    ([Some true]), or not at all. *)
Definition flowMatch (fe : FlowExtra) (meta : MetaPacket) : option bool :=
  let tf := taggedFlow fe in
  if (Proto tf =? Protocol meta)
     && (IPSrc tf =? IpSrc meta) && (IPDst tf =? IpDst meta)
     && (PortSrc_ tf =? PortSrc meta) && (PortDst_ tf =? PortDst meta)
  then Some false
  else if (Proto tf =? Protocol meta)
     && (IPSrc tf =? IpDst meta) && (IPDst tf =? IpSrc meta)
     && (PortSrc_ tf =? PortDst meta) && (PortDst_ tf =? PortSrc meta)
  then Some true
  else None.

Fixpoint scan (l : list FlowExtra) (meta : MetaPacket) (j : nat) : option (nat * bool) :=
  match l with
  | [] => None
  | fe :: l' =>
      match flowMatch fe meta with
      | Some reply => Some (j, reply)
      | None => scan l' meta (S j)
      end
  end.

(** Modelled from the spec: [keyMatch], the scan of the shard for a
    matching flow; the first match in insertion order wins. *)
Definition keyMatch (f : FlowGenerator) (c : FlowCache) (meta : MetaPacket)
    : option (nat * bool) :=
  scan (flowList c) meta 0.

Definition emptyPeer : FlowMetricsPeer :=
  {| ArrTime0 := 0; ArrTimeLast := 0; TotalPacketCount := 0; PacketCount := 0;
     TotalByteCount := 0; ByteCount := 0; platformTag := None |}.

(** Modelled from the spec: [initFlow], a new record for the 5-tuple of
    the packet, with no packet counted yet. *)
Definition initFlow (f : FlowGenerator) (meta : MetaPacket) (now : Z) : FlowExtra :=
  {| taggedFlow :=
       {| IPSrc := IpSrc meta; IPDst := IpDst meta; PortSrc_ := PortSrc meta;
          PortDst_ := PortDst meta; Proto := Protocol meta;
          FlowMetricsPeerSrc := emptyPeer; FlowMetricsPeerDst := emptyPeer |};
     flowState := FLOW_STATE_other 0;
     timeout := 0;
     recentTime := now |}.

Definition countPacket (meta : MetaPacket) (p : FlowMetricsPeer) : FlowMetricsPeer :=
  {| ArrTime0 := ArrTime0 p;
     ArrTimeLast := Timestamp meta;
     TotalPacketCount := incr64 (TotalPacketCount p);
     PacketCount := incr64 (PacketCount p);
     TotalByteCount := add64 (TotalByteCount p) (uint64 (PacketLen meta));
     ByteCount := add64 (ByteCount p) (uint64 (PacketLen meta));
     platformTag := platformTag p |}.

(** Modelled from the spec: [updateFlow], which updates the byte and
    packet counters of the peer selected by [reply] and advances its
    [ArrTimeLast]. *)
Definition updateFlow (f : FlowGenerator) (fe : FlowExtra) (meta : MetaPacket)
    (reply : bool) : FlowExtra :=
  let tf := taggedFlow fe in
  let tf :=
    if reply then
      {| IPSrc := IPSrc tf; IPDst := IPDst tf; PortSrc_ := PortSrc_ tf;
         PortDst_ := PortDst_ tf; Proto := Proto tf;
         FlowMetricsPeerSrc := FlowMetricsPeerSrc tf;
         FlowMetricsPeerDst := countPacket meta (FlowMetricsPeerDst tf) |}
    else
      set_FlowMetricsPeerSrc (countPacket meta (FlowMetricsPeerSrc tf)) tf in
  set_taggedFlow tf fe.

Definition set_platformTag (t : option EndpointInfo) (p : FlowMetricsPeer) : FlowMetricsPeer :=
  {| ArrTime0 := ArrTime0 p; ArrTimeLast := ArrTimeLast p;
     TotalPacketCount := TotalPacketCount p; PacketCount := PacketCount p;
     TotalByteCount := TotalByteCount p; ByteCount := ByteCount p;
     platformTag := t |}.

(** Modelled from the spec: [updatePlatformData], which installs the
    platform and endpoint tags of the two peers from the endpoint data
    of the packet, the sides exchanged when [reverse] is set. *)
Definition updatePlatformData (tf : TaggedFlow) (ed : option EndpointData_t)
    (reverse : bool) : TaggedFlow :=
  match ed with
  | None => tf
  | Some ed =>
      let srcInfo := if reverse then DstInfo ed else SrcInfo ed in
      let dstInfo := if reverse then SrcInfo ed else DstInfo ed in
      {| IPSrc := IPSrc tf; IPDst := IPDst tf; PortSrc_ := PortSrc_ tf;
         PortDst_ := PortDst_ tf; Proto := Proto tf;
         FlowMetricsPeerSrc := set_platformTag (Some srcInfo) (FlowMetricsPeerSrc tf);
         FlowMetricsPeerDst := set_platformTag (Some dstInfo) (FlowMetricsPeerDst tf) |}
  end.

(** Modelled from the spec: [addFlow], the insertion of a flow into the
    insertion-ordered collection of a shard. *)
Definition addFlow (f : FlowGenerator) (c : FlowCache) (fe : FlowExtra) : FlowCache :=
  {| flowList := flowList c ++ [fe] |}.

#[export] Instance flowEnv : FlowEnv :=
  {| FlowGen.hashMapSize := hashMapSize;
     FlowGen.hashMapSize_pos := eq_refl;
     FlowGen.getQuinTupleHash := getQuinTupleHash;
     FlowGen.keyMatch := keyMatch;
     FlowGen.initFlow := initFlow;
     FlowGen.updateFlow := updateFlow;
     FlowGen.updatePlatformData := updatePlatformData;
     FlowGen.addFlow := addFlow |}.

(** A generator with sixteen empty shards. *)
Definition newFlowGenerator (limit opening establishedRst : Z) : FlowGenerator :=
  {| hashMap := replicate 16 {| flowList := [] |};
     stats := {| TotalNumFlows := 0; CurrNumFlows := 0; FloodDropPackets := 0 |};
     flowLimitNum := limit;
     TimeoutConfig := {| Opening := opening; EstablishedRst := establishedRst |} |}.

(** A UDP packet with the given 5-tuple, time and length. *)
Definition udpPacket (ipSrc ipDst portSrc portDst ts len : Z) : MetaPacket :=
  {| Timestamp := ts; InPort := 0x30001; EthType := 0x0800; PacketLen := len;
     MacSrc := 1; MacDst := 2; IpSrc := ipSrc; IpDst := ipDst;
     Ip6Src := []; Ip6Dst := []; Protocol := 17; PortSrc := portSrc;
     PortDst := portDst; L2End0 := true; L2End1 := false;
     EndpointData := None; PolicyData := None |}.

(** The packets of the scenarios of the specification: a request from
    10.0.0.1:1000 to 10.0.0.2:53 at time 7000, its reply at time 7001,
    and requests of two other 5-tuples. *)
Definition request : MetaPacket := udpPacket 0x0a000001 0x0a000002 1000 53 7000 100.
Definition reply : MetaPacket := udpPacket 0x0a000002 0x0a000001 53 1000 7001 200.
Definition request2 : MetaPacket := udpPacket 0x0a000003 0x0a000002 1001 53 7002 100.
Definition request3 : MetaPacket := udpPacket 0x0a000004 0x0a000002 1002 53 7003 100.

(** [processUdpPacket] on the packets of a list, one after the other. *)
Fixpoint processAll (f : FlowGenerator) (packets : list MetaPacket) : Res FlowGenerator :=
  match packets with
  | [] => Ok f
  | meta :: rest => res_bind (processUdpPacket f meta) (fun f' => processAll f' rest)
  end.

(** The generator after the packets, or as it was when a call panics. *)
Definition after (f : FlowGenerator) (packets : list MetaPacket) : FlowGenerator :=
  match processAll f packets with
  | Ok f' => f'
  | Panic _ => f
  end.

End FlowSpecModel.

(* ================================================================= *)
(** ** A simulated environment for the pcap worker

    The theorems below hold for every [PcapEnv].  The concrete runs use
    this one: the world is the log of the calls that reached the file
    system and the packet pool, newest first; creating and writing a
    file always succeed. *)

Module PcapSim.

Import Pcap.

Inductive Event : Type :=
| EvMkdirAll (directory : string)
| EvCreate (name : string)
| EvWrite (name : string) (len : Z)
| EvClose (name : string)
| EvRename (oldName newName : string)
| EvRelease (timestamp : Z).

Record SimWriter : Type := {
  path : string;
  fileSize : Z;
  bufferSize : Z;
  simStats : WriterCounter
}.

Definition noStats : WriterCounter :=
  {| totalBufferedCount := 0; totalWrittenCount := 0;
     totalBufferedBytes := 0; totalWrittenBytes := 0 |}.

Definition isMkdirOf (directory : string) (e : Event) : bool :=
  match e with
  | EvMkdirAll d => if decide (d = directory) then true else false
  | _ => false
  end.

Definition simNewWriter (name : string) (bufSize : Z) (checksum : bool)
    (world : list Event) : option SimWriter * list Event :=
  (Some {| path := name; fileSize := 24; bufferSize := 0; simStats := noStats |},
   EvCreate name :: world).

Definition simWrite (x : SimWriter) (packet : MetaPacket) (world : list Event)
    : SimWriter * bool * list Event :=
  ({| path := path x; fileSize := fileSize x;
      bufferSize := bufferSize x + 16 + PacketLen packet;
      simStats :=
        {| totalBufferedCount := totalBufferedCount (simStats x) + 1;
           totalWrittenCount := totalWrittenCount (simStats x);
           totalBufferedBytes := totalBufferedBytes (simStats x) + PacketLen packet;
           totalWrittenBytes := totalWrittenBytes (simStats x) |} |},
   false,
   EvWrite (path x) (PacketLen packet) :: world).

Definition simClose (x : SimWriter) (world : list Event) : SimWriter * list Event :=
  ({| path := path x; fileSize := fileSize x + bufferSize x; bufferSize := 0;
      simStats := simStats x |},
   EvClose (path x) :: world).

Definition simGetAndResetStats (x : SimWriter) : WriterCounter * SimWriter :=
  (simStats x,
   {| path := path x; fileSize := fileSize x; bufferSize := bufferSize x;
      simStats := noStats |}).

Definition simIpToUint32 (ip : Net.IP) : Z :=
  match Net.To4 ip with
  | Some [b0; b1; b2; b3] =>
      Z.lor (Z.lor (Z.shiftl (byteZ b0) 24) (Z.shiftl (byteZ b1) 16))
            (Z.lor (Z.shiftl (byteZ b2) 8) (byteZ b3))
  | _ => 0
  end.

(** The bytes of an address in hexadecimal, two digits each. *)
Fixpoint simIPString (ip : Net.IP) : string :=
  match ip with
  | [] => EmptyString
  | b :: rest => Fmt.pad0 2 (Fmt.x (byteZ b)) +:+ simIPString rest
  end.

#[export] Instance env : PcapEnv :=
  {| World := list Event;
     Writer := SimWriter;
     NewWriter := simNewWriter;
     Writer_Write := simWrite;
     Writer_Close := simClose;
     Writer_FileSize := fileSize;
     Writer_BufferSize := bufferSize;
     Writer_GetAndResetStats := simGetAndResetStats;
     os_Stat_IsNotExist := fun directory world => negb (existsb (isMkdirOf directory) world);
     os_MkdirAll := fun directory world => EvMkdirAll directory :: world;
     os_Rename := fun oldName newName world => EvRename oldName newName :: world;
     ReleaseMetaPacket := fun packet world => EvRelease (Timestamp packet) :: world;
     time_Format := Fmt.d;
     IP_String := simIPString;
     IpToUint32 := simIpToUint32;
     ACTION_PACKET_CAPTURING := 16;
     ACTION_PACKET_CAPTURING_bit := fun e : 16 = 0 => ltac:(discriminate e);
     TAPTypeEnum_bits := 8;
     TAPTypeEnum_bits_ge := Z.le_refl 8 |}.

Definition noCounts : WorkerCounter :=
  {| FileCreations := 0; FileCloses := 0; FileRejections := 0;
     FileCreationFailures := 0; FileWritingFailures := 0; BufferedCount := 0;
     WrittenCount := 0; BufferedBytes := 0; WrittenBytes := 0 |}.

(** A worker with no open writer. *)
Definition freshWorker {W : Type} (maxFiles maxSize maxPeriod : Z) : WorkerOf W :=
  {| index := 0; maxConcurrentFiles := maxFiles; maxFileSize := maxSize;
     maxFilePeriod := maxPeriod; baseDirectory := "/pcap"; counter := noCounts;
     writers := ∅; writersIpv6 := ∅; writerBufferSize := 65536;
     tcpipChecksum := false; exiting := false; exited := false |}.

(** The addresses [100::] and [0:0:100::]: the first word of the one is
    the second word of the other, and all other words are zero. *)
Definition ip6A : Net.IP :=
  [x01; x00; x00; x00; x00; x00; x00; x00; x00; x00; x00; x00; x00; x00; x00; x00].
Definition ip6B : Net.IP :=
  [x00; x00; x00; x00; x01; x00; x00; x00; x00; x00; x00; x00; x00; x00; x00; x00].

(** The multicast address [ff02::1]. *)
Definition ip6M : Net.IP :=
  [xff; x02; x00; x00; x00; x00; x00; x00; x00; x00; x00; x00; x00; x00; x00; x01].

Definition someEndpoints : EndpointData_t :=
  {| SrcInfo := {| L3EpcId := 1; L2End := true |};
     DstInfo := {| L3EpcId := 0; L2End := false |} |}.

(** An IPv6 packet from [src] seen on the port [inPort], with one
    policy action of ACL group 5 and the given action flags. *)
Definition ip6Packet (flags inPort : Z) (src : Net.IP) (ts : Z) : MetaPacket :=
  {| Timestamp := ts; InPort := inPort; EthType := EthernetTypeIPv6;
     PacketLen := 100; MacSrc := 0x0a0b0c0d0e0f; MacDst := BROADCAST_MAC;
     IpSrc := 0; IpDst := 0; Ip6Src := src; Ip6Dst := []; Protocol := 17;
     PortSrc := 1000; PortDst := 53; L2End0 := true; L2End1 := false;
     EndpointData := Some someEndpoints;
     PolicyData :=
       Some {| AclActions := [ {| GetACLGID := 5; GetActionFlags := flags |} ] |} |}.

(** An IPv4 packet from 10.0.0.1 seen on the port [inPort], with one
    policy action of ACL group 5 and the given action flags. *)
Definition ip4Packet (flags inPort ts : Z) : MetaPacket :=
  {| Timestamp := ts; InPort := inPort; EthType := 0x0800;
     PacketLen := 100; MacSrc := 0x0a0b0c0d0e0f; MacDst := BROADCAST_MAC;
     IpSrc := 0x0a000001; IpDst := 0x0a000002; Ip6Src := []; Ip6Dst := [];
     Protocol := 17; PortSrc := 1000; PortDst := 53; L2End0 := true;
     L2End1 := false;
     EndpointData := Some someEndpoints;
     PolicyData :=
       Some {| AclActions := [ {| GetACLGID := 5; GetActionFlags := flags |} ] |} |}.

(** A worker that holds one open IPv4 writer, whose first packet came at
    [first]. *)
Definition someWriter (first : Z) : WrappedWriterOf SimWriter :=
  {| writer :=
       {| path := "/pcap/5/tor_0a0b0c0d0e0f_010000000001_1000_.0.pcap.temp";
          fileSize := 24; bufferSize := 116; simStats := noStats |};
     tapType := 3; aclGID := 5; ip := 0x0a000001; ip6 := [];
     mac := 0x0a0b0c0d0e0f; tid := 0;
     tempFilename := "/pcap/5/tor_0a0b0c0d0e0f_010000000001_1000_.0.pcap.temp";
     firstPacketTime := first; lastPacketTime := first |}.

Definition workerWith (first : Z) : WorkerOf SimWriter :=
  set_writers {[ getWriterKey 0x0a000001 5 3 := someWriter first ]}
    (freshWorker 10 1048576 60000000000).

(** A second open file, of 10.0.0.2, and a worker that holds both. *)
Definition otherWriter (first : Z) : WrappedWriterOf SimWriter :=
  {| writer :=
       {| path := "/pcap/5/tor_0a0b0c0d0e0f_010000000002_2000_.0.pcap.temp";
          fileSize := 24; bufferSize := 116; simStats := noStats |};
     tapType := 3; aclGID := 5; ip := 0x0a000002; ip6 := [];
     mac := 0x0a0b0c0d0e0f; tid := 0;
     tempFilename := "/pcap/5/tor_0a0b0c0d0e0f_010000000002_2000_.0.pcap.temp";
     firstPacketTime := first; lastPacketTime := first |}.

Definition workerWithTwo (first second : Z) : WorkerOf SimWriter :=
  set_writers
    (<[getWriterKey 0x0a000001 5 3 := someWriter first]>
       (<[getWriterKey 0x0a000002 5 3 := otherWriter second]> ∅))
    (freshWorker 10 1048576 60000000000).

(** The same environment on a full disk: no file is created and no
    write succeeds. *)
Definition fullDiskEnv : PcapEnv :=
  {| World := list Event;
     Writer := SimWriter;
     NewWriter := fun name bufSize checksum world => (None, world);
     Writer_Write := fun x packet world => (x, true, world);
     Writer_Close := simClose;
     Writer_FileSize := fileSize;
     Writer_BufferSize := bufferSize;
     Writer_GetAndResetStats := simGetAndResetStats;
     os_Stat_IsNotExist := fun directory world => negb (existsb (isMkdirOf directory) world);
     os_MkdirAll := fun directory world => EvMkdirAll directory :: world;
     os_Rename := fun oldName newName world => EvRename oldName newName :: world;
     ReleaseMetaPacket := fun packet world => EvRelease (Timestamp packet) :: world;
     time_Format := Fmt.d;
     IP_String := simIPString;
     IpToUint32 := simIpToUint32;
     ACTION_PACKET_CAPTURING := 16;
     ACTION_PACKET_CAPTURING_bit := fun e : 16 = 0 => ltac:(discriminate e);
     TAPTypeEnum_bits := 8;
     TAPTypeEnum_bits_ge := Z.le_refl 8 |}.

(** The IPv4-mapped address [::ffff:10.0.0.1]. *)
Definition ip6Mapped : Net.IP :=
  [x00; x00; x00; x00; x00; x00; x00; x00; x00; x00; xff; xff; x0a; x00; x00; x01].

(** A manager of four queues that allows [maxFiles] files. *)
Definition someManager (maxFiles : Z) : WorkerManager.t :=
  {| WorkerManager.maxConcurrentFiles := maxFiles;
     WorkerManager.nQueues := 4;
     WorkerManager.maxFileSizeMB := 1;
     WorkerManager.maxFilePeriodSecond := 60;
     WorkerManager.baseDirectory := "/pcap";
     WorkerManager.blockSizeKB := 64;
     WorkerManager.tcpipChecksum := false |}.

(** A batch: an IPv4 packet of a ToR port, a tick, an IPv6 packet. *)
Definition someBatch : list (option MetaPacket) :=
  [Some (ip4Packet 16 0x30001 1000); None; Some (ip6Packet 16 0x30001 ip6A 2000)].

(** A worker with no writer that has been told to exit. *)
Definition exitingWorker : WorkerOf SimWriter :=
  {| index := 0; maxConcurrentFiles := 10; maxFileSize := 1048576;
     maxFilePeriod := 60000000000; baseDirectory := "/pcap"; counter := noCounts;
     writers := ∅; writersIpv6 := ∅; writerBufferSize := 65536;
     tcpipChecksum := false; exiting := true; exited := false |}.

End PcapSim.

(* ================================================================= *)
(** * Properties *)

(** ** Integers, formats and addresses *)

Module GoIntFacts.

Lemma uint_small w x : is_uint w x -> uint w x = x.
Proof. intros H. unfold uint. apply Z.mod_small. exact H. Qed.

Lemma uint_range w x : 0 <= w -> is_uint w (uint w x).
Proof.
  intros Hw. unfold is_uint, uint. apply Z.mod_pos_bound.
  apply Z.pow_pos_nonneg; lia.
Qed.

Lemma sint_small w x : 0 < w -> is_sint w x -> sint w x = x.
Proof.
  intros Hw [Hlo Hhi]. unfold sint.
  assert (Hp : 2 ^ w = 2 * 2 ^ (w - 1)).
  { replace w with (Z.succ (w - 1)) at 1 by lia. apply Z.pow_succ_r. lia. }
  rewrite Z.mod_small; lia.
Qed.

Lemma incr64_small x : 0 <= x < 2 ^ 64 - 1 -> incr64 x = x + 1.
Proof. intros H. unfold incr64, add64, uint64. apply uint_small. unfold is_uint. lia. Qed.

(** A field placed above [n] low bits and a value that fits in those
    bits occupy disjoint bits, so that or-ing them is adding them. *)
Lemma lor_shifted_field a b n :
  0 <= n -> 0 <= b < 2 ^ n -> Z.lor (a * 2 ^ n) b = a * 2 ^ n + b.
Proof.
  intros Hn Hb. symmetry. apply Z.add_nocarry_lor.
  apply Z.bits_inj'. intros i Hi.
  rewrite Z.land_spec, Z.bits_0.
  destruct (Z.lt_ge_cases i n) as [Hlt | Hge].
  - rewrite Z.mul_pow2_bits_low by lia. reflexivity.
  - rewrite <- (Z.mod_small b (2 ^ n)) by lia.
    rewrite Z.mod_pow2_bits_high by lia. apply andb_false_r.
Qed.

End GoIntFacts.

Example fmt_d_31 : Fmt.d 31 = "31"%string.
Proof. reflexivity. Qed.

Example fmt_x012_mac : Fmt.x012 0x0a1b2c3d4e5f = "0a1b2c3d4e5f"%string.
Proof. reflexivity. Qed.

Example fmt_d03_7 : Fmt.d03 7 = "007"%string.
Proof. reflexivity. Qed.

Module NetFacts.

Import Net.

Lemma bytes_eqb_eq a b : bytes_eqb a b = true <-> a = b.
Proof.
  revert b. induction a as [| x a' IH]; intros [| y b']; simpl; split;
    try congruence; try reflexivity.
  - intros H. apply andb_true_iff in H as [Hx Ht].
    apply Byte.byte_dec_bl in Hx. apply IH in Ht. congruence.
  - intros H. injection H as -> ->. apply andb_true_iff. split.
    + apply Byte.byte_dec_lb. reflexivity.
    + apply IH. reflexivity.
Qed.

(** On two slices of one length [Equal] is equality of all bytes. *)
Lemma Equal_same_length ip x :
  length ip = length x -> (Equal ip x = true <-> ip = x).
Proof.
  intros Hlen. unfold Equal. rewrite Hlen, Nat.eqb_refl. apply bytes_eqb_eq.
Qed.

(** The nil address equals no 16-byte address. *)
Lemma Equal_nil_16 x : length x = IPv6len -> Equal [] x = false.
Proof. intros Hlen. unfold Equal. simpl. rewrite Hlen. reflexivity. Qed.

Example To4_of_mapped :
  To4 [x00; x00; x00; x00; x00; x00; x00; x00; x00; x00; xff; xff; x0a; x00; x00; x01]
  = Some [x0a; x00; x00; x01].
Proof. reflexivity. Qed.

Example IsMulticast_ff02 :
  IsMulticast [xff; x02; x00; x00; x00; x00; x00; x00; x00; x00; x00; x00; x00; x00; x00; x01]
  = true.
Proof. reflexivity. Qed.

Example IsMulticast_224 : IsMulticast [xe0; x00; x00; x01] = true.
Proof. reflexivity. Qed.

(** An address that is [Equal] to a 16-byte address, and is no 4-byte
    address itself, is that address. *)
Lemma Equal_16 ip x :
  length x = 16%nat -> length ip <> 4%nat -> Equal ip x = true -> ip = x.
Proof.
  intros Hx Hip. unfold Equal, IPv4len, IPv6len. rewrite Hx.
  destruct (Nat.eqb_spec (length ip) 16) as [Hlen | Hlen].
  - apply bytes_eqb_eq.
  - destruct (Nat.eqb_spec (length ip) 4); [contradiction |]. simpl.
    destruct (Nat.eqb_spec (length ip) 16); [contradiction |]. simpl.
    discriminate.
Qed.

End NetFacts.

(* ================================================================= *)
(** ** Tap types and writer keys *)

Module PcapKeys.

Import Pcap GoIntFacts.

Example BROADCAST_MAC_value : BROADCAST_MAC = 0xffffffffffff.
Proof. reflexivity. Qed.

Example BROADCAST_IP_value : BROADCAST_IP = 0xffffffff.
Proof. reflexivity. Qed.

Example ipToString_10_0_0_1 : ipToString 0x0a000001 = "010000000001"%string.
Proof. reflexivity. Qed.

Example macToString_12_digits : macToString 0x0a0b0c = "0000000a0b0c"%string.
Proof. reflexivity. Qed.

Example tapTypeToString_isp7 : tapTypeToString 7 = Ok "isp7"%string.
Proof. reflexivity. Qed.

Example tapTypeToString_isp30 : tapTypeToString 30 = Ok "isp30"%string.
Proof. reflexivity. Qed.

Example tapTypeToString_tor : tapTypeToString ToR = Ok "tor"%string.
Proof. reflexivity. Qed.

Example tapTypeToString_31 :
  tapTypeToString 31 = Panic "unsupported tap type 31"%string.
Proof. reflexivity. Qed.

(** C2, as stated, fails: the tap type 3 lies in 0..30, and
    [tapTypeToString] names it "tor", not "isp3". *)
Lemma tapTypeToString_3_is_not_isp3 :
  0 <= 3 <= 30 /\
  tapTypeToString 3 = Ok "tor"%string /\
  tapTypeToString 3 <> Ok ("isp" +:+ Fmt.d 3).
Proof.
  split; [lia |]. split; [reflexivity |].
  vm_compute. discriminate.
Qed.

(** C2, amended: [tapTypeToString] maps the ToR tap type (the value 3)
    to "tor", every other value N of 0..30 to "isp" followed by N in
    decimal, and panics on every value outside 0..30. *)
Theorem tapTypeToString_spec :
  tapTypeToString ToR = Ok "tor"%string /\
  (forall N, 0 <= N <= 30 -> N <> ToR ->
     tapTypeToString N = Ok ("isp" +:+ Fmt.d N)) /\
  (forall N, N < 0 \/ 30 < N ->
     tapTypeToString N = Panic ("unsupported tap type " +:+ Fmt.d N)).
Proof.
  split; [reflexivity |]. split.
  - intros N Hrange Hne. unfold tapTypeToString, ToR in *.
    destruct (Z.eqb_spec N 3) as [-> | _]; [congruence |].
    destruct (Z.leb_spec 0 N); [| lia].
    destruct (Z.leb_spec N 30); [| lia].
    reflexivity.
  - intros N Hout. unfold tapTypeToString.
    destruct (Z.eqb_spec N 3) as [-> | _]; [lia |].
    destruct (Z.leb_spec 0 N); destruct (Z.leb_spec N 30); simpl;
      try reflexivity; lia.
Qed.

Lemma tapTypeToString_spec_witness :
  tapTypeToString 7 = Ok "isp7"%string /\
  tapTypeToString 255 = Panic "unsupported tap type 255"%string.
Proof.
  destruct tapTypeToString_spec as (_ & Hisp & Hpanic).
  split.
  - apply (Hisp 7); unfold ToR; lia.
  - apply (Hpanic 255); lia.
Defined.

(** The key of an IPv4 writer is the sum of its three fields, each at
    its place, when the address fits 32 bits and the ACL group and the
    tap type fit 16 bits each. *)
Lemma getWriterKey_sum ipInt aclGID tapType :
  is_uint 32 ipInt -> is_uint 16 aclGID -> is_uint 16 tapType ->
  getWriterKey ipInt aclGID tapType = ipInt * 2 ^ 32 + aclGID * 2 ^ 16 + tapType.
Proof.
  unfold is_uint. intros Hip Hacl Htap.
  unfold getWriterKey, shl64, uint64.
  rewrite (uint_small 64 ipInt), (uint_small 64 aclGID), (uint_small 64 tapType)
    by (unfold is_uint; lia).
  rewrite !Z.shiftl_mul_pow2 by lia.
  rewrite (uint_small 64 (ipInt * 2 ^ 32)), (uint_small 64 (aclGID * 2 ^ 16))
    by (unfold is_uint; lia).
  rewrite lor_shifted_field by lia.
  replace (ipInt * 2 ^ 32 + aclGID * 2 ^ 16)
    with ((ipInt * 2 ^ 16 + aclGID) * 2 ^ 16) by lia.
  rewrite lor_shifted_field by lia.
  reflexivity.
Qed.

Example getWriterKey_10_0_0_1 :
  getWriterKey 0x0a000001 5 3 = 0x0a00000100050003.
Proof. reflexivity. Qed.

(** Beyond 16 bits an ACL group runs into the address field. *)
Example getWriterKey_wide_aclGID :
  getWriterKey 0 0x10000 0 = getWriterKey 1 0 0.
Proof. reflexivity. Qed.

(** C3: [getWriterKey] is injective on the triples (ipv4, aclGID,
    tapType) whose address is a 32-bit value and whose ACL group and tap
    type fit the 16 bits the key gives each of them: equal keys imply
    equal triples. *)
Theorem getWriterKey_injective ip1 acl1 tap1 ip2 acl2 tap2 :
  is_uint 32 ip1 -> is_uint 16 acl1 -> is_uint 16 tap1 ->
  is_uint 32 ip2 -> is_uint 16 acl2 -> is_uint 16 tap2 ->
  getWriterKey ip1 acl1 tap1 = getWriterKey ip2 acl2 tap2 ->
  ip1 = ip2 /\ acl1 = acl2 /\ tap1 = tap2.
Proof.
  intros Hi1 Ha1 Ht1 Hi2 Ha2 Ht2.
  rewrite !getWriterKey_sum by assumption.
  unfold is_uint in *.
  change (2 ^ 32) with 4294967296 in *.
  change (2 ^ 16) with 65536 in *.
  lia.
Qed.

Lemma getWriterKey_injective_witness :
  getWriterKey 0x0a000001 5 3 = 0x0a00000100050003 /\
  (0x0a000001 = 0x0a000001 /\ 5 = 5 /\ 3 = 3).
Proof.
  split; [reflexivity |].
  apply (getWriterKey_injective 0x0a000001 5 3 0x0a000001 5 3);
    unfold is_uint; lia.
Defined.

End PcapKeys.


(* ================================================================= *)
(** ** Keys and names: what tells two capture files apart *)

Module PcapNames.

Import Pcap GoIntFacts PcapKeys PcapSim.

(** *** The IPv6 key *)

Lemma ipHashLoop_words ws : forall h,
  ipHashLoop (wordBytes ws) h = Z.lxor h (xorWords ws).
Proof.
  induction ws as [| [[[b0 b1] b2] b3] ws IH]; intros h.
  - simpl. rewrite Z.lxor_0_r. reflexivity.
  - change (wordBytes (((b0, b1, b2, b3)) :: ws))
      with (b0 :: b1 :: b2 :: b3 :: wordBytes ws).
    cbn [ipHashLoop]. rewrite IH. cbn [xorWords foldr wordOf].
    apply Z.lxor_assoc.
Qed.

Lemma xorWords_perm ws ws' : Permutation ws ws' -> xorWords ws = xorWords ws'.
Proof.
  induction 1 as [| a l l' _ IH | a b l | l1 l2 l3 _ IH1 _ IH2]; simpl.
  - reflexivity.
  - rewrite IH. reflexivity.
  - rewrite <- !Z.lxor_assoc. f_equal. apply Z.lxor_comm.
  - congruence.
Qed.

(** X1: [getWriterIpv6Key] folds the four-byte words of the address with
    XOR, so the key does not depend on the order of the words: two
    addresses whose words are a permutation of each other have one key,
    for every ACL group and tap type. *)
Theorem getWriterIpv6Key_ignores_word_order ws ws' aclGID tapType :
  Permutation ws ws' ->
  getWriterIpv6Key (wordBytes ws) aclGID tapType
  = getWriterIpv6Key (wordBytes ws') aclGID tapType.
Proof.
  intros Hp. unfold getWriterIpv6Key.
  rewrite !ipHashLoop_words, (xorWords_perm ws ws' Hp). reflexivity.
Qed.

Lemma getWriterIpv6Key_ignores_word_order_witness :
  getWriterIpv6Key ip6A 5 ToR = getWriterIpv6Key ip6B 5 ToR.
Proof.
  exact (getWriterIpv6Key_ignores_word_order
           [(x01, x00, x00, x00); (x00, x00, x00, x00);
            (x00, x00, x00, x00); (x00, x00, x00, x00)]
           [(x00, x00, x00, x00); (x01, x00, x00, x00);
            (x00, x00, x00, x00); (x00, x00, x00, x00)]
           5 ToR (perm_swap _ _ _)).
Defined.

Lemma byteZ_range b : 0 <= byteZ b < 256.
Proof. unfold byteZ. pose proof (Byte.to_N_bounded b). lia. Qed.

Lemma word32_sum b0 b1 b2 b3 :
  word32 b0 b1 b2 b3
  = byteZ b0 + byteZ b1 * 2 ^ 8 + byteZ b2 * 2 ^ 16 + byteZ b3 * 2 ^ 24.
Proof.
  pose proof (byteZ_range b0). pose proof (byteZ_range b1).
  pose proof (byteZ_range b2). pose proof (byteZ_range b3).
  unfold word32. rewrite !Z.shiftl_mul_pow2 by lia.
  rewrite (Z.lor_comm (byteZ b0) (byteZ b1 * 2 ^ 8)).
  rewrite (lor_shifted_field (byteZ b1) (byteZ b0) 8) by lia.
  rewrite (Z.lor_comm (byteZ b2 * 2 ^ 16) (byteZ b3 * 2 ^ 24)).
  rewrite (lor_shifted_field (byteZ b3) (byteZ b2 * 2 ^ 16) 24) by lia.
  rewrite Z.lor_comm.
  replace (byteZ b3 * 2 ^ 24 + byteZ b2 * 2 ^ 16)
    with ((byteZ b3 * 2 ^ 8 + byteZ b2) * 2 ^ 16) by lia.
  rewrite lor_shifted_field by lia. lia.
Qed.

Lemma word32_range b0 b1 b2 b3 : is_uint 32 (word32 b0 b1 b2 b3).
Proof.
  pose proof (byteZ_range b0). pose proof (byteZ_range b1).
  pose proof (byteZ_range b2). pose proof (byteZ_range b3).
  rewrite word32_sum. unfold is_uint. lia.
Qed.

Lemma log2_below n a : 0 <= n -> 0 <= a < 2 ^ n -> a = 0 \/ Z.log2 a < n.
Proof.
  intros Hn Ha. destruct (Z.eq_dec a 0) as [Hz | Hnz]; [left; exact Hz | right].
  apply Z.log2_lt_pow2; lia.
Qed.

Lemma lxor_range n a b : 0 <= n -> is_uint n a -> is_uint n b -> is_uint n (Z.lxor a b).
Proof.
  unfold is_uint. intros Hn Ha Hb.
  assert (Hpos : 0 < 2 ^ n) by (apply Z.pow_pos_nonneg; lia).
  assert (Hx : 0 <= Z.lxor a b) by (apply Z.lxor_nonneg; lia).
  split; [exact Hx |].
  destruct (Z.eq_dec (Z.lxor a b) 0) as [Hz | Hnz]; [rewrite Hz; exact Hpos |].
  apply Z.log2_lt_pow2; [lia |].
  eapply Z.le_lt_trans; [apply Z.log2_lxor; lia |].
  destruct (log2_below n a Hn Ha) as [-> | Hla];
    destruct (log2_below n b Hn Hb) as [-> | Hlb].
  - rewrite Z.lxor_0_l in Hnz. congruence.
  - simpl. apply Z.max_lub_lt; [| exact Hlb].
    destruct (Z.eq_dec n 0) as [-> | ?]; [| lia].
    simpl in Hb. assert (b = 0) by lia. subst b. rewrite Z.lxor_0_l in Hnz. congruence.
  - simpl. apply Z.max_lub_lt; [exact Hla |].
    destruct (Z.eq_dec n 0) as [-> | ?]; [| lia].
    simpl in Ha. assert (a = 0) by lia. subst a. rewrite Z.lxor_0_l in Hnz. congruence.
  - apply Z.max_lub_lt; assumption.
Qed.

Lemma ipHashLoop_range_fuel n : forall ip h,
  (length ip <= n)%nat -> is_uint 32 h -> is_uint 32 (ipHashLoop ip h).
Proof.
  induction n as [| n IH]; intros ip h Hlen Hh.
  - destruct ip; [exact Hh | simpl in Hlen; lia].
  - destruct ip as [| b0 [| b1 [| b2 [| b3 rest]]]]; cbn [ipHashLoop].
    + exact Hh.
    + apply lxor_range; [lia | exact Hh | apply word32_range].
    + apply lxor_range; [lia | exact Hh | apply word32_range].
    + apply lxor_range; [lia | exact Hh | apply word32_range].
    + apply IH.
      * simpl in Hlen |- *. lia.
      * apply lxor_range; [lia | exact Hh | apply word32_range].
Qed.

(** The folded hash is a [uint32]. *)
Lemma ipHashLoop_range ip h : is_uint 32 h -> is_uint 32 (ipHashLoop ip h).
Proof. apply (ipHashLoop_range_fuel (length ip)). lia. Qed.

(** X2: the key of an IPv6 writer holds the ACL group and the tap type
    in fields of their own: two keys that are equal come from one ACL
    group and one tap type (16-bit values), and from addresses of one
    folded hash.  So a bucket never mixes writers of two ACL groups or
    tap types, and the scan of a bucket by address alone is enough. *)
Theorem getWriterIpv6Key_fixes_group_and_tap ip1 acl1 tap1 ip2 acl2 tap2 :
  is_uint 16 acl1 -> is_uint 16 tap1 -> is_uint 16 acl2 -> is_uint 16 tap2 ->
  getWriterIpv6Key ip1 acl1 tap1 = getWriterIpv6Key ip2 acl2 tap2 ->
  acl1 = acl2 /\ tap1 = tap2 /\ ipHashLoop ip1 0 = ipHashLoop ip2 0.
Proof.
  intros Ha1 Ht1 Ha2 Ht2.
  assert (H0 : is_uint 32 0) by (unfold is_uint; lia).
  pose proof (ipHashLoop_range ip1 0 H0) as H1.
  pose proof (ipHashLoop_range ip2 0 H0) as H2.
  change (getWriterIpv6Key ip1 acl1 tap1) with (getWriterKey (ipHashLoop ip1 0) acl1 tap1).
  change (getWriterIpv6Key ip2 acl2 tap2) with (getWriterKey (ipHashLoop ip2 0) acl2 tap2).
  rewrite !getWriterKey_sum by assumption.
  unfold is_uint in *.
  change (2 ^ 32) with 4294967296 in *.
  change (2 ^ 16) with 65536 in *.
  lia.
Qed.

Lemma getWriterIpv6Key_fixes_group_and_tap_witness :
  5 = 5 /\ ToR = ToR /\ ipHashLoop ip6A 0 = ipHashLoop ip6B 0.
Proof.
  apply (getWriterIpv6Key_fixes_group_and_tap ip6A 5 ToR ip6B 5 ToR);
    try (unfold is_uint, ToR; lia).
  reflexivity.
Defined.

(** *** The parts of a file name *)

Lemma length_app_string (s t : string) :
  String.length (s +:+ t) = (String.length s + String.length t)%nat.
Proof.
  induction s as [| c s IH]; [reflexivity |].
  change (S (String.length (s +:+ t)) = S (String.length s + String.length t)).
  rewrite IH. reflexivity.
Qed.

Lemma app_string_inj (s1 t1 s2 t2 : string) :
  String.length s1 = String.length t1 ->
  s1 +:+ s2 = t1 +:+ t2 -> s1 = t1 /\ s2 = t2.
Proof.
  revert t1. induction s1 as [| c s1 IH]; intros [| c' t1] Hlen Heq;
    try discriminate Hlen.
  - split; [reflexivity | exact Heq].
  - change (String c (s1 +:+ s2) = String c' (t1 +:+ t2)) in Heq.
    injection Heq as -> Heq. injection Hlen as Hlen.
    destruct (IH t1 Hlen Heq) as [-> ->]. split; reflexivity.
Qed.

Lemma app_string_empty (s : string) : s +:+ "" = s.
Proof.
  induction s as [| c s IH]; [reflexivity |].
  change (String c (s +:+ "") = String c s). f_equal. exact IH.
Qed.

(** A test that holds on every value of a range holds on each of them. *)
Lemma in_range_seqZ (P : Z -> bool) lo n :
  forallb P (seqZ lo n) = true -> forall x, lo <= x < lo + n -> P x = true.
Proof.
  intros Hall x Hx. rewrite forallb_forall in Hall. apply Hall.
  apply list_elem_of_In. apply elem_of_seqZ. exact Hx.
Qed.

Lemma d03_width x : 0 <= x < 256 -> String.length (Fmt.d03 x) = 3%nat.
Proof.
  intros Hx. apply Nat.eqb_eq.
  apply (in_range_seqZ (fun x => Nat.eqb (String.length (Fmt.d03 x)) 3) 0 256);
    [vm_compute; reflexivity | lia].
Qed.

Lemma d03_inj x y : 0 <= x < 256 -> 0 <= y < 256 -> Fmt.d03 x = Fmt.d03 y -> x = y.
Proof.
  intros Hx Hy Heq.
  assert (Hall : forallb (fun x => forallb (fun y =>
            implb (String.eqb (Fmt.d03 x) (Fmt.d03 y)) (x =? y)) (seqZ 0 256))
            (seqZ 0 256) = true) by (vm_compute; reflexivity).
  pose proof (in_range_seqZ _ 0 256 Hall x ltac:(lia)) as Hrow. cbv beta in Hrow.
  pose proof (in_range_seqZ _ 0 256 Hrow y ltac:(lia)) as Hcell. cbv beta in Hcell.
  rewrite Heq, String.eqb_refl in Hcell. simpl in Hcell.
  apply Z.eqb_eq. exact Hcell.
Qed.

Lemma uint8_range x : 0 <= uint8 x < 256.
Proof. apply (uint_range 8 x). lia. Qed.

(** X3: [ipToString] writes every address in twelve characters, and it
    writes two different 32-bit addresses differently. *)
Theorem ipToString_width_and_injective :
  (forall ip, String.length (ipToString ip) = 12%nat) /\
  (forall ip1 ip2, is_uint 32 ip1 -> is_uint 32 ip2 ->
     ipToString ip1 = ipToString ip2 -> ip1 = ip2).
Proof.
  split.
  - intros ip. unfold ipToString.
    rewrite !length_app_string, !d03_width by apply uint8_range. reflexivity.
  - intros ip1 ip2 H1 H2 Heq. unfold ipToString in Heq.
    apply app_string_inj in Heq as [Ha Heq];
      [| rewrite !d03_width by apply uint8_range; reflexivity].
    apply app_string_inj in Heq as [Hb Heq];
      [| rewrite !d03_width by apply uint8_range; reflexivity].
    apply app_string_inj in Heq as [Hc Hd];
      [| rewrite !d03_width by apply uint8_range; reflexivity].
    apply d03_inj in Ha, Hb, Hc, Hd; try apply uint8_range.
    unfold uint8, uint in *. unfold is_uint in *.
    rewrite !Z.shiftr_div_pow2 in * by lia.
    change (2 ^ 32) with 4294967296 in *. change (2 ^ 24) with 16777216 in *.
    change (2 ^ 16) with 65536 in *. change (2 ^ 8) with 256 in *.
    Z.div_mod_to_equations. lia.
Qed.

Lemma ipToString_width_and_injective_witness :
  String.length (ipToString 0x0a000001) = 12%nat /\
  (ipToString 0x0a000001 = ipToString 0x0a000001 -> 0x0a000001 = 0x0a000001).
Proof.
  destruct ipToString_width_and_injective as [Hwidth Hinj]. split.
  - apply Hwidth.
  - apply Hinj; unfold is_uint; lia.
Defined.

(** X4: [tapTypeToString] gives two tap types that it names two
    different names: "tor" is the name of the tap type 3 alone, and
    "isp<N>" the name of N alone. *)
Theorem tapTypeToString_injective tap1 tap2 s :
  tapTypeToString tap1 = Ok s -> tapTypeToString tap2 = Ok s -> tap1 = tap2.
Proof.
  assert (Hr : forall tap s', tapTypeToString tap = Ok s' -> 0 <= tap < 0 + 31).
  { intros tap s'. unfold tapTypeToString.
    destruct (Z.eqb_spec tap 3); [lia |].
    destruct (Z.leb_spec 0 tap); destruct (Z.leb_spec tap 30); simpl;
      try discriminate. lia. }
  intros H1 H2. pose proof (Hr _ _ H1) as Hr1. pose proof (Hr _ _ H2) as Hr2.
  assert (Hall : forallb (fun x => forallb (fun y =>
            match tapTypeToString x, tapTypeToString y with
            | Ok a, Ok b => implb (String.eqb a b) (x =? y)
            | _, _ => true
            end) (seqZ 0 31)) (seqZ 0 31) = true) by (vm_compute; reflexivity).
  pose proof (in_range_seqZ _ 0 31 Hall tap1 Hr1) as Hrow. cbv beta in Hrow.
  pose proof (in_range_seqZ _ 0 31 Hrow tap2 Hr2) as Hcell. cbv beta in Hcell.
  rewrite H1, H2, String.eqb_refl in Hcell. simpl in Hcell.
  apply Z.eqb_eq. exact Hcell.
Qed.

Lemma tapTypeToString_injective_witness :
  tapTypeToString 7 = Ok "isp7"%string /\ 7 = 7.
Proof.
  split; [reflexivity |].
  apply (tapTypeToString_injective 7 7 "isp7"); reflexivity.
Defined.

Lemma hex_value_digit d : 0 <= d < 16 -> hex_value (Fmt.hex_digit d) = d.
Proof.
  intros Hd.
  assert (Hcases : d = 0 \/ d = 1 \/ d = 2 \/ d = 3 \/ d = 4 \/ d = 5 \/ d = 6 \/
                   d = 7 \/ d = 8 \/ d = 9 \/ d = 10 \/ d = 11 \/ d = 12 \/
                   d = 13 \/ d = 14 \/ d = 15) by lia.
  repeat (destruct Hcases as [-> | Hcases]; [reflexivity |]). subst d. reflexivity.
Qed.

Lemma parse_hex_app s : forall t acc,
  parse_hex (s +:+ t) acc = parse_hex t (parse_hex s acc).
Proof.
  induction s as [| c s IH]; intros t acc; [reflexivity |].
  change (parse_hex (s +:+ t) (acc * 16 + hex_value c)
          = parse_hex t (parse_hex s (acc * 16 + hex_value c))).
  apply IH.
Qed.

Lemma parse_hex_zeros n : parse_hex (Fmt.zeros n) 0 = 0.
Proof. induction n as [| n IH]; [reflexivity | exact IH]. Qed.

Lemma length_zeros n : String.length (Fmt.zeros n) = n.
Proof. induction n as [| n IH]; [reflexivity | simpl; rewrite IH; reflexivity]. Qed.

(** What [hex_go] has written in front of [acc] reads back as [x], and
    a value below [16 ^ n] takes at most [n] digits. *)
Lemma hex_go_spec fuel : forall x acc n,
  (0 < n <= fuel)%nat -> 0 <= x < 16 ^ Z.of_nat n ->
  exists digits,
    Fmt.hex_go fuel x acc = digits +:+ acc /\
    (0 < String.length digits <= n)%nat /\
    forall a, parse_hex digits a = a * 16 ^ Z.of_nat (String.length digits) + x.
Proof.
  induction fuel as [| fuel IH]; intros x acc n Hn Hx; [lia |].
  cbn [Fmt.hex_go].
  assert (Hmod : 0 <= x mod 16 < 16) by (apply Z.mod_pos_bound; lia).
  destruct (Z.eqb_spec (x / 16) 0) as [Hz | Hnz].
  - exists (String (Fmt.hex_digit (x mod 16)) EmptyString).
    split; [reflexivity |]. split; [simpl; lia |].
    intros a. cbn [parse_hex String.length]. rewrite hex_value_digit by exact Hmod.
    pose proof (Z.div_mod x 16). change (16 ^ Z.of_nat 1) with 16. lia.
  - destruct n as [| n]; [lia |].
    assert (Hq : 0 <= x / 16 < 16 ^ Z.of_nat n).
    { split; [apply Z.div_pos; lia |].
      apply Z.div_lt_upper_bound; [lia |].
      rewrite Nat2Z.inj_succ, Z.pow_succ_r in Hx by lia. lia. }
    assert (Hpos : (0 < n)%nat).
    { destruct n; [| lia]. simpl in Hq. lia. }
    destruct (IH (x / 16) (String (Fmt.hex_digit (x mod 16)) acc) n ltac:(lia) Hq)
      as (digits & Heq & Hlen & Hparse).
    exists (digits +:+ String (Fmt.hex_digit (x mod 16)) EmptyString).
    split; [| split].
    + rewrite Heq. clear. induction digits as [| c s IHs]; [reflexivity |].
      change (String c (s +:+ String (Fmt.hex_digit (x mod 16)) acc)
              = String c ((s +:+ String (Fmt.hex_digit (x mod 16)) "") +:+ acc)).
      f_equal. exact IHs.
    + rewrite length_app_string. simpl. lia.
    + intros a. rewrite parse_hex_app, Hparse. cbn [parse_hex].
      rewrite hex_value_digit by exact Hmod.
      rewrite length_app_string. cbn [String.length].
      replace (Z.of_nat (String.length digits + 1))
        with (Z.succ (Z.of_nat (String.length digits))) by lia.
      rewrite Z.pow_succ_r by lia.
      pose proof (Z.div_mod x 16). lia.
Qed.

(** X5: [macToString] writes a 48-bit MAC address in exactly twelve
    hexadecimal digits, and the digits read back as the address: no two
    MAC addresses share a name. *)
Theorem macToString_reads_back mac :
  0 <= mac < 2 ^ 48 ->
  String.length (macToString mac) = 12%nat /\ parse_hex (macToString mac) 0 = mac.
Proof.
  intros Hmac. unfold macToString, Fmt.x012, Fmt.pad0, Fmt.x.
  destruct (hex_go_spec 16 mac EmptyString 12) as (digits & Heq & Hlen & Hparse).
  { lia. }
  { change (16 ^ Z.of_nat 12) with (2 ^ 48). exact Hmac. }
  rewrite app_string_empty in Heq. rewrite Heq. split.
  - rewrite length_app_string, length_zeros. lia.
  - rewrite parse_hex_app, parse_hex_zeros, Hparse. lia.
Qed.

Lemma macToString_reads_back_witness :
  String.length (macToString 0x0a0b0c0d0e0f) = 12%nat /\
  parse_hex (macToString 0x0a0b0c0d0e0f) 0 = 0x0a0b0c0d0e0f.
Proof. apply macToString_reads_back. lia. Defined.

End PcapNames.

(* ================================================================= *)
(** ** The pcap worker *)

Module PcapWorker.

Import Pcap GoIntFacts NetFacts PcapSim.

Section Registry.
Context `{PcapEnv}.

(** *** Running the worker's methods *)

Lemma bind_panic {A B : Type} (m : M A) (k : A -> M B) world w msg :
  m world w = Panic msg -> bind m k world w = Panic msg.
Proof. intros Hm. unfold bind. rewrite Hm. reflexivity. Qed.

Lemma bind_ok {A B : Type} (m : M A) (k : A -> M B) world w a world' w' :
  m world w = Ok (a, world', w') -> bind m k world w = k a world' w'.
Proof. intros Hm. unfold bind. rewrite Hm. reflexivity. Qed.

Lemma forEach_panic_head {A : Type} (a : A) l (f : A -> M unit) world w msg :
  f a world w = Panic msg -> forEach (a :: l) f world w = Panic msg.
Proof. intros Hf. simpl. apply bind_panic. exact Hf. Qed.

Lemma at_index_ok {A : Type} (l : list A) i a world w :
  l !! i = Some a -> at_index l i world w = Ok (a, world, w).
Proof. intros Hl. unfold at_index. rewrite Hl. reflexivity. Qed.

(** *** The cap on open files *)

(** When the IPv4 map alone holds [maxConcurrentFiles] writers or more,
    [generateWrappedWriter] returns nil and counts one rejection; the
    world (no directory, no file) and the two registries stay as they
    are. *)
Lemma generateWrappedWriter_rejects ipAddr macInt tap gid timestamp world w :
  maxConcurrentFiles w <= Z.of_nat (size (writers w)) ->
  generateWrappedWriter ipAddr macInt tap gid timestamp world w
  = Ok (None, world, set_counter (incr_FileRejections (counter w)) w).
Proof.
  intros Hfull. unfold generateWrappedWriter, bind, getWorker.
  destruct (Z.geb_spec (Z.of_nat (size (writers w))) (maxConcurrentFiles w)); [| lia].
  reflexivity.
Qed.

(** Below the cap, which is read against the IPv4 map, a call that
    returns counts no rejection, however many writers the IPv6 buckets
    hold. *)
Lemma generateWrappedWriter_below_ipv4_cap
    ipAddr macInt tap gid timestamp world w made world' w' :
  Z.of_nat (size (writers w)) < maxConcurrentFiles w ->
  generateWrappedWriter ipAddr macInt tap gid timestamp world w
    = Ok (made, world', w') ->
  FileRejections (counter w') = FileRejections (counter w).
Proof.
  intros Hbelow.
  unfold generateWrappedWriter, bind, getWorker, inWorld, inWorld_, liftRes,
    modifyCounter, modifyWorker, ret.
  destruct (Z.geb_spec (Z.of_nat (size (writers w))) (maxConcurrentFiles w));
    [lia |].
  destruct (os_Stat_IsNotExist _ world);
    destruct (WrappedWriter_getTempFilename _ _ _ _ _ _ _ _); try discriminate;
    destruct (NewWriter _ _ _ _) as [[x |] world2];
    intros Heq; injection Heq as <- <- <-; reflexivity.
Qed.

(** *** Closing files: [shouldCloseFile] and the tick *)

Lemma sameConfig_refl w : sameConfig w w.
Proof. unfold sameConfig. repeat split. Qed.

Lemma sameConfig_trans w1 w2 w3 : sameConfig w1 w2 -> sameConfig w2 w3 -> sameConfig w1 w3.
Proof. unfold sameConfig. intros. intuition congruence. Qed.

Lemma tapTypeToString_printable tap :
  0 <= tap <= 30 -> exists s, tapTypeToString tap = Ok s.
Proof.
  intros Hr. unfold tapTypeToString.
  destruct (tap =? 3); [eauto |].
  destruct (Z.leb_spec 0 tap); [| lia].
  destruct (Z.leb_spec tap 30); [| lia].
  simpl. eauto.
Qed.

Lemma getFilename_printable ww base :
  printable ww -> exists name, getFilename ww base = Ok name.
Proof.
  intros Hp. unfold getFilename.
  destruct (tapTypeToString_printable _ Hp) as [s ->]. simpl. eauto.
Qed.

(** [finishWriter] closes, renames and counts; it leaves both
    registries and the configuration as they are. *)
Lemma finishWriter_frame ww newFilename world w :
  exists ww' world' w',
    finishWriter ww newFilename world w = Ok (ww', world', w') /\
    writers w' = writers w /\ writersIpv6 w' = writersIpv6 w /\ sameConfig w w' /\
    FileCloses (counter w') = incr64 (FileCloses (counter w)).
Proof.
  unfold finishWriter, bind, inWorld, inWorld_, modifyCounter, modifyWorker, ret.
  destruct (Writer_Close (writer ww) world) as [closed world1].
  destruct (Writer_GetAndResetStats closed) as [stats reset].
  do 3 eexists. split; [reflexivity |]. simpl.
  repeat split.
Qed.


Lemma expired_sameConfig w w' timeNow :
  sameConfig w w' -> expired w' timeNow = expired w timeNow.
Proof. intros Hc. unfold expired. destruct Hc as (_ & _ & _ & -> & _). reflexivity. Qed.

Lemma tickWriter_step timeNow key ww world w :
  printable ww ->
  exists world' w',
    tickWriter timeNow (key, ww) world w = Ok (tt, world', w') /\
    writers w' = (if expired w timeNow ww then delete key (writers w) else writers w) /\
    writersIpv6 w' = writersIpv6 w /\ sameConfig w w'.
Proof.
  intros Hp. unfold tickWriter, bind, getWorker. simpl.
  destruct (expired w timeNow ww).
  - destruct (getFilename_printable ww (baseDirectory w) Hp) as [name Hname].
    unfold liftRes. rewrite Hname.
    destruct (finishWriter_frame ww name world w)
      as (ww' & world' & w' & Hfin & Hw4 & Hw6 & Hc & _).
    rewrite Hfin. unfold modifyWorker.
    do 2 eexists. split; [reflexivity |]. simpl.
    rewrite Hw4, Hw6. repeat split; apply Hc.
  - unfold ret. do 2 eexists. split; [reflexivity |].
    repeat split.
Qed.

Lemma tick_ipv4_loop timeNow l : forall world w,
  Forall (fun e => printable (snd e)) l ->
  exists world' w',
    forEach l (tickWriter timeNow) world w = Ok (tt, world', w') /\
    writers w' = sweep (expired w timeNow) (writers w) l /\
    writersIpv6 w' = writersIpv6 w /\ sameConfig w w'.
Proof.
  induction l as [| [key ww] l IH]; intros world w Hall.
  - do 2 eexists. split; [reflexivity |]. repeat split.
  - inversion Hall as [| ? ? Hp Hrest]; subst. simpl in Hp.
    destruct (tickWriter_step timeNow key ww world w Hp)
      as (world1 & w1 & Hstep & Hw4 & Hw6 & Hc).
    destruct (IH world1 w1 Hrest) as (world2 & w2 & Hloop & Hw4' & Hw6' & Hc').
    exists world2, w2. split.
    + simpl. unfold bind at 1. rewrite Hstep. exact Hloop.
    + split; [| split].
      * rewrite Hw4', Hw4, (expired_sameConfig w w1 timeNow Hc). reflexivity.
      * congruence.
      * eapply sameConfig_trans; eassumption.
Qed.

Lemma sweep_None P l : forall m k, m !! k = None -> sweep P m l !! k = None.
Proof.
  induction l as [| [key ww] l IH]; intros m k Hk; simpl; [exact Hk |].
  apply IH. destruct (P ww); [| exact Hk].
  destruct (decide (key = k)) as [-> | Hne].
  - apply lookup_delete_eq.
  - rewrite lookup_delete_ne by exact Hne. exact Hk.
Qed.

Lemma sweep_hit P l : forall m k ww,
  (k, ww) ∈ l -> P ww = true -> sweep P m l !! k = None.
Proof.
  induction l as [| [key x] l IH]; intros m k ww Hin Hp.
  - inversion Hin.
  - apply elem_of_cons in Hin as [Heq | Hin].
    + injection Heq as <- <-. simpl. rewrite Hp.
      apply sweep_None. apply lookup_delete_eq.
    + simpl. eapply IH; eassumption.
Qed.

Lemma sweep_miss P l : forall m k,
  (forall ww, (k, ww) ∈ l -> P ww = false) -> sweep P m l !! k = m !! k.
Proof.
  induction l as [| [key x] l IH]; intros m k Hmiss; simpl; [reflexivity |].
  rewrite IH.
  - destruct (P x) eqn:Hx; [| reflexivity].
    apply lookup_delete_ne. intros ->.
    rewrite (Hmiss x) in Hx; [discriminate | left].
  - intros ww Hin. apply Hmiss. right. exact Hin.
Qed.

(** Walking all entries of a map deletes the entries that pass the test
    and no other. *)
Lemma sweep_map_to_list P (m : gmap Z WrappedWriter) :
  sweep P m (map_to_list m) = filter (fun e => P (snd e) = false) m.
Proof.
  apply map_eq. intros k.
  destruct (m !! k) as [ww |] eqn:Hk.
  - destruct (P ww) eqn:Hp.
    + rewrite (sweep_hit P _ m k ww) by (try apply elem_of_map_to_list; assumption).
      symmetry. apply map_lookup_filter_None. right. intros x Hx. simpl.
      rewrite Hk in Hx. injection Hx as <-. congruence.
    + rewrite sweep_miss.
      * rewrite Hk. symmetry. apply map_lookup_filter_Some. split; assumption.
      * intros x Hx. apply elem_of_map_to_list in Hx. congruence.
  - rewrite sweep_None by exact Hk. symmetry.
    apply map_lookup_filter_None. left. exact Hk.
Qed.


Lemma tickList_spec timeNow l : forall world w,
  Forall printable l ->
  exists world' w',
    tickList timeNow l world w
      = Ok (filter (fun ww => expired w timeNow ww = false) l, world', w') /\
    writers w' = writers w /\ writersIpv6 w' = writersIpv6 w /\ sameConfig w w'.
Proof.
  induction l as [| ww l IH]; intros world w Hall.
  - do 2 eexists. split; [reflexivity |]. repeat split.
  - inversion Hall as [| ? ? Hp Hrest]; subst.
    simpl. unfold bind at 1. unfold getWorker.
    rewrite filter_cons.
    destruct (expired w timeNow ww) eqn:Hexp.
    + destruct (getFilename_printable ww (baseDirectory w) Hp) as [name Hname].
      unfold bind at 1. unfold liftRes. rewrite Hname.
      destruct (finishWriter_frame ww name world w)
        as (ww' & world1 & w1 & Hfin & Hw4 & Hw6 & Hc & _).
      unfold bind at 1. rewrite Hfin.
      destruct (IH world1 w1 Hrest) as (world2 & w2 & Hloop & Hw4' & Hw6' & Hc').
      rewrite (expired_sameConfig w w1 timeNow Hc) in Hloop.
      exists world2, w2. split.
      * rewrite Hloop. destruct (decide (true = false)); [discriminate | reflexivity].
      * split; [congruence |]. split; [congruence |].
        eapply sameConfig_trans; eassumption.
    + destruct (IH world w Hrest) as (world2 & w2 & Hloop & Hw4' & Hw6' & Hc').
      exists world2, w2. split.
      * unfold bind. rewrite Hloop. unfold ret.
        destruct (decide (false = false)); [reflexivity | congruence].
      * split; [assumption |]. split; assumption.
Qed.

Lemma tickBucket_step timeNow key l world w :
  Forall printable l ->
  exists world' w',
    tickBucket timeNow (key, l) world w = Ok (tt, world', w') /\
    writers w' = writers w /\
    writersIpv6 w'
      = <[key := filter (fun ww => expired w timeNow ww = false) l]> (writersIpv6 w) /\
    sameConfig w w'.
Proof.
  intros Hall. unfold tickBucket, bind. simpl.
  destruct (tickList_spec timeNow l world w Hall)
    as (world1 & w1 & Hlist & Hw4 & Hw6 & Hc).
  rewrite Hlist. unfold modifyWorker, set_bucket.
  do 2 eexists. split; [reflexivity |]. simpl.
  rewrite Hw4, Hw6. repeat split; apply Hc.
Qed.

Lemma tick_ipv6_loop timeNow l : forall world w,
  Forall (fun e => Forall printable (snd e)) l ->
  exists world' w',
    forEach l (tickBucket timeNow) world w = Ok (tt, world', w') /\
    writers w' = writers w /\
    writersIpv6 w' = sweep6 (expired w timeNow) (writersIpv6 w) l /\
    sameConfig w w'.
Proof.
  induction l as [| [key b] l IH]; intros world w Hall.
  - do 2 eexists. split; [reflexivity |]. repeat split.
  - inversion Hall as [| ? ? Hp Hrest]; subst. simpl in Hp.
    destruct (tickBucket_step timeNow key b world w Hp)
      as (world1 & w1 & Hstep & Hw4 & Hw6 & Hc).
    destruct (IH world1 w1 Hrest) as (world2 & w2 & Hloop & Hw4' & Hw6' & Hc').
    exists world2, w2. split.
    + simpl. unfold bind at 1. rewrite Hstep. exact Hloop.
    + split; [congruence |]. split.
      * rewrite Hw6', Hw6, (expired_sameConfig w w1 timeNow Hc). reflexivity.
      * eapply sameConfig_trans; eassumption.
Qed.

Lemma sweep6_miss P l : forall m k,
  k ∉ l.*1 -> sweep6 P m l !! k = m !! k.
Proof.
  induction l as [| [key b] l IH]; intros m k Hk; simpl; [reflexivity |].
  rewrite fmap_cons in Hk. apply not_elem_of_cons in Hk as [Hne Hk]. simpl in Hne.
  rewrite IH by exact Hk. apply lookup_insert_ne. congruence.
Qed.

Lemma sweep6_hit P l : forall m k b,
  NoDup l.*1 -> (k, b) ∈ l ->
  sweep6 P m l !! k = Some (filter (fun ww => P ww = false) b).
Proof.
  induction l as [| [key x] l IH]; intros m k b Hnd Hin.
  - inversion Hin.
  - rewrite fmap_cons in Hnd. apply NoDup_cons in Hnd as [Hfresh Hnd].
    apply elem_of_cons in Hin as [Heq | Hin].
    + injection Heq as <- <-. simpl. rewrite sweep6_miss by exact Hfresh.
      apply lookup_insert_eq.
    + simpl. apply IH; assumption.
Qed.

Lemma sweep6_map_to_list P (m : gmap Z (list WrappedWriter)) :
  sweep6 P m (map_to_list m) = filter (fun ww => P ww = false) <$> m.
Proof.
  apply map_eq. intros k. rewrite lookup_fmap.
  destruct (m !! k) as [b |] eqn:Hk; simpl.
  - apply sweep6_hit; [apply NoDup_fst_map_to_list |].
    apply elem_of_map_to_list. exact Hk.
  - rewrite sweep6_miss; [exact Hk |].
    intros Hin. apply list_elem_of_fmap in Hin as ([k' b] & Heq & Hin).
    simpl in Heq. subst k'. apply elem_of_map_to_list in Hin. congruence.
Qed.

(** A tick closes the writers whose first packet is older than
    [maxFilePeriod] at [timeNow], and no other. *)
Lemma tick_spec timeNow world w :
  allPrintable w ->
  exists world' w',
    tick timeNow world w = Ok (tt, world', w') /\
    writers w' = filter (fun e => expired w timeNow (snd e) = false) (writers w) /\
    writersIpv6 w'
      = (filter (fun ww => expired w timeNow ww = false) <$> writersIpv6 w) /\
    sameConfig w w'.
Proof.
  intros [Hp4 Hp6]. unfold tick, bind at 1, getWorker.
  destruct (tick_ipv4_loop timeNow (map_to_list (writers w)) world w)
    as (world1 & w1 & Hloop4 & Hw4 & Hw6 & Hc).
  { apply Forall_forall. intros [k ww] Hin. apply elem_of_map_to_list in Hin.
    exact (Hp4 k ww Hin). }
  destruct (tick_ipv6_loop timeNow (map_to_list (writersIpv6 w)) world1 w1)
    as (world2 & w2 & Hloop6 & Hw4' & Hw6' & Hc').
  { apply Forall_forall. intros [k b] Hin. apply elem_of_map_to_list in Hin.
    exact (Hp6 k b Hin). }
  exists world2, w2. split.
  - unfold bind. rewrite Hloop4. exact Hloop6.
  - split; [| split].
    + rewrite Hw4', Hw4. apply sweep_map_to_list.
    + rewrite Hw6', Hw6, (expired_sameConfig w w1 timeNow Hc).
      apply sweep6_map_to_list.
    + eapply sameConfig_trans; eassumption.
Qed.

(** What a tick does to the world and to the counters. *)
Lemma finishWriter_closes ww base name world w ww' world' w' :
  getFilename ww base = Ok name ->
  finishWriter ww name world w = Ok (ww', world', w') ->
  (world', counter w') = closeFile base (world, counter w) ww.
Proof.
  intros Hname. unfold finishWriter, closeFile, bind, inWorld, inWorld_, modifyCounter,
    modifyWorker, ret. simpl. rewrite Hname.
  destruct (Writer_Close (writer ww) world) as [closed world1].
  destruct (Writer_GetAndResetStats closed) as [stats reset].
  intros Hrun. injection Hrun as <- <- <-. reflexivity.
Qed.

Lemma tickWriter_closes timeNow key ww world w world' w' :
  tickWriter timeNow (key, ww) world w = Ok (tt, world', w') ->
  (world', counter w')
  = foldl (closeFile (baseDirectory w)) (world, counter w)
      (filter (fun ww => expired w timeNow ww = true) [ww]).
Proof.
  unfold tickWriter, bind, getWorker. simpl.
  rewrite filter_cons, filter_nil.
  destruct (expired w timeNow ww).
  - destruct (decide (true = true)) as [_ | Hne]; [| congruence].
    unfold liftRes.
    destruct (getFilename ww (baseDirectory w)) as [name | msg] eqn:Hname;
      [| discriminate].
    destruct (finishWriter ww name world w) as [[[ww1 world1] w1] | msg] eqn:Hfin;
      [| discriminate].
    unfold modifyWorker. intros Hrun. injection Hrun as <- <-. simpl.
    exact (finishWriter_closes _ _ _ _ _ _ _ _ Hname Hfin).
  - destruct (decide (false = true)); [discriminate |].
    unfold ret. intros Hrun. injection Hrun as <- <-. reflexivity.
Qed.

Lemma tick_ipv4_closes timeNow l : forall world w world' w',
  Forall (fun e => printable (snd e)) l ->
  forEach l (tickWriter timeNow) world w = Ok (tt, world', w') ->
  (world', counter w')
  = foldl (closeFile (baseDirectory w)) (world, counter w)
      (filter (fun ww => expired w timeNow ww = true) l.*2).
Proof.
  induction l as [| [key ww] l IH]; intros world w world' w' Hall Hrun.
  - injection Hrun as <- <-. reflexivity.
  - inversion Hall as [| ? ? Hp Hrest]; subst. simpl in Hp.
    destruct (tickWriter_step timeNow key ww world w Hp)
      as (world1 & w1 & Hstep & _ & _ & Hc).
    simpl in Hrun. unfold bind at 1 in Hrun. rewrite Hstep in Hrun.
    rewrite (IH _ _ _ _ Hrest Hrun), (expired_sameConfig w w1 timeNow Hc).
    rewrite (tickWriter_closes _ _ _ _ _ _ _ Hstep).
    destruct Hc as (_ & _ & _ & _ & -> & _).
    rewrite fmap_cons. change ((key, ww).2 :: l.*2) with ([ww] ++ l.*2).
    rewrite filter_app, foldl_app. reflexivity.
Qed.

Lemma tickList_closes timeNow l : forall world w kept world' w',
  Forall printable l ->
  tickList timeNow l world w = Ok (kept, world', w') ->
  (world', counter w')
  = foldl (closeFile (baseDirectory w)) (world, counter w)
      (filter (fun ww => expired w timeNow ww = true) l).
Proof.
  induction l as [| ww l IH]; intros world w kept world' w' Hall Hrun.
  - injection Hrun as <- <- <-. reflexivity.
  - inversion Hall as [| ? ? Hp Hrest]; subst.
    simpl in Hrun. unfold bind at 1 in Hrun. unfold getWorker in Hrun.
    rewrite filter_cons.
    destruct (expired w timeNow ww) eqn:Hexp.
    + destruct (decide (true = true)) as [_ | Hne]; [| congruence].
      destruct (getFilename_printable ww (baseDirectory w) Hp) as [name Hname].
      unfold bind at 1 in Hrun. unfold liftRes in Hrun. rewrite Hname in Hrun.
      destruct (finishWriter_frame ww name world w)
        as (ww1 & world1 & w1 & Hfin & _ & _ & Hc & _).
      unfold bind at 1 in Hrun. rewrite Hfin in Hrun.
      rewrite (IH _ _ _ _ _ Hrest Hrun), (expired_sameConfig w w1 timeNow Hc).
      rewrite (finishWriter_closes _ _ _ _ _ _ _ _ Hname Hfin).
      destruct Hc as (_ & _ & _ & _ & -> & _). reflexivity.
    + destruct (decide (false = true)); [discriminate |].
      unfold bind in Hrun.
      destruct (tickList timeNow l world w) as [[[rest' world1] w1] | msg] eqn:Hrest';
        [| discriminate].
      unfold ret in Hrun. injection Hrun as _ <- <-.
      exact (IH _ _ _ _ _ Hrest Hrest').
Qed.

Lemma tick_ipv6_closes timeNow l : forall world w world' w',
  Forall (fun e => Forall printable (snd e)) l ->
  forEach l (tickBucket timeNow) world w = Ok (tt, world', w') ->
  (world', counter w')
  = foldl (closeFile (baseDirectory w)) (world, counter w)
      (filter (fun ww => expired w timeNow ww = true) (concat l.*2)).
Proof.
  induction l as [| [key b] l IH]; intros world w world' w' Hall Hrun.
  - injection Hrun as <- <-. reflexivity.
  - inversion Hall as [| ? ? Hp Hrest]; subst. simpl in Hp.
    destruct (tickBucket_step timeNow key b world w Hp)
      as (world1 & w1 & Hstep & _ & _ & Hc).
    simpl in Hrun. unfold bind at 1 in Hrun. rewrite Hstep in Hrun.
    rewrite (IH _ _ _ _ Hrest Hrun), (expired_sameConfig w w1 timeNow Hc).
    assert (Hb : (world1, counter w1)
                 = foldl (closeFile (baseDirectory w)) (world, counter w)
                     (filter (fun ww => expired w timeNow ww = true) b)).
    { unfold tickBucket, bind in Hstep. simpl in Hstep.
      destruct (tickList timeNow b world w) as [[[kept world2] w2] | msg] eqn:Hlist;
        [| discriminate].
      unfold modifyWorker in Hstep. injection Hstep as <- <-. simpl.
      exact (tickList_closes _ _ _ _ _ _ _ Hp Hlist). }
    rewrite Hb. destruct Hc as (_ & _ & _ & _ & -> & _).
    rewrite fmap_cons. simpl. rewrite filter_app, foldl_app. reflexivity.
Qed.

Lemma tick_closes timeNow world w world' w' :
  allPrintable w ->
  tick timeNow world w = Ok (tt, world', w') ->
  (world', counter w')
  = foldl (closeFile (baseDirectory w)) (world, counter w) (expiredWriters w timeNow).
Proof.
  intros [Hp4 Hp6] Hrun. unfold tick, bind at 1, getWorker in Hrun.
  assert (Hall4 : Forall (fun e : Z * WrappedWriter => printable (snd e))
                    (map_to_list (writers w))).
  { apply Forall_forall. intros [k ww] Hin. apply elem_of_map_to_list in Hin.
    exact (Hp4 k ww Hin). }
  assert (Hall6 : Forall (fun e : Z * list WrappedWriter => Forall printable (snd e))
                    (map_to_list (writersIpv6 w))).
  { apply Forall_forall. intros [k b] Hin. apply elem_of_map_to_list in Hin.
    exact (Hp6 k b Hin). }
  destruct (tick_ipv4_loop timeNow (map_to_list (writers w)) world w Hall4)
    as (world1 & w1 & Hloop4 & _ & _ & Hc).
  unfold bind in Hrun. rewrite Hloop4 in Hrun.
  rewrite (tick_ipv6_closes _ _ _ _ _ _ Hall6 Hrun).
  rewrite (expired_sameConfig w w1 timeNow Hc).
  rewrite (tick_ipv4_closes _ _ _ _ _ _ Hall4 Hloop4).
  destruct Hc as (_ & _ & _ & _ & -> & _).
  unfold expiredWriters. rewrite foldl_app. reflexivity.
Qed.

Lemma closeFile_counts base l : forall s,
  Forall printable l ->
  uint64 (FileCloses (snd (foldl (closeFile base) s l)))
  = uint64 (FileCloses (snd s) + Z.of_nat (length l)).
Proof.
  induction l as [| ww l IH]; intros s Hall.
  - simpl. rewrite Z.add_0_r. reflexivity.
  - inversion Hall as [| ? ? Hp Hrest]; subst.
    cbn [foldl]. rewrite (IH _ Hrest).
    unfold closeFile.
    destruct (Writer_Close (writer ww) (fst s)) as [closed world1].
    destruct (getFilename_printable ww base Hp) as [name ->]. simpl.
    unfold incr64, add64, uint64, uint.
    rewrite Zplus_mod_idemp_l. f_equal. lia.
Qed.

Lemma expiredWriters_printable w timeNow :
  allPrintable w -> Forall printable (expiredWriters w timeNow).
Proof.
  intros [Hp4 Hp6]. unfold expiredWriters. apply Forall_app. split.
  - apply Forall_forall. intros ww Hin.
    apply list_elem_of_filter in Hin as [_ Hin].
    apply list_elem_of_fmap in Hin as ([k x] & -> & Hin).
    apply elem_of_map_to_list in Hin. exact (Hp4 k x Hin).
  - apply Forall_forall. intros ww Hin.
    apply list_elem_of_filter in Hin as [_ Hin].
    apply list_elem_of_In, in_concat in Hin as (b & Hin & Hww).
    apply list_elem_of_In in Hin, Hww.
    apply list_elem_of_fmap in Hin as ([k x] & -> & Hin).
    apply elem_of_map_to_list in Hin.
    pose proof (Hp6 k x Hin) as Hb. simpl in Hb.
    rewrite Forall_forall in Hb. exact (Hb ww Hww).
Qed.

Lemma shouldCloseFile_true w ww packet :
  shouldCloseFile w ww packet = true <->
  int64_add (Writer_FileSize (writer ww)) (int64 (Writer_BufferSize (writer ww)))
    >= maxFileSize w
  \/ int64_sub (Timestamp packet) (firstPacketTime ww) > maxFilePeriod w.
Proof.
  unfold shouldCloseFile.
  destruct (Z.geb_spec
              (int64_add (Writer_FileSize (writer ww))
                 (int64 (Writer_BufferSize (writer ww)))) (maxFileSize w));
    destruct (Z.gtb_spec (int64_sub (Timestamp packet) (firstPacketTime ww))
                (maxFilePeriod w));
    split; intros Hyp; try reflexivity; try discriminate; try lia.
Qed.

Lemma expired_true w timeNow ww :
  expired w timeNow ww = true <->
  int64_sub timeNow (firstPacketTime ww) > maxFilePeriod w.
Proof.
  unfold expired.
  destruct (Z.gtb_spec (int64_sub timeNow (firstPacketTime ww)) (maxFilePeriod w));
    split; intros Hyp; try reflexivity; try discriminate; lia.
Qed.

(** C7: [shouldCloseFile] returns true if and only if
    FileSize() + BufferSize() >= maxFileSize or
    packet.Timestamp - firstPacketTime > maxFilePeriod, in Go's [int64]
    arithmetic, and in plain integers whenever the sum and the
    difference do not overflow; a tick tests the time condition alone,
    with the wall-clock [timeNow] in place of the packet timestamp.  It
    closes exactly the writers that pass that test: the world and the
    counters after the tick are what closing each of them in turn
    gives ([Close], the statistics drained, the file renamed to its
    final name, FileCloses one up), so no call reaches a writer that
    fails the test and FileCloses grows by the number of writers that
    pass it; and both registries keep exactly the writers that fail
    it, as they were. *)
Theorem shouldCloseFile_and_tick :
  (forall w ww packet,
     shouldCloseFile w ww packet = true <->
     int64_add (Writer_FileSize (writer ww)) (int64 (Writer_BufferSize (writer ww)))
       >= maxFileSize w
     \/ int64_sub (Timestamp packet) (firstPacketTime ww) > maxFilePeriod w)
  /\
  (forall w ww packet,
     is_sint 64 (Writer_BufferSize (writer ww)) ->
     is_sint 64 (Writer_FileSize (writer ww) + Writer_BufferSize (writer ww)) ->
     is_sint 64 (Timestamp packet - firstPacketTime ww) ->
     (shouldCloseFile w ww packet = true <->
      Writer_FileSize (writer ww) + Writer_BufferSize (writer ww) >= maxFileSize w
      \/ Timestamp packet - firstPacketTime ww > maxFilePeriod w))
  /\
  (forall w timeNow ww,
     expired w timeNow ww = true <->
     int64_sub timeNow (firstPacketTime ww) > maxFilePeriod w)
  /\
  (forall timeNow world w,
     allPrintable w ->
     exists world' w',
       tick timeNow world w = Ok (tt, world', w') /\
       writers w' = filter (fun e => expired w timeNow (snd e) = false) (writers w) /\
       writersIpv6 w'
         = (filter (fun ww => expired w timeNow ww = false) <$> writersIpv6 w) /\
       sameConfig w w' /\
       (world', counter w')
       = foldl (closeFile (baseDirectory w)) (world, counter w)
           (expiredWriters w timeNow) /\
       uint64 (FileCloses (counter w'))
       = uint64 (FileCloses (counter w)
                 + Z.of_nat (length (expiredWriters w timeNow)))).
Proof.
  split; [exact shouldCloseFile_true |].
  split; [| split; [exact expired_true |]].
  - intros w ww packet Hb Hsum Hdiff.
    rewrite shouldCloseFile_true.
    unfold int64_add, int64_sub, int64.
    rewrite (sint_small 64 (Writer_BufferSize (writer ww))) by (lia || exact Hb).
    rewrite !sint_small by (lia || assumption).
    reflexivity.
  - intros timeNow world w Hp.
    destruct (tick_spec timeNow world w Hp) as (world' & w' & Hrun & Hw4 & Hw6 & Hc).
    pose proof (tick_closes timeNow world w world' w' Hp Hrun) as Hclosed.
    exists world', w'.
    split; [exact Hrun |]. split; [exact Hw4 |]. split; [exact Hw6 |].
    split; [exact Hc |]. split; [exact Hclosed |].
    change (counter w') with (snd (world', counter w')). rewrite Hclosed.
    apply closeFile_counts. apply expiredWriters_printable. exact Hp.
Qed.

(** *** The IPv6 registry *)

Lemma findWriter_Some ipAddr (l : list WrappedWriter) i ww :
  findWriter ipAddr l = Some (i, ww) ->
  l !! i = Some ww /\ Net.Equal (ip6 ww) ipAddr = true.
Proof.
  unfold findWriter. intros Hfind.
  apply list_find_Some in Hfind as (Hi & Heq & _). split; assumption.
Qed.

Lemma findWriter_None ipAddr (l : list WrappedWriter) :
  findWriter ipAddr l = None <->
  (forall ww, ww ∈ l -> Net.Equal (ip6 ww) ipAddr = false).
Proof.
  unfold findWriter. rewrite list_find_None, Forall_forall.
  split; intros Hall ww Hin; specialize (Hall ww Hin).
  - destruct (Net.Equal (ip6 ww) ipAddr); congruence.
  - congruence.
Qed.

(** What [generateWrappedWriter] returns when it returns a writer, and
    what it leaves as it is. *)
Lemma generateWrappedWriter_Some ipAddr macInt tap gid timestamp world w ww world' w' :
  generateWrappedWriter ipAddr macInt tap gid timestamp world w
    = Ok (Some ww, world', w') ->
  ip6 ww = match Net.To4 ipAddr with Some _ => [] | None => ipAddr end /\
  tapType ww = tap /\ aclGID ww = gid /\ mac ww = macInt /\
  firstPacketTime ww = timestamp /\
  writers w' = writers w /\ writersIpv6 w' = writersIpv6 w /\
  Z.of_nat (size (writers w)) < maxConcurrentFiles w.
Proof.
  unfold generateWrappedWriter, bind, getWorker, inWorld, inWorld_, liftRes,
    modifyCounter, modifyWorker, ret.
  destruct (Z.geb_spec (Z.of_nat (size (writers w))) (maxConcurrentFiles w));
    [discriminate |].
  destruct (os_Stat_IsNotExist _ world);
    destruct (WrappedWriter_getTempFilename _ _ _ _ _ _ _ _); try discriminate;
    destruct (NewWriter _ _ _ _) as [[x |] world2]; try discriminate;
    intros Heq; injection Heq as <- <- <-; simpl; repeat split; assumption.
Qed.


Lemma bucket_set_bucket_eq key l (w : Worker) : bucket (set_bucket key l w) key = l.
Proof. unfold bucket, set_bucket. simpl. rewrite lookup_insert_eq. reflexivity. Qed.

Lemma bucket_set_bucket_ne key k l (w : Worker) :
  k <> key -> bucket (set_bucket key l w) k = bucket w k.
Proof.
  intros Hne. unfold bucket, set_bucket. simpl.
  rewrite lookup_insert_ne by congruence. reflexivity.
Qed.

Lemma bucket_same (w w' : Worker) k :
  writersIpv6 w' = writersIpv6 w -> bucket w' k = bucket w k.
Proof. intros Heq. unfold bucket. rewrite Heq. reflexivity. Qed.

(** When no writer of the bucket has the address of the packet,
    [getWrappedWriter] can only return a writer that
    [generateWrappedWriter] has just made, and it appends that writer to
    the bucket. *)
Lemma getWrappedWriter_miss ipAddr macInt tap gid packet world w i ww world' w' :
  findWriter ipAddr (bucket w (getWriterIpv6Key ipAddr gid tap)) = None ->
  getWrappedWriter ipAddr macInt tap gid packet world w
    = Ok (Some (i, ww), world', w') ->
  i = length (bucket w (getWriterIpv6Key ipAddr gid tap)) /\
  bucket w' (getWriterIpv6Key ipAddr gid tap)
    = bucket w (getWriterIpv6Key ipAddr gid tap) ++ [ww] /\
  (forall k, k <> getWriterIpv6Key ipAddr gid tap -> bucket w' k = bucket w k) /\
  writers w' = writers w /\
  ip6 ww = match Net.To4 ipAddr with Some _ => [] | None => ipAddr end.
Proof.
  set (key := getWriterIpv6Key ipAddr gid tap).
  intros Hmiss. unfold getWrappedWriter. fold key.
  unfold bind at 1, getWorker.
  assert (Hgen : forall w0,
    writersIpv6 w0 = writersIpv6 w \/ w0 = set_bucket key [] w ->
    bucket w0 key = bucket w key ->
    writers w0 = writers w ->
    (forall k, k <> key -> bucket w0 k = bucket w k) ->
    bind (generateWrappedWriter ipAddr macInt tap gid (Timestamp packet))
      (fun made => match made with
                   | Some ww0 =>
                       bind getWorker (fun w1 =>
                       bind (modifyWorker (set_bucket key (bucket w1 key ++ [ww0])))
                         (fun _ => ret (Some (length (bucket w1 key), ww0))))
                   | None => ret None
                   end) world w0 = Ok (Some (i, ww), world', w') ->
    i = length (bucket w key) /\ bucket w' key = bucket w key ++ [ww] /\
    (forall k, k <> key -> bucket w' k = bucket w k) /\ writers w' = writers w /\
    ip6 ww = match Net.To4 ipAddr with Some _ => [] | None => ipAddr end).
  { intros w0 _ Hb0 Hw0 Hother. unfold bind at 1.
    destruct (generateWrappedWriter ipAddr macInt tap gid (Timestamp packet) world w0)
      as [[[made world1] w1] | msg] eqn:Hmade; [| discriminate].
    destruct made as [ww0 |]; [| discriminate].
    apply generateWrappedWriter_Some in Hmade
      as (Hip6 & _ & _ & _ & _ & Hw4 & Hw6 & _).
    unfold bind, getWorker, modifyWorker, ret.
    intros Heq. injection Heq as <- <- <- <-.
    rewrite bucket_set_bucket_eq, (bucket_same w0 w1 key Hw6), Hb0.
    split; [reflexivity |]. split; [reflexivity |]. split; [| split].
    - intros k Hk. rewrite bucket_set_bucket_ne by exact Hk.
      rewrite (bucket_same w0 w1 k Hw6). apply Hother. exact Hk.
    - simpl. congruence.
    - exact Hip6. }
  destruct (writersIpv6 w !! key) as [writerList |] eqn:Hb.
  - assert (Hl : bucket w key = writerList) by (unfold bucket; rewrite Hb; reflexivity).
    rewrite Hl in Hmiss. unfold bind at 1, ret at 1. rewrite Hmiss.
    unfold bind at 1, ret at 1.
    apply Hgen; auto.
  - unfold bind at 1. unfold bind at 1, modifyWorker at 1, ret at 1.
    unfold bind at 1, ret at 1.
    assert (Hl : bucket w key = []) by (unfold bucket; rewrite Hb; reflexivity).
    apply Hgen.
    + right. reflexivity.
    + rewrite bucket_set_bucket_eq, Hl. reflexivity.
    + reflexivity.
    + intros k Hk. apply bucket_set_bucket_ne. exact Hk.
Qed.


(** The writer [getWrappedWriter] returns is one that the scan of the
    bucket found, returned with nothing changed, or one that
    [generateWrappedWriter] has just made. *)
Lemma getWrappedWriter_found_or_made ipAddr macInt tap gid packet world w i ww world' w' :
  getWrappedWriter ipAddr macInt tap gid packet world w
    = Ok (Some (i, ww), world', w') ->
  (findWriter ipAddr (bucket w (getWriterIpv6Key ipAddr gid tap)) = Some (i, ww)
   /\ world' = world /\ w' = w)
  \/ (exists world0 w0 w1,
        generateWrappedWriter ipAddr macInt tap gid (Timestamp packet) world0 w0
          = Ok (Some ww, world', w1)).
Proof.
  set (key := getWriterIpv6Key ipAddr gid tap).
  unfold getWrappedWriter. fold key.
  unfold bind at 1, getWorker.
  assert (Hgen : forall world0 w0,
    bind (generateWrappedWriter ipAddr macInt tap gid (Timestamp packet))
      (fun made => match made with
                   | Some ww0 =>
                       bind getWorker (fun w1 =>
                       bind (modifyWorker (set_bucket key (bucket w1 key ++ [ww0])))
                         (fun _ => ret (Some (length (bucket w1 key), ww0))))
                   | None => ret None
                   end) world0 w0 = Ok (Some (i, ww), world', w') ->
    exists world0 w0 w1,
      generateWrappedWriter ipAddr macInt tap gid (Timestamp packet) world0 w0
        = Ok (Some ww, world', w1)).
  { intros world0 w0. unfold bind at 1.
    destruct (generateWrappedWriter ipAddr macInt tap gid (Timestamp packet) world0 w0)
      as [[[made world1] w1] | msg] eqn:Hmade; [| discriminate].
    destruct made as [ww0 |]; [| discriminate].
    unfold bind, getWorker, modifyWorker, ret.
    intros Heq. injection Heq as <- <- <- <-.
    exists world0, w0, w1. exact Hmade. }
  destruct (writersIpv6 w !! key) as [writerList |] eqn:Hb.
  - assert (Hl : bucket w key = writerList) by (unfold bucket; rewrite Hb; reflexivity).
    rewrite Hl. unfold bind at 1, ret at 1.
    destruct (findWriter ipAddr writerList) as [[j found] |] eqn:Hfind.
    + destruct (shouldCloseFile w found packet).
      * unfold bind at 1. unfold bind at 1, liftRes.
        destruct (getFilename found (baseDirectory w)) as [name | msg]; [| discriminate].
        unfold bind at 1.
        destruct (finishWriter found name world w) as [[[done world1] w1] | msg];
          [| discriminate].
        unfold bind at 1, modifyWorker at 1. unfold ret at 1.
        intros Hrun. right. eapply Hgen. exact Hrun.
      * unfold bind, ret. intros Heq. injection Heq as <- <- <- <-.
        left. repeat split.
    + unfold bind at 1, ret at 1. intros Hrun. right. eapply Hgen. exact Hrun.
  - unfold bind at 1. unfold bind at 1, modifyWorker at 1, ret at 1.
    unfold bind at 1, ret at 1. intros Hrun. right. eapply Hgen. exact Hrun.
Qed.

(** C8: on the IPv6 path a writer that was in the bucket is returned only
    when [net.IP.Equal] holds between its stored address and the address
    of the packet (for a 16-byte address and a stored address that is
    no 4-byte one: when all sixteen bytes are equal); any other writer
    returned has just been made.  Hence two distinct 16-byte addresses
    with one hashed key, neither of which has a writer yet, get two
    writers, appended to the one bucket in the order of arrival. *)
Theorem ipv6_writers_are_told_apart_by_address :
  (forall ipAddr macInt tap gid packet world w i ww world' w',
     getWrappedWriter ipAddr macInt tap gid packet world w
       = Ok (Some (i, ww), world', w') ->
     (bucket w (getWriterIpv6Key ipAddr gid tap) !! i = Some ww /\
      Net.Equal (ip6 ww) ipAddr = true /\
      (length ipAddr = 16%nat -> length (ip6 ww) <> 4%nat -> ip6 ww = ipAddr) /\
      world' = world /\ w' = w)
     \/ (exists world0 w0 w1,
           generateWrappedWriter ipAddr macInt tap gid (Timestamp packet) world0 w0
             = Ok (Some ww, world', w1)))
  /\
  (forall ipA ipB macA macB tap gid packetA packetB world w
          iA wwA world1 w1 iB wwB world2 w2,
     length ipA = 16%nat -> length ipB = 16%nat -> ipA <> ipB ->
     getWriterIpv6Key ipA gid tap = getWriterIpv6Key ipB gid tap ->
     findWriter ipA (bucket w (getWriterIpv6Key ipA gid tap)) = None ->
     findWriter ipB (bucket w (getWriterIpv6Key ipA gid tap)) = None ->
     getWrappedWriter ipA macA tap gid packetA world w
       = Ok (Some (iA, wwA), world1, w1) ->
     getWrappedWriter ipB macB tap gid packetB world1 w1
       = Ok (Some (iB, wwB), world2, w2) ->
     bucket w2 (getWriterIpv6Key ipA gid tap)
       = bucket w (getWriterIpv6Key ipA gid tap) ++ [wwA; wwB] /\
     iB = S iA /\
     (Net.To4 ipA = None -> ip6 wwA = ipA) /\
     (Net.To4 ipB = None -> ip6 wwB = ipB)).
Proof.
  split.
  - intros ipAddr macInt tap gid packet world w i ww world' w' Hrun.
    apply getWrappedWriter_found_or_made in Hrun as [(Hfind & -> & ->) | Hfresh].
    + left. apply findWriter_Some in Hfind as [Hi Heq].
      split; [exact Hi |]. split; [exact Heq |]. split; [| split; reflexivity].
      intros Hlen Hno4. apply Equal_16; assumption.
    + right. exact Hfresh.
  - intros ipA ipB macA macB tap gid packetA packetB world w
      iA wwA world1 w1 iB wwB world2 w2 HlenA HlenB Hne Hkey HmissA HmissB HrunA HrunB.
    apply getWrappedWriter_miss in HrunA as (HiA & HbA & _ & _ & Hip6A);
      [| exact HmissA].
    assert (HmissB1 : findWriter ipB (bucket w1 (getWriterIpv6Key ipB gid tap)) = None).
    { rewrite <- Hkey, HbA. apply findWriter_None. intros ww Hin.
      apply elem_of_app in Hin as [Hin | Hin].
      - revert ww Hin. apply findWriter_None. exact HmissB.
      - apply list_elem_of_singleton in Hin as ->. rewrite Hip6A.
        destruct (Net.To4 ipA).
        + apply Equal_nil_16. exact HlenB.
        + destruct (Net.Equal ipA ipB) eqn:Heq; [| reflexivity].
          apply Equal_same_length in Heq; congruence. }
    apply getWrappedWriter_miss in HrunB as (HiB & HbB & _ & _ & Hip6B);
      [| exact HmissB1].
    rewrite <- Hkey in HbB, HiB. rewrite HbA in HbB, HiB.
    split; [rewrite HbB, <- app_assoc; reflexivity |].
    split; [rewrite HiB, HiA, length_app; simpl; lia |].
    split; intros Hv6.
    + rewrite Hip6A, Hv6. reflexivity.
    + rewrite Hip6B, Hv6. reflexivity.
Qed.

(** *** Tap types that have no name *)

Lemma TAPTypeEnum_small x : 0 <= x < 256 -> TAPTypeEnum x = x.
Proof.
  intros Hx. unfold TAPTypeEnum. apply uint_small. unfold is_uint.
  pose proof TAPTypeEnum_bits_ge as Hbits.
  assert (2 ^ 8 <= 2 ^ TAPTypeEnum_bits) by (apply Z.pow_le_mono_r; lia).
  lia.
Qed.

Lemma tapTypeToString_unprintable tap :
  tap < 0 \/ 30 < tap ->
  tapTypeToString tap = Panic ("unsupported tap type " +:+ Fmt.d tap).
Proof.
  intros Hout. unfold tapTypeToString.
  destruct (Z.eqb_spec tap 3) as [-> | _]; [lia |].
  destruct (Z.leb_spec 0 tap); destruct (Z.leb_spec tap 30); simpl;
    try reflexivity; lia.
Qed.

(** Below the cap, the creation of a writer for a tap type outside
    0..30 panics when it formats the name of the temporary file. *)
Lemma generateWrappedWriter_unprintable ipAddr macInt tap gid timestamp world w :
  Z.of_nat (size (writers w)) < maxConcurrentFiles w ->
  tap < 0 \/ 30 < tap ->
  generateWrappedWriter ipAddr macInt tap gid timestamp world w
  = Panic ("unsupported tap type " +:+ Fmt.d tap).
Proof.
  intros Hroom Hout. unfold generateWrappedWriter, bind at 1, getWorker.
  destruct (Z.geb_spec (Z.of_nat (size (writers w))) (maxConcurrentFiles w)); [lia |].
  unfold bind at 1, inWorld.
  assert (Hname : forall ipInt ipv6,
    WrappedWriter_getTempFilename (baseDirectory w) tap gid macInt ipInt ipv6
      timestamp (index w) = Panic ("unsupported tap type " +:+ Fmt.d tap)).
  { intros ipInt ipv6. unfold WrappedWriter_getTempFilename, getTempFilename,
      getTempFilenameByIpv6.
    rewrite (tapTypeToString_unprintable tap Hout). destruct ipv6; reflexivity. }
  destruct (os_Stat_IsNotExist _ world);
    unfold bind, inWorld_, ret, liftRes; rewrite Hname; reflexivity.
Qed.

Lemma writePacket_unprintable packet tap ipInt macInt gid world w :
  writers w !! getWriterKey ipInt gid tap = None ->
  Z.of_nat (size (writers w)) < maxConcurrentFiles w ->
  tap < 0 \/ 30 < tap ->
  writePacket packet tap ipInt macInt gid world w
  = Panic ("unsupported tap type " +:+ Fmt.d tap).
Proof.
  intros Hnone Hroom Hout. unfold writePacket, bind at 1, getWorker.
  rewrite Hnone. unfold bind at 1, ret. unfold bind at 1, bind at 1.
  rewrite generateWrappedWriter_unprintable by assumption. reflexivity.
Qed.

Lemma emitSet_ip4Packet_isp31 flags ts :
  emitSet (ip4Packet flags 0x1001F ts) someEndpoints
  = Some {| emitTapType := 31; ips := [0x0a000001]; macs := [0x0a0b0c0d0e0f];
            ip6s := [] |}.
Proof.
  unfold emitSet. simpl InPort.
  change (isISP 65567) with true. cbv iota.
  change (uint32 (65567 - 65536)) with 31.
  rewrite TAPTypeEnum_small by lia.
  reflexivity.
Qed.

(** A policy action that asks for a capture, on a worker that holds no
    writer for the first member of the emit set and is below its cap:
    the tap type is formatted, and a tap type outside 0..30 panics. *)
Lemma capture_unprintable packet e policy ipInt macInt ips' macs' world w :
  0 < GetACLGID policy ->
  Z.land (GetActionFlags policy) ACTION_PACKET_CAPTURING <> 0 ->
  EthType packet <> EthernetTypeIPv6 ->
  ips e = ipInt :: ips' ->
  macs e = macInt :: macs' ->
  writers w !! getWriterKey ipInt (GetACLGID policy) (emitTapType e) = None ->
  Z.of_nat (size (writers w)) < maxConcurrentFiles w ->
  emitTapType e < 0 \/ 30 < emitTapType e ->
  capture packet e policy world w
  = Panic ("unsupported tap type " +:+ Fmt.d (emitTapType e)).
Proof.
  intros Hgid Hflag Heth Hips Hmacs Hnone Hroom Hout.
  unfold capture.
  destruct (Z.leb_spec (GetACLGID policy) 0); [lia |].
  destruct (Z.eqb_spec (Z.land (GetActionFlags policy) ACTION_PACKET_CAPTURING) 0);
    [contradiction |].
  destruct (Z.eqb_spec (EthType packet) EthernetTypeIPv6); [contradiction |].
  simpl negb. cbv iota.
  rewrite Hips, Hmacs. simpl length. simpl seq.
  apply forEach_panic_head.
  rewrite (bind_ok _ _ _ _ ipInt world w) by (apply at_index_ok; reflexivity).
  rewrite (bind_ok _ _ _ _ macInt world w) by (apply at_index_ok; reflexivity).
  apply writePacket_unprintable; assumption.
Qed.

Lemma processPacket_unprintable packet pd ed e policy rest ipInt macInt ips' macs' world w :
  PolicyData packet = Some pd ->
  EndpointData packet = Some ed ->
  emitSet packet ed = Some e ->
  AclActions pd = policy :: rest ->
  0 < GetACLGID policy ->
  Z.land (GetActionFlags policy) ACTION_PACKET_CAPTURING <> 0 ->
  EthType packet <> EthernetTypeIPv6 ->
  ips e = ipInt :: ips' ->
  macs e = macInt :: macs' ->
  writers w !! getWriterKey ipInt (GetACLGID policy) (emitTapType e) = None ->
  Z.of_nat (size (writers w)) < maxConcurrentFiles w ->
  emitTapType e < 0 \/ 30 < emitTapType e ->
  processPacket packet world w
  = Panic ("unsupported tap type " +:+ Fmt.d (emitTapType e)).
Proof.
  intros Hpd Hed He Hacts Hgid Hflag Heth Hips Hmacs Hnone Hroom Hout.
  unfold processPacket. rewrite Hpd, Hed, He, Hacts.
  apply bind_panic. apply forEach_panic_head.
  eapply capture_unprintable; eassumption.
Qed.

(** C10: for every environment there is an input that the routing table
    accepts and on which [Process] panics: the IPv4 packet of the ISP
    port 0x1001F (tap type 31 > 30) with a non-empty emit set and a
    policy action with ACLGID > 0 and PACKET_CAPTURING set, handed to a
    worker below its cap.  The creation of the writer formats the name
    of the temporary file with [tapTypeToString], which panics. *)
Theorem processPacket_panics_on_isp_port_above_30 world :
  exists (w : Worker) (packet : MetaPacket) ed pd e policy,
    0x1001F <= InPort packet <= 0x1FFFF /\
    isISP (InPort packet) = true /\
    EndpointData packet = Some ed /\
    PolicyData packet = Some pd /\
    emitSet packet ed = Some e /\
    emitTapType e = uint32 (InPort packet - 0x10000) /\
    30 < emitTapType e /\
    ips e <> [] /\
    policy ∈ AclActions pd /\
    0 < GetACLGID policy /\
    Z.land (GetActionFlags policy) ACTION_PACKET_CAPTURING <> 0 /\
    Z.of_nat (size (writers w)) < maxConcurrentFiles w /\
    processPacket packet world w = Panic "unsupported tap type 31".
Proof.
  pose proof ACTION_PACKET_CAPTURING_bit as Hbit.
  exists (freshWorker 10 1048576 60000000000),
         (ip4Packet ACTION_PACKET_CAPTURING 0x1001F 1000),
         someEndpoints,
         {| AclActions := [ {| GetACLGID := 5; GetActionFlags := ACTION_PACKET_CAPTURING |} ] |},
         {| emitTapType := 31; ips := [0x0a000001]; macs := [0x0a0b0c0d0e0f]; ip6s := [] |},
         {| GetACLGID := 5; GetActionFlags := ACTION_PACKET_CAPTURING |}.
  assert (Hflag : Z.land ACTION_PACKET_CAPTURING ACTION_PACKET_CAPTURING <> 0)
    by (rewrite Z.land_diag; exact Hbit).
  assert (Hroom : Z.of_nat (size (writers (freshWorker (W := Writer) 10 1048576 60000000000))) < 10)
    by (simpl; rewrite map_size_empty; lia).
  split; [simpl; lia |]. split; [reflexivity |].
  split; [reflexivity |]. split; [reflexivity |].
  split; [apply emitSet_ip4Packet_isp31 |].
  split; [reflexivity |]. split; [simpl; lia |]. split; [discriminate |].
  split; [simpl; left |]. split; [simpl; lia |].
  split; [exact Hflag |].
  split; [exact Hroom |].
  apply (processPacket_unprintable
           (ip4Packet ACTION_PACKET_CAPTURING 0x1001F 1000)
           {| AclActions := [ {| GetACLGID := 5; GetActionFlags := ACTION_PACKET_CAPTURING |} ] |}
           someEndpoints
           {| emitTapType := 31; ips := [0x0a000001]; macs := [0x0a0b0c0d0e0f]; ip6s := [] |}
           {| GetACLGID := 5; GetActionFlags := ACTION_PACKET_CAPTURING |}
           [] 0x0a000001 0x0a0b0c0d0e0f [] []);
    try reflexivity; try exact Hflag; try exact Hroom;
    try apply emitSet_ip4Packet_isp31; try apply lookup_empty;
    simpl; try lia; discriminate.
Qed.

(** *** The routing table *)

Lemma isISP_not_isTOR inPort : isISP inPort = true -> isTOR inPort = false.
Proof. unfold isISP, isTOR. lia. Qed.

(** C9: for an IPv6 packet the emit set is gated on multicast in
    opposite ways.  On an ISP port an endpoint is emitted exactly when
    its L3EpcId is not 0, its address is multicast and its MAC is not
    the broadcast MAC; on a ToR port exactly when it is an L2 end (the
    flag of the packet or of the endpoint), its address is not multicast
    and its MAC is not the broadcast MAC.  So every address emitted on
    the ISP path is multicast, and none emitted on the ToR path is. *)
Theorem emitSet_ipv6_multicast_gates packet ed :
  EthType packet = EthernetTypeIPv6 ->
  (isISP (InPort packet) = true ->
   exists e, emitSet packet ed = Some e /\
     emitTapType e = TAPTypeEnum (uint32 (InPort packet - 0x10000)) /\
     ips e = [] /\
     emitted6 e =
       (if negb (L3EpcId (SrcInfo ed) =? 0) && Net.IsMulticast (Ip6Src packet)
           && negb (MacSrc packet =? BROADCAST_MAC)
        then [(Ip6Src packet, MacSrc packet)] else [])
       ++
       (if negb (L3EpcId (DstInfo ed) =? 0) && Net.IsMulticast (Ip6Dst packet)
           && negb (MacDst packet =? BROADCAST_MAC)
        then [(Ip6Dst packet, MacDst packet)] else []) /\
     (forall ipAddr macInt, (ipAddr, macInt) ∈ emitted6 e ->
        Net.IsMulticast ipAddr = true /\ macInt <> BROADCAST_MAC))
  /\
  (isTOR (InPort packet) = true ->
   exists e, emitSet packet ed = Some e /\
     emitTapType e = ToR /\
     ips e = [] /\
     emitted6 e =
       (if (L2End0 packet || L2End (SrcInfo ed)) && negb (Net.IsMulticast (Ip6Src packet))
           && negb (MacSrc packet =? BROADCAST_MAC)
        then [(Ip6Src packet, MacSrc packet)] else [])
       ++
       (if (L2End1 packet || L2End (DstInfo ed)) && negb (Net.IsMulticast (Ip6Dst packet))
           && negb (MacDst packet =? BROADCAST_MAC)
        then [(Ip6Dst packet, MacDst packet)] else []) /\
     (forall ipAddr macInt, (ipAddr, macInt) ∈ emitted6 e ->
        Net.IsMulticast ipAddr = false /\ macInt <> BROADCAST_MAC)).
Proof.
  intros Heth. split.
  - intros Hisp. unfold emitSet. rewrite Hisp, Heth, Z.eqb_refl. simpl negb. cbv iota.
    eexists. split; [reflexivity |]. split; [reflexivity |]. split; [reflexivity |].
    unfold emitted6, appendIf. simpl ip6s. simpl macs.
    destruct (negb (L3EpcId (SrcInfo ed) =? 0)) eqn:Hs1;
      destruct (Net.IsMulticast (Ip6Src packet)) eqn:Hs2;
      destruct (Z.eqb_spec (MacSrc packet) BROADCAST_MAC) as [Hs3 | Hs3];
      destruct (negb (L3EpcId (DstInfo ed) =? 0)) eqn:Hd1;
      destruct (Net.IsMulticast (Ip6Dst packet)) eqn:Hd2;
      destruct (Z.eqb_spec (MacDst packet) BROADCAST_MAC) as [Hd3 | Hd3];
      simpl; (split; [reflexivity |]); intros ipAddr macInt Hin;
      repeat (apply elem_of_cons in Hin as [Hin | Hin];
              [injection Hin as -> ->; split; assumption |]);
      inversion Hin.
  - intros Htor. unfold emitSet.
    destruct (isISP (InPort packet)) eqn:Hisp.
    { apply isISP_not_isTOR in Hisp. congruence. }
    rewrite Htor, Heth, Z.eqb_refl. simpl negb. cbv iota.
    eexists. split; [reflexivity |]. split; [reflexivity |]. split; [reflexivity |].
    unfold emitted6, appendIf. simpl ip6s. simpl macs.
    destruct (L2End0 packet || L2End (SrcInfo ed)) eqn:Hs1;
      destruct (Net.IsMulticast (Ip6Src packet)) eqn:Hs2;
      destruct (Z.eqb_spec (MacSrc packet) BROADCAST_MAC) as [Hs3 | Hs3];
      destruct (L2End1 packet || L2End (DstInfo ed)) eqn:Hd1;
      destruct (Net.IsMulticast (Ip6Dst packet)) eqn:Hd2;
      destruct (Z.eqb_spec (MacDst packet) BROADCAST_MAC) as [Hd3 | Hd3];
      simpl; (split; [reflexivity |]); intros ipAddr macInt Hin;
      repeat (apply elem_of_cons in Hin as [Hin | Hin];
              [injection Hin as -> ->; split; assumption |]);
      inversion Hin.
Qed.

End Registry.

(** *** Runs in the simulated environment *)

(** Scenario 4 of the specification: a ToR IPv4 packet with a capture
    action of ACL group 5 creates one file, under the directory of the
    group. *)
Example tor_ipv4_capture :
  returns (processPacket (ip4Packet 16 0x30001 1000) [] (freshWorker 10 1048576 60000000000))
    (fun '(_, world, w) =>
       FileCreations (counter w) = 1 /\
       EvCreate "/pcap/5/tor_0a0b0c0d0e0f_010000000001_1000_.0.pcap.temp" ∈ world /\
       size (writers w) = 1%nat).
Proof.
  vm_compute. split; [reflexivity |]. split; [| reflexivity].
  do 2 right. left.
Qed.

(** With the 8-bit tap type of the simulated environment the ISP port
    0x10105 is tap type 5: only the low byte of the port offset reaches
    [tapTypeToString]. *)
Example isp_port_0x10105_is_tap_5 :
  emitTapType <$> emitSet (ip4Packet 16 0x10105 1000) someEndpoints = Some 5.
Proof. reflexivity. Qed.

(** The two sample addresses have one hashed key. *)
Example ip6A_ip6B_collide :
  ip6A <> ip6B /\ getWriterIpv6Key ip6A 5 ToR = getWriterIpv6Key ip6B 5 ToR.
Proof. split; [discriminate | reflexivity]. Qed.

(** C1, at the failing input: a worker whose cap is one file and that
    has processed one IPv6 packet holds one open writer, in an IPv6
    bucket.  [generateWrappedWriter], called for a second address, does
    not return nil: it creates a second file and counts no rejection,
    because the test reads the size of the IPv4 map only. *)
Theorem ipv6_writers_are_not_counted :
  returns (processPacket (ip6Packet 16 0x30001 ip6A 1000) []
             (freshWorker 1 1048576 60000000000))
    (fun '(_, world1, w1) =>
       maxConcurrentFiles w1 = 1 /\
       openWriterCount w1 = 1 /\
       returns (generateWrappedWriter ip6B 0x0a0b0c0d0e0f ToR 5 2000 world1 w1)
         (fun '(made, world2, w2) =>
            exists ww, made = Some ww /\
              world2 = EvCreate (tempFilename ww) :: world1 /\
              FileRejections (counter w2) = FileRejections (counter w1) /\
              FileCreations (counter w2) = 2)).
Proof.
  vm_compute. split; [reflexivity |]. split; [reflexivity |].
  eexists. split; [reflexivity |]. repeat split.
Qed.

(** The same on the path of [Process]: two IPv6 packets leave a worker
    whose cap is one file with two open files. *)
Example two_ipv6_files_under_a_cap_of_one :
  returns (processPacket (ip6Packet 16 0x30001 ip6A 1000) []
             (freshWorker 1 1048576 60000000000))
    (fun '(_, world1, w1) =>
       returns (processPacket (ip6Packet 16 0x30001 ip6B 2000) world1 w1)
         (fun '(_, world2, w2) =>
            maxConcurrentFiles w2 = 1 /\ openWriterCount w2 = 2 /\
            FileRejections (counter w2) = 0)).
Proof. vm_compute. repeat split. Qed.

(** Scenario 6 of the specification: a writer whose first packet is two
    periods old is closed by the next tick and removed from the map;
    the writer beside it, twenty seconds old, is not touched. *)
Lemma shouldCloseFile_and_tick_witness :
  allPrintable (workerWithTwo 1000 100000001000) /\
  exists world' w',
    tick (1000 + 2 * 60000000000) [] (workerWithTwo 1000 100000001000)
      = Ok (tt, world', w') /\
    writers w' = {[ getWriterKey 0x0a000002 5 3 := otherWriter 100000001000 ]} /\
    world'
    = [EvRename "/pcap/5/tor_0a0b0c0d0e0f_010000000001_1000_.0.pcap.temp"
         "/pcap/5/tor_0a0b0c0d0e0f_010000000001_1000_1000.0.pcap";
       EvClose "/pcap/5/tor_0a0b0c0d0e0f_010000000001_1000_.0.pcap.temp"] /\
    FileCloses (counter w') = 1.
Proof.
  assert (Hp : allPrintable (workerWithTwo 1000 100000001000)).
  { split.
    - apply map_Forall_insert_2; [unfold printable; simpl; lia |].
      apply map_Forall_insert_2; [unfold printable; simpl; lia |].
      apply map_Forall_empty.
    - apply map_Forall_empty. }
  split; [exact Hp |].
  destruct (shouldCloseFile_and_tick (H := env)) as (_ & _ & _ & Htick).
  destruct (Htick (1000 + 2 * 60000000000) [] (workerWithTwo 1000 100000001000) Hp)
    as (world' & w' & Hrun & Hw4 & _ & _ & Hclosed & _).
  exists world', w'. split; [exact Hrun |].
  split; [rewrite Hw4; vm_compute; reflexivity |].
  split.
  - change world' with (fst (world', counter w')). rewrite Hclosed.
    vm_compute. reflexivity.
  - change (counter w') with (snd (world', counter w')). rewrite Hclosed.
    vm_compute. reflexivity.
Defined.

Lemma ipv6_writers_are_told_apart_by_address_witness :
  exists wwA wwB w2,
    bucket (H := env) w2 (getWriterIpv6Key ip6A 5 ToR) = [wwA; wwB] /\
    ip6 wwA = ip6A /\ ip6 wwB = ip6B.
Proof.
  destruct (ipv6_writers_are_told_apart_by_address (H := env)) as [_ Htwo].
  edestruct (Htwo ip6A ip6B 0x0a0b0c0d0e0f 0x0a0b0c0d0e0f ToR 5
               (ip6Packet 16 0x30001 ip6A 1000) (ip6Packet 16 0x30001 ip6B 2000)
               [] (freshWorker 10 1048576 60000000000))
    as (Hbucket & _ & HipA & HipB).
  - reflexivity.
  - reflexivity.
  - discriminate.
  - reflexivity.
  - reflexivity.
  - reflexivity.
  - vm_compute. reflexivity.
  - vm_compute. reflexivity.
  - do 3 eexists. split; [exact Hbucket |].
    split; [apply HipA | apply HipB]; reflexivity.
Defined.

Lemma emitSet_ipv6_multicast_gates_witness :
  (exists e, emitSet (ip6Packet 16 0x10005 ip6M 1000) someEndpoints = Some e /\
             emitted6 e = [(ip6M, 0x0a0b0c0d0e0f)]) /\
  (exists e, emitSet (ip6Packet 16 0x30001 ip6A 1000) someEndpoints = Some e /\
             emitted6 e = [(ip6A, 0x0a0b0c0d0e0f)]).
Proof.
  split.
  - destruct (emitSet_ipv6_multicast_gates (H := env)
                (ip6Packet 16 0x10005 ip6M 1000) someEndpoints eq_refl) as [Hisp _].
    destruct (Hisp eq_refl) as (e & He & _ & _ & Hemit & _).
    exists e. split; [exact He |]. rewrite Hemit. reflexivity.
  - destruct (emitSet_ipv6_multicast_gates (H := env)
                (ip6Packet 16 0x30001 ip6A 1000) someEndpoints eq_refl) as [_ Htor].
    destruct (Htor eq_refl) as (e & He & _ & _ & Hemit & _).
    exists e. split; [exact He |]. rewrite Hemit. reflexivity.
Defined.

End PcapWorker.


(* ================================================================= *)
(** ** The pcap worker: routing, the registries and the counters *)

Module PcapRegistry.

Import Pcap GoIntFacts NetFacts PcapKeys PcapSim PcapWorker.

#[local] Arguments bucketTotal : simpl never.

Section Registry.
Context `{PcapEnv}.

(** *** Case analysis of a run *)

(** The scrutinee of an innermost [match] of the run [Hrun]. *)
Ltac destr_in Hrun :=
  match type of Hrun with
  | context [match ?x with _ => _ end] =>
      lazymatch x with
      | context [match _ with _ => _ end] => fail
      | _ => destruct x eqn:?
      end
  end.

(** All the ways a method of the registry returns. *)
Ltac run_worker_in Hrun :=
  unfold writePacket, writePacketIpv6, getWrappedWriter, generateWrappedWriter,
    finishWriter, bind, getWorker, modifyCounter, modifyWorker, inWorld, inWorld_,
    liftRes, ret in Hrun;
  repeat destr_in Hrun; try discriminate Hrun.

(** The same for a goal that says the method returns. *)
Ltac run_worker :=
  unfold writePacket, writePacketIpv6, getWrappedWriter, generateWrappedWriter,
    finishWriter, bind, getWorker, modifyCounter, modifyWorker, inWorld, inWorld_,
    liftRes, ret;
  repeat match goal with
    | |- context [match ?x with _ => _ end] =>
        lazymatch x with
        | context [match _ with _ => _ end] => fail
        | _ => destruct x eqn:?
        end
    end.

Ltac size_norm :=
  simpl in *;
  rewrite ?insert_insert_eq;
  repeat first
    [ rewrite map_size_insert_None by
        (rewrite ?lookup_delete_eq; first [assumption | reflexivity])
    | rewrite map_size_insert_Some by
        (rewrite ?lookup_insert_eq; eauto)
    | rewrite map_size_delete_Some in * by eauto
    | rewrite map_size_delete_None in * by eauto ].

Ltac geb_norm :=
  repeat match goal with
    | Hb : (_ >=? _) = true |- _ => rewrite Z.geb_leb in Hb; apply Z.leb_le in Hb
    | Hb : (_ >=? _) = false |- _ => rewrite Z.geb_leb in Hb; apply Z.leb_gt in Hb
    end.

(** *** Loops and invariants *)

Lemma forEach_skip {A : Type} (l : list A) (f : A -> M unit) world w :
  Forall (fun a => f a world w = Ok (tt, world, w)) l ->
  forEach l f world w = Ok (tt, world, w).
Proof.
  induction 1 as [| a l Ha _ IH]; simpl; [reflexivity |].
  unfold bind. rewrite Ha. exact IH.
Qed.

Lemma keeps_bind (I : Worker -> Prop) {A B : Type} (m : M A) (k : A -> M B) :
  keeps I m -> (forall a, keeps I (k a)) -> keeps I (bind m k).
Proof.
  intros Hm Hk world w b world' w' Hi. unfold bind.
  destruct (m world w) as [[[a world1] w1] | msg] eqn:Hrun; [| discriminate].
  intros Hrest. eapply Hk; [| exact Hrest]. eapply Hm; eassumption.
Qed.

Lemma keeps_ret (I : Worker -> Prop) {A : Type} (a : A) : keeps I (ret a).
Proof. intros world w a' world' w' Hi Heq. injection Heq as <- <- <-. exact Hi. Qed.

Lemma keeps_inWorld_ (I : Worker -> Prop) f : keeps I (inWorld_ f).
Proof. intros world w a' world' w' Hi Heq. injection Heq as <- <- <-. exact Hi. Qed.

Lemma keeps_getWorker (I : Worker -> Prop) : keeps I getWorker.
Proof. intros world w a' world' w' Hi Heq. injection Heq as <- <- <-. exact Hi. Qed.

Lemma keeps_liftRes (I : Worker -> Prop) {A : Type} (r : Res A) : keeps I (liftRes r).
Proof.
  intros world w a world' w' Hi. unfold liftRes. destruct r; [| discriminate].
  intros Heq. injection Heq as <- <- <-. exact Hi.
Qed.

Lemma keeps_at_index (I : Worker -> Prop) {A : Type} (l : list A) i :
  keeps I (at_index l i).
Proof.
  intros world w a' world' w' Hi. unfold at_index.
  destruct (l !! i); [apply keeps_ret; exact Hi | discriminate].
Qed.

Lemma keeps_forEach (I : Worker -> Prop) {A : Type} (f : A -> M unit) l :
  (forall a, keeps I (f a)) -> keeps I (forEach l f).
Proof.
  intros Hf. induction l as [| a l IH]; simpl.
  - apply keeps_ret.
  - apply keeps_bind; [apply Hf | intros _; exact IH].
Qed.

(** What the two write paths keep, whatever they do, is kept by the
    routing of a packet. *)
Lemma keeps_processPacket (I : Worker -> Prop) packet :
  (forall tap ipInt macInt gid, keeps I (writePacket packet tap ipInt macInt gid)) ->
  (forall tap ipAddr macInt gid, keeps I (writePacketIpv6 packet tap ipAddr macInt gid)) ->
  keeps I (processPacket packet).
Proof.
  intros H4 H6. unfold processPacket.
  destruct (PolicyData packet) as [pd |]; [| apply keeps_inWorld_].
  destruct (EndpointData packet) as [ed |]; [| apply keeps_inWorld_].
  destruct (emitSet packet ed) as [e |]; [| apply keeps_inWorld_].
  apply keeps_bind; [| intros _; apply keeps_inWorld_].
  apply keeps_forEach. intros policy. unfold capture.
  destruct (GetACLGID policy <=? 0); [apply keeps_ret |].
  destruct (negb (Z.land (GetActionFlags policy) ACTION_PACKET_CAPTURING =? 0));
    [| apply keeps_ret].
  destruct (negb (EthType packet =? EthernetTypeIPv6)); apply keeps_forEach; intros i;
    (apply keeps_bind; [apply keeps_at_index | intros a]);
    (apply keeps_bind; [apply keeps_at_index | intros b]).
  - apply H4.
  - apply H6.
Qed.

(** What the write paths and a tick keep is kept by a batch. *)
Lemma keeps_processBatch (I : Worker -> Prop) timeNow elements :
  (forall packet tap ipInt macInt gid,
     keeps I (writePacket packet tap ipInt macInt gid)) ->
  (forall packet tap ipAddr macInt gid,
     keeps I (writePacketIpv6 packet tap ipAddr macInt gid)) ->
  keeps I (tick timeNow) ->
  keeps I (processBatch timeNow elements).
Proof.
  intros H4 H6 Htick.
  induction elements as [| e rest IH]; simpl; [apply keeps_ret |].
  apply keeps_bind; [| intros [|]; [apply keeps_ret | exact IH]].
  destruct e as [packet |]; simpl.
  - apply keeps_bind; [| intros _; apply keeps_ret].
    apply keeps_processPacket; [apply H4 | apply H6].
  - apply keeps_bind; [apply keeps_getWorker | intros w0].
    destruct (exiting w0); [apply keeps_ret |].
    apply keeps_bind; [exact Htick | intros _; apply keeps_ret].
Qed.

Lemma runs_bind (I : Worker -> Prop) {A B : Type} (m : M A) (k : A -> M B) :
  runs I m -> (forall a, runs I (k a)) -> runs I (bind m k).
Proof.
  intros Hm Hk world w Hi.
  destruct (Hm world w Hi) as (a & world1 & w1 & Hrun & Hi1).
  destruct (Hk a world1 w1 Hi1) as (b & world2 & w2 & Hrun2 & Hi2).
  exists b, world2, w2. split; [| exact Hi2].
  unfold bind. rewrite Hrun. exact Hrun2.
Qed.

Lemma runs_ret (I : Worker -> Prop) {A : Type} (a : A) : runs I (ret a).
Proof. intros world w Hi. exists a, world, w. split; [reflexivity | exact Hi]. Qed.

Lemma runs_inWorld_ (I : Worker -> Prop) f : runs I (inWorld_ f).
Proof. intros world w Hi. exists tt, (f world), w. split; [reflexivity | exact Hi]. Qed.

Lemma runs_forEach (I : Worker -> Prop) {A : Type} (f : A -> M unit) l :
  Forall (fun a => runs I (f a)) l -> runs I (forEach l f).
Proof.
  induction 1 as [| a l Ha _ IH]; simpl.
  - apply runs_ret.
  - apply runs_bind; [exact Ha | intros _; exact IH].
Qed.

Lemma runs_at_index (I : Worker -> Prop) {A B : Type} (l : list A) i (k : A -> M B) :
  (i < length l)%nat -> (forall a, runs I (k a)) -> runs I (bind (at_index l i) k).
Proof.
  intros Hi Hk. destruct (lookup_lt_is_Some_2 l i Hi) as [a Ha].
  intros world w Hw. destruct (Hk a world w Hw) as (b & world' & w' & Hrun & Hw').
  exists b, world', w'. split; [| exact Hw'].
  unfold bind. rewrite (at_index_ok l i a world w Ha). exact Hrun.
Qed.

(** *** The routing table *)

Lemma length_appendIf {A : Type} (c : bool) (x : A) l :
  length (appendIf c x l) = (length l + (if c then 1 else 0))%nat.
Proof. destruct c; simpl; [rewrite length_app; simpl |]; lia. Qed.

Lemma elem_of_appendIf {A : Type} (c : bool) (x y : A) l :
  y ∈ appendIf c x l -> y ∈ l \/ (c = true /\ y = x).
Proof.
  destruct c; simpl; [| auto].
  intros Hin. apply elem_of_app in Hin as [Hin | Hin]; [auto |].
  apply list_elem_of_singleton in Hin. auto.
Qed.

Lemma emitSet_lengths packet ed e :
  emitSet packet ed = Some e ->
  length (macs e) = (length (ips e) + length (ip6s e))%nat /\
  (length (macs e) <= 2)%nat /\
  (EthType packet <> EthernetTypeIPv6 -> ip6s e = []) /\
  (EthType packet = EthernetTypeIPv6 -> ips e = []).
Proof.
  unfold emitSet. intros He.
  destruct (isISP (InPort packet)); [| destruct (isTOR (InPort packet)); [| discriminate]];
    destruct (Z.eqb_spec (EthType packet) EthernetTypeIPv6) as [Heth | Heth];
    simpl in He; injection He as <-; simpl;
    rewrite !length_appendIf; simpl;
    repeat match goal with |- context [if ?c then _ else _] => destruct c end;
    simpl; repeat split; try lia; try congruence; try reflexivity.
Qed.

Lemma emitSet_tap packet ed e :
  emitSet packet ed = Some e ->
  emitTapType e
  = if isISP (InPort packet) then TAPTypeEnum (uint32 (InPort packet - 0x10000))
    else ToR.
Proof.
  unfold emitSet. intros He.
  destruct (isISP (InPort packet)); [| destruct (isTOR (InPort packet)); [| discriminate]];
    destruct (negb (EthType packet =? EthernetTypeIPv6));
    injection He as <-; reflexivity.
Qed.

(** X6: the three slices [Process] fills for a packet go together: there
    is one MAC for every address, at most two, the addresses are all
    IPv4 or all IPv6 as the EthType says, and the tap type is the port
    less 0x10000 on an ISP port and ToR on a ToR port.  So the reads
    [macs[i]] of the capture loops are always in range. *)
Theorem emitSet_shape packet ed e :
  emitSet packet ed = Some e ->
  length (macs e) = (length (ips e) + length (ip6s e))%nat /\
  (length (macs e) <= 2)%nat /\
  (EthType packet <> EthernetTypeIPv6 -> ip6s e = []) /\
  (EthType packet = EthernetTypeIPv6 -> ips e = []) /\
  emitTapType e
  = (if isISP (InPort packet) then TAPTypeEnum (uint32 (InPort packet - 0x10000))
     else ToR).
Proof.
  intros He. destruct (emitSet_lengths packet ed e He) as (Hlen & Htwo & H4 & H6).
  repeat split; try assumption. exact (emitSet_tap packet ed e He).
Qed.

(** X7: no broadcast MAC address and no broadcast IPv4 address is ever
    in the emit set, on either kind of port. *)
Theorem emitSet_never_broadcast packet ed e :
  emitSet packet ed = Some e ->
  (BROADCAST_MAC ∉ macs e) /\ (BROADCAST_IP ∉ ips e).
Proof.
  unfold emitSet. intros He.
  destruct (isISP (InPort packet)); [| destruct (isTOR (InPort packet)); [| discriminate]];
    destruct (negb (EthType packet =? EthernetTypeIPv6));
    injection He as <-; simpl; split; intros Hin;
    repeat (apply elem_of_appendIf in Hin as [Hin | [Hc Heq]];
            [| repeat (apply andb_true_iff in Hc as [Hc ?]);
               repeat match goal with
                 | Hn : negb (_ =? _) = true |- _ =>
                     apply negb_true_iff in Hn; apply Z.eqb_neq in Hn
                 end; congruence]);
    try (inversion Hin).
Qed.

Lemma capture_skip packet e policy world w :
  GetACLGID policy <= 0 \/
  Z.land (GetActionFlags policy) ACTION_PACKET_CAPTURING = 0 \/
  macs e = [] /\ (exists ed, emitSet packet ed = Some e) ->
  capture packet e policy world w = Ok (tt, world, w).
Proof.
  intros Hskip. unfold capture.
  destruct (Z.leb_spec (GetACLGID policy) 0) as [| Hgid]; [reflexivity |].
  destruct (Z.eqb_spec (Z.land (GetActionFlags policy) ACTION_PACKET_CAPTURING) 0)
    as [| Hflag]; [reflexivity |]. simpl.
  destruct Hskip as [? | [? | [Hnone [ed He]]]]; [lia | contradiction |].
  destruct (emitSet_lengths packet ed e He) as (Hlen & _).
  rewrite Hnone in Hlen. simpl in Hlen.
  assert (Hi : length (ips e) = 0%nat) by lia.
  assert (Hi6 : length (ip6s e) = 0%nat) by lia.
  rewrite Hi, Hi6. destruct (negb (EthType packet =? EthernetTypeIPv6)); reflexivity.
Qed.

(** X8: a packet that is not to be captured is released and leaves the
    worker as it was: a packet without policy or endpoint data, a packet
    of a port that is neither ISP nor ToR, a packet none of whose policy
    actions has ACLGID > 0 and the capture flag, and a packet whose emit
    set is empty. *)
Theorem processPacket_without_capture packet world w :
  PolicyData packet = None \/ EndpointData packet = None \/
  (isISP (InPort packet) = false /\ isTOR (InPort packet) = false) \/
  (exists pd, PolicyData packet = Some pd /\
     Forall (fun policy =>
               GetACLGID policy <= 0 \/
               Z.land (GetActionFlags policy) ACTION_PACKET_CAPTURING = 0)
       (AclActions pd)) \/
  (exists ed e, EndpointData packet = Some ed /\ emitSet packet ed = Some e /\
     macs e = []) ->
  processPacket packet world w = Ok (tt, ReleaseMetaPacket packet world, w).
Proof.
  intros Hcase. unfold processPacket.
  destruct (PolicyData packet) as [pd |] eqn:Hpd; [| reflexivity].
  destruct (EndpointData packet) as [ed |] eqn:Hed; [| reflexivity].
  destruct (emitSet packet ed) as [e |] eqn:He; [| reflexivity].
  assert (Hloop : forEach (AclActions pd) (capture packet e) world w = Ok (tt, world, w)).
  { apply forEach_skip.
    destruct Hcase
      as [? | [? | [[Hisp Htor] | [(pd' & Hpd' & Hall) | (ed' & e' & Hed' & He' & Hnone)]]]];
      try discriminate.
    - unfold emitSet in He. rewrite Hisp, Htor in He. discriminate.
    - injection Hpd' as <-. eapply Forall_impl; [exact Hall |].
      intros policy [Hp | Hp]; apply capture_skip; [left | right; left]; exact Hp.
    - injection Hed' as <-. rewrite He in He'. injection He' as <-.
      apply Forall_forall. intros policy _. apply capture_skip.
      right. right. split; [exact Hnone | eauto]. }
  unfold bind. rewrite Hloop. reflexivity.
Qed.

(** *** The two write paths *)

(** What [writePacket] leaves alone, and the cap. *)
Lemma writePacket_effect packet tap ipInt macInt gid world w u world' w' :
  writePacket packet tap ipInt macInt gid world w = Ok (u, world', w') ->
  (forall k, k <> getWriterKey ipInt gid tap -> writers w' !! k = writers w !! k) /\
  writersIpv6 w' = writersIpv6 w /\
  sameConfig w w' /\
  (underCap w -> underCap w').
Proof.
  intros Hrun. unfold underCap. run_worker_in Hrun.
  all: injection Hrun as <- <- <-.
  all: split; [intros k Hk; simpl;
               rewrite ?lookup_insert_ne, ?lookup_delete_ne by congruence; reflexivity |].
  all: split; [reflexivity |].
  all: split; [repeat split |].
  all: intros Hcap; size_norm; geb_norm; lia.
Qed.

Lemma writePacketIpv6_effect packet tap ipAddr macInt gid world w u world' w' :
  writePacketIpv6 packet tap ipAddr macInt gid world w = Ok (u, world', w') ->
  (forall k, k <> getWriterIpv6Key ipAddr gid tap ->
     writersIpv6 w' !! k = writersIpv6 w !! k) /\
  writers w' = writers w /\
  sameConfig w w'.
Proof.
  intros Hrun. run_worker_in Hrun.
  all: injection Hrun as <- <- <-; simpl.
  all: (split; [| split; [reflexivity | repeat split]]).
  all: intros k Hk; simpl.
  all: rewrite ?lookup_insert_ne by congruence; reflexivity.
Qed.

(** X9: [writePacket] touches the writer of its own key only: every
    other entry of the IPv4 map, the whole IPv6 registry and the
    configuration of the worker are as before. *)
Theorem writePacket_touches_only_its_key packet tap ipInt macInt gid world w world' w' :
  writePacket packet tap ipInt macInt gid world w = Ok (tt, world', w') ->
  (forall k, k <> getWriterKey ipInt gid tap -> writers w' !! k = writers w !! k) /\
  writersIpv6 w' = writersIpv6 w /\
  sameConfig w w'.
Proof.
  intros Hrun.
  destruct (writePacket_effect _ _ _ _ _ _ _ _ _ _ Hrun) as (Hother & Hw6 & Hc & _).
  auto.
Qed.

(** X10: [writePacketIpv6] touches the bucket of its own key only: every
    other bucket, the whole IPv4 map and the configuration of the worker
    are as before. *)
Theorem writePacketIpv6_touches_only_its_bucket
    packet tap ipAddr macInt gid world w world' w' :
  writePacketIpv6 packet tap ipAddr macInt gid world w = Ok (tt, world', w') ->
  (forall k, k <> getWriterIpv6Key ipAddr gid tap ->
     writersIpv6 w' !! k = writersIpv6 w !! k) /\
  writers w' = writers w /\
  sameConfig w w'.
Proof. apply writePacketIpv6_effect. Qed.

(** X11: a rotation is never refused by the cap.  When the writer of the
    key is due to be closed and the IPv4 map is within the cap,
    [writePacket] closes it, counts no rejection, and either registers
    a new writer under the key, whose first packet is this one, or
    counts a failed creation. *)
Theorem writePacket_rotation_is_not_rejected
    packet tap ipInt macInt gid world w ww world' w' :
  writers w !! getWriterKey ipInt gid tap = Some ww ->
  shouldCloseFile w ww packet = true ->
  Z.of_nat (size (writers w)) <= maxConcurrentFiles w ->
  writePacket packet tap ipInt macInt gid world w = Ok (tt, world', w') ->
  FileCloses (counter w') = incr64 (FileCloses (counter w)) /\
  FileRejections (counter w') = FileRejections (counter w) /\
  match writers w' !! getWriterKey ipInt gid tap with
  | Some made =>
      firstPacketTime made = Timestamp packet /\
      FileCreations (counter w') = incr64 (FileCreations (counter w))
  | None =>
      FileCreationFailures (counter w') = incr64 (FileCreationFailures (counter w))
  end.
Proof.
  intros Hkey Hclose Hcap Hrun.
  pose proof (map_size_ne_0_lookup_2 (writers w) _ (mk_is_Some _ _ Hkey)) as Hsize.
  unfold writePacket in Hrun. unfold bind at 1 in Hrun. unfold getWorker at 1 in Hrun.
  unfold bind at 1 in Hrun. rewrite Hkey, Hclose in Hrun.
  run_worker_in Hrun.
  all: injection Hrun as <- <-.
  all: size_norm; geb_norm; try lia.
  all: rewrite ?lookup_insert_eq, ?lookup_delete_eq.
  all: repeat split.
Qed.

(** X12: a packet for a triple that has no writer, arriving when the
    IPv4 map is at the cap, is written nowhere: [writePacket] counts one
    rejection and changes nothing else, neither in the worker nor in the
    file system. *)
Theorem writePacket_new_key_at_the_cap packet tap ipInt macInt gid world w :
  writers w !! getWriterKey ipInt gid tap = None ->
  maxConcurrentFiles w <= Z.of_nat (size (writers w)) ->
  writePacket packet tap ipInt macInt gid world w
  = Ok (tt, world, set_counter (incr_FileRejections (counter w)) w).
Proof.
  intros Hkey Hfull.
  unfold writePacket. unfold bind at 1. unfold getWorker at 1.
  unfold bind at 1. rewrite Hkey. unfold ret at 1.
  unfold bind at 1. unfold bind at 1.
  rewrite generateWrappedWriter_rejects by exact Hfull.
  reflexivity.
Qed.

(** X13: the writer [writePacket] registers under a key that had none
    carries the triple of the key: the tap type, the ACL group and the
    MAC of the call, the IPv4 form of the address (its [ip6] is nil),
    and the time of this packet as the time of its first packet; one
    creation is counted, and the map was below the cap. *)
Theorem writePacket_registers_the_triple
    packet tap ipInt macInt gid world w world' w' made :
  writers w !! getWriterKey ipInt gid tap = None ->
  writePacket packet tap ipInt macInt gid world w = Ok (tt, world', w') ->
  writers w' !! getWriterKey ipInt gid tap = Some made ->
  tapType made = tap /\ aclGID made = gid /\ mac made = macInt /\
  ip made = IpToUint32 (IpFromUint32 ipInt) /\ ip6 made = [] /\
  firstPacketTime made = Timestamp packet /\
  FileCreations (counter w') = incr64 (FileCreations (counter w)) /\
  Z.of_nat (size (writers w)) < maxConcurrentFiles w.
Proof.
  intros Hkey Hrun.
  unfold writePacket in Hrun. unfold bind at 1 in Hrun. unfold getWorker at 1 in Hrun.
  unfold bind at 1 in Hrun. rewrite Hkey in Hrun. unfold ret at 1 in Hrun.
  run_worker_in Hrun.
  all: injection Hrun as <- <-; simpl.
  all: rewrite ?lookup_insert_eq, ?Hkey; intros Hmade; try discriminate.
  all: injection Hmade as <-; simpl; geb_norm.
  all: repeat split; try lia.
Qed.

(** X14: a write that fails leaves the writer registered under its key,
    as [Write] left it: [writePacket] counts one failed write, does not
    move the time of the last packet, and drains no statistics. *)
Theorem writePacket_failed_write packet tap ipInt macInt gid world w ww x world1 :
  writers w !! getWriterKey ipInt gid tap = Some ww ->
  shouldCloseFile w ww packet = false ->
  Writer_Write (writer ww) packet world = (x, true, world1) ->
  exists w',
    writePacket packet tap ipInt macInt gid world w = Ok (tt, world1, w') /\
    writers w' = <[getWriterKey ipInt gid tap := set_writer x ww]> (writers w) /\
    writersIpv6 w' = writersIpv6 w /\
    counter w' = incr_FileWritingFailures (counter w) /\
    sameConfig w w'.
Proof.
  intros Hkey Hopen Hwrite. eexists. split.
  - unfold writePacket, bind, getWorker, ret, inWorld.
    rewrite Hkey, Hopen, Hwrite. reflexivity.
  - simpl. repeat split.
Qed.

Lemma Equal_To4_differ a b :
  Net.To4 a = None -> Net.To4 b <> None -> Net.Equal a b = false.
Proof.
  unfold Net.To4, Net.Equal, Net.IPv4len, Net.IPv6len. intros Ha Hb.
  destruct (Nat.eqb_spec (length a) 4) as [| Ha4]; [discriminate |].
  destruct (Nat.eqb_spec (length a) (length b)) as [Hlen | Hlen].
  - destruct (Net.bytes_eqb a b) eqn:Heq; [| reflexivity].
    apply bytes_eqb_eq in Heq. subst b.
    destruct (Nat.eqb_spec (length a) 4); [contradiction |].
    rewrite Ha in Hb. contradiction.
  - simpl. destruct (Nat.eqb (length a) 16); simpl in *; [| reflexivity].
    destruct (Net.bytes_eqb (take 12 a) Net.v4InV6Prefix); [discriminate |].
    destruct (length b =? 4)%nat; reflexivity.
Qed.

(** X15: for an address that has a 4-byte form (an IPv4-mapped IPv6
    address), the IPv6 path never finds a writer again.
    [generateWrappedWriter] stores such a writer with a nil [ip6], which
    [Equal] matches with no address; so in a bucket whose writers have
    no 4-byte form in [ip6], as every writer it made has, every writer
    [getWrappedWriter] returns for the address is new and is appended
    to the bucket. *)
Theorem getWrappedWriter_never_reuses_for_a_4_byte_form
    ipAddr macInt tap gid packet world w i ww world' w' :
  Net.To4 ipAddr <> None ->
  Forall (fun old => Net.To4 (ip6 old) = None)
    (bucket w (getWriterIpv6Key ipAddr gid tap)) ->
  getWrappedWriter ipAddr macInt tap gid packet world w
    = Ok (Some (i, ww), world', w') ->
  i = length (bucket w (getWriterIpv6Key ipAddr gid tap)) /\
  bucket w' (getWriterIpv6Key ipAddr gid tap)
    = bucket w (getWriterIpv6Key ipAddr gid tap) ++ [ww] /\
  ip6 ww = [] /\
  Forall (fun old => Net.To4 (ip6 old) = None)
    (bucket w' (getWriterIpv6Key ipAddr gid tap)).
Proof.
  intros Hform Hall Hrun.
  assert (Hmiss : findWriter ipAddr (bucket w (getWriterIpv6Key ipAddr gid tap)) = None).
  { apply findWriter_None. intros old Hin.
    apply Equal_To4_differ; [| exact Hform].
    rewrite Forall_forall in Hall. apply Hall. exact Hin. }
  destruct (getWrappedWriter_miss _ _ _ _ _ _ _ _ _ _ _ Hmiss Hrun)
    as (Hi & Hbucket & _ & _ & Hip6).
  destruct (Net.To4 ipAddr); [| contradiction].
  split; [exact Hi |]. split; [exact Hbucket |]. split; [exact Hip6 |].
  rewrite Hbucket. apply Forall_app. split; [exact Hall |].
  apply Forall_singleton. rewrite Hip6. reflexivity.
Qed.

Lemma app_string_assoc (a b c : string) : (a +:+ b) +:+ c = a +:+ (b +:+ c).
Proof.
  induction a as [| ch a IH]; [reflexivity |].
  change (String ch ((a +:+ b) +:+ c) = String ch (a +:+ (b +:+ c))).
  f_equal. exact IH.
Qed.

(** X16: the final name of a capture file keeps the stem of its
    temporary name.  For every writer [generateWrappedWriter] made there
    is a stem (directory, ACL group, tap type, MAC, address and time of
    the first packet) such that the temporary name is the stem followed
    by ".<tid>.pcap.temp" and the name [getFilename] gives the writer
    later, whatever was written since, is the stem followed by the time
    of the last packet and ".<tid>.pcap". *)
Theorem final_name_keeps_the_stem_of_the_temporary_name
    ipAddr macInt tap gid timestamp world w ww world' w' :
  generateWrappedWriter ipAddr macInt tap gid timestamp world w
    = Ok (Some ww, world', w') ->
  exists stem,
    tempFilename ww = stem +:+ "." +:+ Fmt.d (tid ww) +:+ ".pcap.temp" /\
    forall x last,
      getFilename (set_lastPacketTime last (set_writer x ww)) (baseDirectory w)
      = Ok (stem +:+ formatDuration last +:+ "." +:+ Fmt.d (tid ww) +:+ ".pcap").
Proof.
  intros Hrun. run_worker_in Hrun.
  all: injection Hrun as <- <- <-.
  all: unfold WrappedWriter_getTempFilename, getTempFilename, getTempFilenameByIpv6,
         getFilename in *; simpl in *.
  all: destruct (tapTypeToString tap) as [name |]; simpl in *;
       repeat match goal with
         | Hn : match ?v with [] => _ | _ :: _ => _ end = _ |- _ => destruct v eqn:?
         end; simpl in *; try discriminate.
  all: match goal with
       | Hn : Ok _ = Ok _ |- _ => injection Hn as <-
       end.
  all: eexists; split;
       [ match goal with
         | |- context ["_." +:+ ?r] =>
             change ("_." +:+ r) with ("_" +:+ "." +:+ r);
             set (T := "." +:+ r)
         end;
         rewrite <- !app_string_assoc; reflexivity
       | intros x last; f_equal;
         match goal with
         | |- context [formatDuration last +:+ ?r] =>
             set (T := formatDuration last +:+ r)
         end;
         rewrite <- !app_string_assoc; reflexivity ].
Qed.

(** *** The cap on the IPv4 map *)

Lemma finishWriter_effect ww newFilename world w ww' world' w' :
  finishWriter ww newFilename world w = Ok (ww', world', w') ->
  writers w' = writers w /\ writersIpv6 w' = writersIpv6 w /\ sameConfig w w' /\
  FileCreations (counter w') = FileCreations (counter w) /\
  FileCloses (counter w') = incr64 (FileCloses (counter w)).
Proof.
  intros Hrun. run_worker_in Hrun. injection Hrun as <- <- <-. repeat split.
Qed.

Lemma capInv_step w0 w w' :
  capInv w0 w -> sameConfig w w' -> (underCap w -> underCap w') -> capInv w0 w'.
Proof.
  intros [Hc Hcap] Hc' Hcap'. split; [eapply sameConfig_trans; eassumption | auto].
Qed.

Lemma underCap_same w w' :
  writers w' = writers w -> sameConfig w w' -> underCap w -> underCap w'.
Proof.
  intros Hw Hc. unfold underCap. rewrite Hw. destruct Hc as (_ & -> & _). auto.
Qed.

Lemma keeps_cap_writePacket w0 packet tap ipInt macInt gid :
  keeps (capInv w0) (writePacket packet tap ipInt macInt gid).
Proof.
  intros world w u world' w' Hi Hrun.
  destruct (writePacket_effect _ _ _ _ _ _ _ _ _ _ Hrun) as (_ & _ & Hc & Hcap).
  eapply capInv_step; eassumption.
Qed.

Lemma keeps_cap_writePacketIpv6 w0 packet tap ipAddr macInt gid :
  keeps (capInv w0) (writePacketIpv6 packet tap ipAddr macInt gid).
Proof.
  intros world w u world' w' Hi Hrun.
  destruct (writePacketIpv6_effect _ _ _ _ _ _ _ _ _ _ Hrun) as (_ & Hw & Hc).
  eapply capInv_step; [exact Hi | exact Hc | apply underCap_same; assumption].
Qed.

Lemma keeps_cap_finishWriter w0 ww newFilename :
  keeps (capInv w0) (finishWriter ww newFilename).
Proof.
  intros world w a world' w' Hi Hrun.
  apply finishWriter_effect in Hrun as (Hw4 & _ & Hc & _).
  eapply capInv_step; [exact Hi | exact Hc | apply underCap_same; assumption].
Qed.

Lemma keeps_cap_delete w0 key :
  keeps (capInv w0) (modifyWorker (fun w => set_writers (delete key (writers w)) w)).
Proof.
  intros world w a world' w' Hi Heq. injection Heq as <- <- <-.
  eapply capInv_step; [exact Hi | repeat split |].
  unfold underCap. simpl.
  pose proof (map_size_delete key (writers w)) as Hsize.
  destruct (writers w !! key); simpl in Hsize; lia.
Qed.

Lemma keeps_cap_set_bucket w0 key l : keeps (capInv w0) (modifyWorker (set_bucket key l)).
Proof.
  intros world w a world' w' Hi Heq. injection Heq as <- <- <-.
  eapply capInv_step; [exact Hi | repeat split | auto].
Qed.

Lemma keeps_cap_tickList w0 timeNow l : keeps (capInv w0) (tickList timeNow l).
Proof.
  induction l as [| ww l IH]; simpl; [apply keeps_ret |].
  apply keeps_bind; [apply keeps_getWorker | intros w].
  destruct (expired w timeNow ww).
  - apply keeps_bind; [apply keeps_liftRes | intros name].
    apply keeps_bind; [apply keeps_cap_finishWriter | intros _]. exact IH.
  - apply keeps_bind; [exact IH | intros rest; apply keeps_ret].
Qed.

Lemma keeps_cap_tick w0 timeNow : keeps (capInv w0) (tick timeNow).
Proof.
  unfold tick. apply keeps_bind; [apply keeps_getWorker | intros w].
  apply keeps_bind; [| intros _]; apply keeps_forEach.
  - intros [key ww]. unfold tickWriter.
    apply keeps_bind; [apply keeps_getWorker | intros w1]. simpl.
    destruct (expired w1 timeNow ww); [| apply keeps_ret].
    apply keeps_bind; [apply keeps_liftRes | intros name].
    apply keeps_bind; [apply keeps_cap_finishWriter | intros _]. apply keeps_cap_delete.
  - intros [key l]. unfold tickBucket.
    apply keeps_bind; [apply keeps_cap_tickList | intros kept]. apply keeps_cap_set_bucket.
Qed.

Lemma keeps_cap_processBatch w0 timeNow elements :
  keeps (capInv w0) (processBatch timeNow elements).
Proof.
  apply keeps_processBatch.
  - intros. apply keeps_cap_writePacket.
  - intros. apply keeps_cap_writePacketIpv6.
  - apply keeps_cap_tick.
Qed.

Lemma capInv_refl w : capInv w w.
Proof. split; [apply sameConfig_refl | auto]. Qed.

(** X17: the IPv4 map never grows beyond the cap.  A worker whose IPv4
    map holds at most [maxConcurrentFiles] writers still does after any
    batch of packets and ticks that returns, and the batch changes
    nothing of the configuration. *)
Theorem ipv4_registry_stays_within_the_cap timeNow elements world w stop world' w' :
  Z.of_nat (size (writers w)) <= maxConcurrentFiles w ->
  processBatch timeNow elements world w = Ok (stop, world', w') ->
  Z.of_nat (size (writers w')) <= maxConcurrentFiles w' /\ sameConfig w w'.
Proof.
  intros Hcap Hrun.
  destruct (keeps_cap_processBatch w timeNow elements world w stop world' w'
              (capInv_refl w) Hrun) as [Hc Hcap'].
  split; [exact (Hcap' Hcap) | exact Hc].
Qed.

(** *** When a batch stops *)

Lemma processBatch_stop timeNow elements : forall world w stop world' w',
  processBatch timeNow elements world w = Ok (stop, world', w') ->
  exiting w' = exiting w /\
  (stop = true -> exiting w = true /\ None ∈ elements).
Proof.
  induction elements as [| e rest IH]; intros world w stop world' w' Hrun.
  - injection Hrun as <- <- <-. split; [reflexivity | discriminate].
  - simpl in Hrun. unfold bind in Hrun.
    destruct (processElement timeNow e world w) as [[[s1 world1] w1] | msg] eqn:Hstep;
      [| discriminate].
    assert (Hex : exiting w1 = exiting w /\ (s1 = true -> exiting w = true /\ e = None)).
    { destruct e as [packet |]; simpl in Hstep; unfold bind in Hstep.
      - destruct (processPacket packet world w) as [[[u world2] w2] | msg] eqn:Hp;
          [| discriminate].
        injection Hstep as <- <- <-.
        split; [| discriminate].
        assert (Hk : keeps (capInv w) (processPacket packet)).
        { apply keeps_processPacket; intros;
            [apply keeps_cap_writePacket | apply keeps_cap_writePacketIpv6]. }
        destruct (Hk world w u world2 w2 (capInv_refl w) Hp) as [Hc _].
        destruct Hc as (_ & _ & _ & _ & _ & _ & _ & Hexit & _). exact Hexit.
      - unfold getWorker in Hstep. destruct (exiting w) eqn:Hexit.
        + injection Hstep as <- <- <-. auto.
        + destruct (tick timeNow world w) as [[[u world2] w2] | msg] eqn:Ht;
            [| discriminate].
          injection Hstep as <- <- <-.
          destruct (keeps_cap_tick w timeNow world w u world2 w2 (capInv_refl w) Ht)
            as [Hc _].
          destruct Hc as (_ & _ & _ & _ & _ & _ & _ & Hexit' & _).
          split; [congruence | discriminate]. }
    destruct Hex as [Hex1 Hstop1]. destruct s1.
    + injection Hrun as <- <- <-. split; [exact Hex1 |].
      intros _. destruct (Hstop1 eq_refl) as [Hexit ->].
      split; [exact Hexit | left].
    + apply IH in Hrun as [Hex2 Hstop2]. split; [congruence |].
      intros Hs. destruct (Hstop2 Hs) as [Hexit Hin].
      split; [congruence | right; exact Hin].
Qed.

Lemma processBatch_packet timeNow packet rest world w :
  processBatch timeNow (Some packet :: rest) world w
  = match processPacket packet world w with
    | Ok (_, world1, w1) => processBatch timeNow rest world1 w1
    | Panic msg => Panic msg
    end.
Proof.
  simpl. unfold bind.
  destruct (processPacket packet world w) as [[[u world1] w1] | msg]; reflexivity.
Qed.

(** X18: a batch stops at the first tick it meets while [exiting] is
    set, and nowhere else.  If it stops, [exiting] was set and the batch
    held a tick; and with [exiting] set, the packets before the first
    tick are processed and the elements after it are neither written
    nor released. *)
Theorem processBatch_stops_at_a_tick_while_exiting :
  (forall timeNow elements world w stop world' w',
     processBatch timeNow elements world w = Ok (stop, world', w') ->
     stop = true -> exiting w = true /\ None ∈ elements) /\
  (forall timeNow pre rest world w,
     exiting w = true -> Forall isPacket pre ->
     processBatch timeNow (pre ++ None :: rest) world w
     = match processBatch timeNow pre world w with
       | Ok (_, world', w') => Ok (true, world', w')
       | Panic msg => Panic msg
       end).
Proof.
  split.
  - intros timeNow elements world w stop world' w' Hrun.
    apply (processBatch_stop timeNow elements world w stop world' w' Hrun).
  - intros timeNow pre rest. induction pre as [| e pre IH]; intros world w Hexit Hall.
    + simpl. unfold bind, getWorker. rewrite Hexit. reflexivity.
    + inversion Hall as [| ? ? [packet ->] Hrest]; subst.
      change ((Some packet :: pre) ++ None :: rest)
        with (Some packet :: (pre ++ None :: rest)).
      rewrite !processBatch_packet.
      destruct (processPacket packet world w) as [[[u world1] w1] | msg] eqn:Hp;
        [| reflexivity].
      apply IH; [| exact Hrest].
      assert (Hk : keeps (capInv w) (processPacket packet)).
      { apply keeps_processPacket; intros;
          [apply keeps_cap_writePacket | apply keeps_cap_writePacketIpv6]. }
      destruct (Hk world w u world1 w1 (capInv_refl w) Hp) as [Hc _].
      destruct Hc as (_ & _ & _ & _ & _ & _ & _ & Hexit' & _). congruence.
Qed.

(** *** Files created, files closed and writers open *)

Lemma uint64_congr a b q : a = b + q * 2 ^ 64 -> uint64 a = uint64 b.
Proof. intros ->. unfold uint64, uint. apply Z.mod_add. lia. Qed.

Lemma incr64_wraps x : exists q, incr64 x = x + 1 + q * 2 ^ 64.
Proof.
  unfold incr64, add64, uint64, uint.
  exists (- ((x + 1) / 2 ^ 64)).
  pose proof (Z.div_mod (x + 1) (2 ^ 64)). lia.
Qed.

Lemma openWriterCount_eq (w : Worker) :
  openWriterCount w = Z.of_nat (size (writers w)) + bucketTotal (writersIpv6 w).
Proof. reflexivity. Qed.

Lemma bucketTotal_insert_None m k l :
  m !! k = None -> bucketTotal (<[k := l]> m) = bucketTotal m + Z.of_nat (length l).
Proof.
  intros Hk. unfold bucketTotal.
  rewrite map_fold_insert_L; [reflexivity | | exact Hk].
  intros. lia.
Qed.

Lemma bucketTotal_insert m k l :
  bucketTotal (<[k := l]> m)
  = bucketTotal m - Z.of_nat (length (default [] (m !! k))) + Z.of_nat (length l).
Proof.
  destruct (m !! k) as [l0 |] eqn:Hk; simpl.
  - rewrite <- (insert_delete_eq m k l).
    rewrite bucketTotal_insert_None by apply lookup_delete_eq.
    rewrite <- (insert_delete_id m k l0 Hk) at 2.
    rewrite bucketTotal_insert_None by apply lookup_delete_eq. lia.
  - rewrite bucketTotal_insert_None by exact Hk. lia.
Qed.

Lemma bucketTotal_listTotal m : bucketTotal m = listTotal (map_to_list m).
Proof.
  unfold bucketTotal, listTotal. rewrite map_fold_foldr.
  induction (map_to_list m) as [| [k l] es IH]; simpl; [reflexivity |].
  rewrite IH. reflexivity.
Qed.

Ltac balance_solve w :=
  destruct (incr64_wraps (FileCloses (counter w))) as [q1 Hq1];
  destruct (incr64_wraps (FileCreations (counter w))) as [q2 Hq2];
  rewrite ?Hq1, ?Hq2;
  first [ apply (uint64_congr _ _ 0); lia
        | apply (uint64_congr _ _ q1); lia
        | apply (uint64_congr _ _ q2); lia
        | apply (uint64_congr _ _ (q2 - q1)); lia
        | apply (uint64_congr _ _ (- q1)); lia ].

Lemma writePacket_balance packet tap ipInt macInt gid world w u world' w' :
  writePacket packet tap ipInt macInt gid world w = Ok (u, world', w') ->
  fileBalance w' = fileBalance w.
Proof.
  intros Hrun. unfold fileBalance. rewrite !openWriterCount_eq. run_worker_in Hrun.
  all: injection Hrun as <- <- <-.
  all: try match goal with
         | Hl : writers ?w0 !! _ = Some _ |- _ =>
             pose proof (map_size_ne_0_lookup_2 (writers w0) _ (mk_is_Some _ _ Hl))
         end.
  all: size_norm.
  all: try reflexivity.
  all: balance_solve w.
Qed.

Lemma writePacketIpv6_balance packet tap ipAddr macInt gid world w u world' w' :
  writePacketIpv6 packet tap ipAddr macInt gid world w = Ok (u, world', w') ->
  fileBalance w' = fileBalance w.
Proof.
  intros Hrun. unfold fileBalance. rewrite !openWriterCount_eq.
  run_worker_in Hrun.
  all: injection Hrun as <- <- <-.
  all: repeat match goal with
         | Hf : findWriter _ _ = Some _ |- _ => apply findWriter_Some in Hf as [? ?]
         end.
  all: unfold set_bucket, bucket; simpl.
  all: rewrite ?lookup_insert_eq; simpl.
  all: rewrite ?insert_insert_eq.
  all: rewrite ?bucketTotal_insert.
  all: repeat match goal with
         | Hl : writersIpv6 _ !! _ = _ |- _ => rewrite Hl; simpl
         end.
  all: rewrite ?length_insert, ?length_app; simpl.
  all: try match goal with
         | Hi : ?l !! ?n = Some _ |- context [length (delete ?n ?l)] =>
             rewrite (length_delete l n (mk_is_Some _ _ Hi));
             pose proof (lookup_lt_Some l n _ Hi)
         end.
  all: rewrite ?length_insert, ?length_app; simpl.
  all: balance_solve w.
Qed.

Lemma tickWriter_balance timeNow key ww world w u world' w' :
  writers w !! key = Some ww ->
  tickWriter timeNow (key, ww) world w = Ok (u, world', w') ->
  fileBalance w' = fileBalance w /\ writersIpv6 w' = writersIpv6 w /\
  (forall k, k <> key -> writers w' !! k = writers w !! k).
Proof.
  intros Hkey Hrun.
  pose proof (map_size_ne_0_lookup_2 (writers w) _ (mk_is_Some _ _ Hkey)) as Hsize.
  unfold fileBalance. rewrite !openWriterCount_eq.
  unfold tickWriter in Hrun. run_worker_in Hrun.
  all: injection Hrun as <- <- <-; simpl in *.
  all: (split; [| split; [reflexivity |]]).
  all: try (intros k Hk; rewrite ?lookup_delete_ne by congruence; reflexivity).
  all: try reflexivity.
  rewrite map_size_delete_Some by eauto.
  destruct (incr64_wraps (FileCloses (counter w))) as [q1 ->].
  apply (uint64_congr _ _ (- q1)). lia.
Qed.

Lemma tick4_balance timeNow es : forall world w world' w',
  NoDup es.*1 ->
  (forall k ww, (k, ww) ∈ es -> writers w !! k = Some ww) ->
  forEach es (tickWriter timeNow) world w = Ok (tt, world', w') ->
  fileBalance w' = fileBalance w /\ writersIpv6 w' = writersIpv6 w.
Proof.
  induction es as [| [key ww] es IH]; intros world w world' w' Hnd Hin Hrun.
  - injection Hrun as <- <-. split; reflexivity.
  - rewrite fmap_cons in Hnd. apply NoDup_cons in Hnd as [Hfresh Hnd].
    simpl in Hrun. unfold bind in Hrun.
    destruct (tickWriter timeNow (key, ww) world w) as [[[u world1] w1] | msg] eqn:Hstep;
      [| discriminate].
    apply tickWriter_balance in Hstep as (Hb & Hw6 & Hother); [| apply Hin; left].
    apply IH in Hrun as [Hb' Hw6']; [split; congruence | exact Hnd |].
    intros k x Hkx. rewrite Hother; [apply Hin; right; exact Hkx |].
    intros ->. apply Hfresh. apply list_elem_of_fmap.
    exists (key, x). split; [reflexivity | exact Hkx].
Qed.

Lemma tickList_counts timeNow l : forall world w kept world' w',
  tickList timeNow l world w = Ok (kept, world', w') ->
  writers w' = writers w /\ writersIpv6 w' = writersIpv6 w /\
  FileCreations (counter w') = FileCreations (counter w) /\
  (length kept <= length l)%nat /\
  exists q, FileCloses (counter w')
            = FileCloses (counter w) + Z.of_nat (length l) - Z.of_nat (length kept)
              + q * 2 ^ 64.
Proof.
  induction l as [| ww l IH]; intros world w kept world' w' Hrun.
  - injection Hrun as <- <- <-. repeat split; [simpl; lia |]. exists 0. simpl. lia.
  - simpl in Hrun. unfold bind at 1, getWorker in Hrun.
    destruct (expired w timeNow ww).
    + unfold bind at 1, liftRes in Hrun.
      destruct (getFilename ww (baseDirectory w)) as [name | msg]; [| discriminate].
      unfold bind in Hrun.
      destruct (finishWriter ww name world w) as [[[ww1 world1] w1] | msg] eqn:Hfin;
        [| discriminate].
      apply finishWriter_effect in Hfin as (Hw4 & Hw6 & _ & Hfc & Hcl).
      apply IH in Hrun as (Hw4' & Hw6' & Hfc' & Hlen & q & Hq).
      destruct (incr64_wraps (FileCloses (counter w))) as [q1 Hq1].
      split; [congruence |]. split; [congruence |]. split; [congruence |].
      split; [simpl; lia |].
      exists (q + q1). rewrite Hq, Hcl, Hq1. simpl length. lia.
    + unfold bind, ret in Hrun.
      destruct (tickList timeNow l world w) as [[[rest world1] w1] | msg] eqn:Hrest;
        [| discriminate].
      injection Hrun as <- <- <-.
      apply IH in Hrest as (Hw4' & Hw6' & Hfc' & Hlen & q & Hq).
      split; [congruence |]. split; [congruence |]. split; [congruence |].
      split; [simpl; lia |].
      exists q. rewrite Hq. simpl length. lia.
Qed.

Lemma tickBucket_balance timeNow key l world w u world' w' :
  writersIpv6 w !! key = Some l ->
  tickBucket timeNow (key, l) world w = Ok (u, world', w') ->
  fileBalance w' = fileBalance w /\
  (forall k, k <> key -> writersIpv6 w' !! k = writersIpv6 w !! k).
Proof.
  intros Hkey Hrun. unfold tickBucket, bind in Hrun. simpl in Hrun.
  destruct (tickList timeNow l world w) as [[[kept world1] w1] | msg] eqn:Hlist;
    [| discriminate].
  apply tickList_counts in Hlist as (Hw4 & Hw6 & Hfc & Hlen & q & Hq).
  injection Hrun as <- <- <-.
  split.
  - unfold fileBalance. rewrite !openWriterCount_eq. unfold set_bucket. simpl.
    rewrite bucketTotal_insert, Hw6, Hkey, Hw4, Hfc, Hq. simpl.
    apply (uint64_congr _ _ (- q)). lia.
  - intros k Hk. unfold set_bucket. simpl.
    rewrite lookup_insert_ne by congruence. rewrite Hw6. reflexivity.
Qed.

Lemma tick6_balance timeNow es : forall world w world' w',
  NoDup es.*1 ->
  (forall k l, (k, l) ∈ es -> writersIpv6 w !! k = Some l) ->
  forEach es (tickBucket timeNow) world w = Ok (tt, world', w') ->
  fileBalance w' = fileBalance w.
Proof.
  induction es as [| [key l] es IH]; intros world w world' w' Hnd Hin Hrun.
  - injection Hrun as <- <-. reflexivity.
  - rewrite fmap_cons in Hnd. apply NoDup_cons in Hnd as [Hfresh Hnd].
    simpl in Hrun. unfold bind in Hrun.
    destruct (tickBucket timeNow (key, l) world w) as [[[u world1] w1] | msg] eqn:Hstep;
      [| discriminate].
    apply tickBucket_balance in Hstep as (Hb & Hother); [| apply Hin; left].
    apply IH in Hrun as Hb'; [congruence | exact Hnd |].
    intros k x Hkx. rewrite Hother; [apply Hin; right; exact Hkx |].
    intros ->. apply Hfresh. apply list_elem_of_fmap.
    exists (key, x). split; [reflexivity | exact Hkx].
Qed.

Lemma tick_balance timeNow world w u world' w' :
  tick timeNow world w = Ok (u, world', w') -> fileBalance w' = fileBalance w.
Proof.
  unfold tick, bind at 1, getWorker. unfold bind. intros Hrun.
  destruct (forEach (map_to_list (writers w)) (tickWriter timeNow) world w)
    as [[[[] world1] w1] | msg] eqn:Hloop4; [| discriminate].
  apply tick4_balance in Hloop4 as [Hb Hw6];
    [| apply NoDup_fst_map_to_list
     | intros k ww Hin; apply elem_of_map_to_list; exact Hin].
  destruct u.
  apply tick6_balance in Hrun; [congruence | apply NoDup_fst_map_to_list |].
  intros k l Hin. rewrite Hw6. apply elem_of_map_to_list. exact Hin.
Qed.

Lemma keeps_balance_processBatch c timeNow elements :
  keeps (fun w => fileBalance w = c) (processBatch timeNow elements).
Proof.
  apply keeps_processBatch.
  - intros packet tap ipInt macInt gid world w u world' w' Hw Hrun.
    rewrite <- Hw. eapply writePacket_balance. exact Hrun.
  - intros packet tap ipAddr macInt gid world w u world' w' Hw Hrun.
    rewrite <- Hw. eapply writePacketIpv6_balance. exact Hrun.
  - intros world w u world' w' Hw Hrun. rewrite <- Hw. eapply tick_balance. exact Hrun.
Qed.

Lemma fileBalance_zero w :
  fileBalance w = 0 ->
  uint64 (openWriterCount w)
  = uint64 (FileCreations (counter w) - FileCloses (counter w)).
Proof.
  unfold fileBalance, uint64, uint. intros Hb.
  set (a := FileCreations (counter w) - FileCloses (counter w)) in *.
  set (b := openWriterCount w) in *.
  apply Z.mod_divide in Hb; [| lia]. destruct Hb as [q Hq].
  replace b with (a + (- q) * 2 ^ 64) by lia. apply Z.mod_add. lia.
Qed.

(** X19: no file is lost and none is counted twice.  Over any batch of
    packets and ticks that returns, the files created, less the files
    closed, less the writers open in both registries stay the same
    modulo 2^64; so for a worker that starts in balance, as a new one
    does, the writers open are the files created less the files
    closed. *)
Theorem open_writers_are_creations_less_closes
    timeNow elements world w stop world' w' :
  processBatch timeNow elements world w = Ok (stop, world', w') ->
  fileBalance w' = fileBalance w /\
  (fileBalance w = 0 ->
   uint64 (openWriterCount w')
   = uint64 (FileCreations (counter w') - FileCloses (counter w'))).
Proof.
  intros Hrun.
  assert (Hb : fileBalance w' = fileBalance w).
  { exact (keeps_balance_processBatch (fileBalance w) timeNow elements
             world w stop world' w' eq_refl Hrun). }
  split; [exact Hb |]. intros Hzero. apply fileBalance_zero. congruence.
Qed.

(** *** Returning: the tap types [tapTypeToString] names *)

Lemma tempFilename_printable base tap gid macInt ipInt ipv6 first idx :
  0 <= tap <= 30 ->
  exists name,
    WrappedWriter_getTempFilename base tap gid macInt ipInt ipv6 first idx = Ok name.
Proof.
  intros Hp. unfold WrappedWriter_getTempFilename, getTempFilename, getTempFilenameByIpv6.
  destruct (tapTypeToString_printable tap Hp) as [s ->].
  destruct ipv6; simpl; eauto.
Qed.

Lemma writePacket_returns packet tap ipInt macInt gid world w :
  allPrintable w -> 0 <= tap <= 30 ->
  exists world' w',
    writePacket packet tap ipInt macInt gid world w = Ok (tt, world', w') /\
    allPrintable w'.
Proof.
  intros [Hp4 Hp6] Htap. run_worker.
  all: try match goal with
         | Hn : WrappedWriter_getTempFilename ?b ?t ?g ?m ?i ?v6 ?f ?ix = Panic _ |- _ =>
             exfalso;
             destruct (tempFilename_printable b t g m i v6 f ix Htap) as [? Hok];
             rewrite Hok in Hn; discriminate Hn
         end.
  all: try match goal with
         | Hn : getFilename ?ww _ = Panic _, Hl : writers _ !! _ = Some ?ww |- _ =>
             exfalso;
             destruct (getFilename_printable ww (baseDirectory w) (Hp4 _ _ Hl)) as [? Hok];
             rewrite Hok in Hn; discriminate Hn
         end.
  all: do 2 eexists; (split; [reflexivity |]).
  all: unfold allPrintable; simpl; (split; [| exact Hp6]).
  all: repeat first [ apply map_Forall_insert_2 | apply map_Forall_delete ];
       try exact Hp4.
  all: try (unfold printable; simpl; first [exact Htap | eapply Hp4; eassumption]).
Qed.

Lemma writePacketIpv6_returns packet tap ipAddr macInt gid world w :
  allPrintable w -> 0 <= tap <= 30 ->
  exists world' w',
    writePacketIpv6 packet tap ipAddr macInt gid world w = Ok (tt, world', w') /\
    allPrintable w'.
Proof.
  intros [Hp4 Hp6] Htap. run_worker.
  all: repeat match goal with
         | Hf : findWriter _ _ = Some _ |- _ => apply findWriter_Some in Hf as [? ?]
         end.
  all: try match goal with
         | Hn : WrappedWriter_getTempFilename ?b ?t ?g ?m ?i ?v6 ?f ?ix = Panic _ |- _ =>
             exfalso;
             destruct (tempFilename_printable b t g m i v6 f ix Htap) as [? Hok];
             rewrite Hok in Hn; discriminate Hn
         end.
  all: try match goal with
         | Hn : getFilename ?ww _ = Panic _,
           Hl : writersIpv6 _ !! _ = Some ?l, Hi : ?l !! _ = Some ?ww |- _ =>
             exfalso;
             destruct (getFilename_printable ww (baseDirectory w)
                         (Forall_lookup_1 _ _ _ _ (Hp6 _ _ Hl) Hi)) as [? Hok];
             rewrite Hok in Hn; discriminate Hn
         end.
  all: do 2 eexists; (split; [reflexivity |]).
  all: unfold allPrintable, set_bucket, bucket; simpl; (split; [exact Hp4 |]).
  all: rewrite ?lookup_insert_eq; simpl.
  all: repeat apply map_Forall_insert_2; try exact Hp6.
  all: repeat match goal with
         | Hl : writersIpv6 _ !! _ = _ |- _ => rewrite Hl; simpl
         end.
  all: repeat first
         [ apply Forall_nil_2
         | apply Forall_insert
         | apply Forall_app_2
         | apply Forall_delete
         | apply Forall_cons_2
         | eapply Hp6; eassumption
         | (unfold printable; simpl; exact Htap) ].
  all: match goal with
       | Hi : ?l !! _ = Some ?ww |- _ =>
           change (printable ww);
           eapply (Forall_lookup_1 printable); [eapply Hp6; eassumption | exact Hi]
       end.
Qed.

Lemma runs_capture packet ed e policy :
  emitSet packet ed = Some e -> printablePort packet ->
  runs allPrintable (capture packet e policy).
Proof.
  intros He Hport.
  assert (Htap : 0 <= emitTapType e <= 30).
  { rewrite (emitSet_tap packet ed e He). unfold printablePort in Hport.
    destruct (isISP (InPort packet)); [auto | unfold ToR; lia]. }
  destruct (emitSet_lengths packet ed e He) as (Hlen & _ & H4 & H6).
  unfold capture.
  destruct (GetACLGID policy <=? 0); [apply runs_ret |].
  destruct (negb (Z.land (GetActionFlags policy) ACTION_PACKET_CAPTURING =? 0));
    [| apply runs_ret].
  destruct (Z.eqb_spec (EthType packet) EthernetTypeIPv6) as [Heth | Heth]; simpl.
  - rewrite (H6 Heth) in Hlen. simpl in Hlen.
    apply runs_forEach. apply Forall_forall. intros i Hi.
    apply elem_of_seq in Hi.
    apply runs_at_index; [lia | intros ipAddr].
    apply runs_at_index; [lia | intros macInt].
    intros world w Hw.
    destruct (writePacketIpv6_returns packet (emitTapType e) ipAddr macInt
                (GetACLGID policy) world w Hw Htap) as (world' & w' & Hrun & Hw').
    exists tt, world', w'. split; assumption.
  - rewrite (H4 Heth) in Hlen. simpl in Hlen.
    apply runs_forEach. apply Forall_forall. intros i Hi.
    apply elem_of_seq in Hi.
    apply runs_at_index; [lia | intros ipInt].
    apply runs_at_index; [lia | intros macInt].
    intros world w Hw.
    destruct (writePacket_returns packet (emitTapType e) ipInt macInt
                (GetACLGID policy) world w Hw Htap) as (world' & w' & Hrun & Hw').
    exists tt, world', w'. split; assumption.
Qed.

Lemma runs_processPacket packet :
  printablePort packet -> runs allPrintable (processPacket packet).
Proof.
  intros Hport. unfold processPacket.
  destruct (PolicyData packet) as [pd |]; [| apply runs_inWorld_].
  destruct (EndpointData packet) as [ed |]; [| apply runs_inWorld_].
  destruct (emitSet packet ed) as [e |] eqn:He; [| apply runs_inWorld_].
  apply runs_bind; [| intros _; apply runs_inWorld_].
  apply runs_forEach. apply Forall_forall. intros policy _.
  eapply runs_capture; eassumption.
Qed.

Lemma runs_tick timeNow : runs allPrintable (tick timeNow).
Proof.
  intros world w Hp.
  destruct (tick_spec timeNow world w Hp) as (world' & w' & Hrun & Hw4 & Hw6 & _).
  exists tt, world', w'. split; [exact Hrun |].
  destruct Hp as [Hp4 Hp6]. split.
  - rewrite Hw4. intros k ww Hk.
    apply map_lookup_filter_Some in Hk as [Hk _]. exact (Hp4 k ww Hk).
  - rewrite Hw6. intros k l Hk. rewrite lookup_fmap in Hk.
    destruct (writersIpv6 w !! k) as [l0 |] eqn:Hl0; [| discriminate].
    simpl in Hk. injection Hk as <-.
    apply Forall_forall. intros ww Hww. apply list_elem_of_filter in Hww as [_ Hin].
    pose proof (Hp6 k l0 Hl0) as Hall. simpl in Hall.
    rewrite Forall_forall in Hall. apply Hall. exact Hin.
Qed.

(** X20: [Process] panics on unprintable tap types only.  A batch whose
    packets all come with a tap type that [tapTypeToString] names (every
    packet of a ToR port, and of an ISP port with a tap type of 0..30)
    is processed to its end without a panic, by a worker whose writers
    all have such a tap type; and the writers it leaves have one too. *)
Theorem processBatch_returns_for_printable_tap_types timeNow elements world w :
  allPrintable w ->
  Forall (fun e => forall packet, e = Some packet -> printablePort packet) elements ->
  exists stop world' w',
    processBatch timeNow elements world w = Ok (stop, world', w') /\
    allPrintable w'.
Proof.
  intros Hp Hall. revert world w Hp.
  induction Hall as [| e rest He _ IH]; intros world w Hp; simpl.
  - exists false, world, w. split; [reflexivity | exact Hp].
  - assert (Hstep : exists stop world1 w1,
              processElement timeNow e world w = Ok (stop, world1, w1) /\
              allPrintable w1).
    { destruct e as [packet |]; simpl.
      - destruct (runs_processPacket packet (He packet eq_refl) world w Hp)
          as ([] & world1 & w1 & Hrun & Hp1).
        exists false, world1, w1. split; [| exact Hp1].
        unfold bind. rewrite Hrun. reflexivity.
      - unfold bind at 1, getWorker. destruct (exiting w).
        + exists true, world, w. split; [reflexivity | exact Hp].
        + destruct (runs_tick timeNow world w Hp) as ([] & world1 & w1 & Hrun & Hp1).
          exists false, world1, w1. split; [| exact Hp1].
          unfold bind. rewrite Hrun. reflexivity. }
    destruct Hstep as (stop & world1 & w1 & Hrun & Hp1).
    unfold bind. rewrite Hrun. destruct stop.
    + exists true, world1, w1. split; [reflexivity | exact Hp1].
    + apply IH. exact Hp1.
Qed.

(** *** Ticks that have nothing to close *)

Lemma set_bucket_id key l (w : Worker) :
  writersIpv6 w !! key = Some l -> set_bucket key l w = w.
Proof.
  intros Hl. unfold set_bucket, set_writersIpv6.
  rewrite insert_id by exact Hl. destruct w; reflexivity.
Qed.

Lemma tickList_none_expired timeNow l world w :
  Forall (fun ww => expired w timeNow ww = false) l ->
  tickList timeNow l world w = Ok (l, world, w).
Proof.
  induction 1 as [| ww l Hww _ IH]; simpl; [reflexivity |].
  unfold bind at 1, getWorker. rewrite Hww.
  unfold bind, ret. rewrite IH. reflexivity.
Qed.

Lemma tick_none_expired timeNow world w :
  noneExpired w timeNow -> tick timeNow world w = Ok (tt, world, w).
Proof.
  intros [H4 H6]. unfold tick, bind at 1, getWorker.
  unfold bind. rewrite forEach_skip.
  - apply forEach_skip. apply Forall_forall. intros [key l] Hin.
    apply elem_of_map_to_list in Hin.
    unfold tickBucket, bind. simpl.
    rewrite tickList_none_expired by exact (H6 key l Hin).
    unfold modifyWorker. rewrite set_bucket_id by exact Hin. reflexivity.
  - apply Forall_forall. intros [key ww] Hin.
    apply elem_of_map_to_list in Hin.
    unfold tickWriter, bind, getWorker. simpl.
    rewrite (H4 key ww Hin). reflexivity.
Qed.

(** X21: a tick that finds no writer past the period does nothing: no
    call reaches the file system and the worker is as before.  And a
    tick leaves nothing for a second tick at the same time: after a tick
    that returned, the same tick again changes nothing. *)
Theorem tick_closes_nothing_twice :
  (forall timeNow world w,
     noneExpired w timeNow -> tick timeNow world w = Ok (tt, world, w)) /\
  (forall timeNow world w world1 w1,
     allPrintable w ->
     tick timeNow world w = Ok (tt, world1, w1) ->
     tick timeNow world1 w1 = Ok (tt, world1, w1)).
Proof.
  split; [exact tick_none_expired |].
  intros timeNow world w world1 w1 Hp Hrun.
  destruct (tick_spec timeNow world w Hp) as (world' & w' & Hrun' & Hw4 & Hw6 & Hc).
  rewrite Hrun in Hrun'. injection Hrun' as <- <-.
  apply tick_none_expired. split.
  - intros key ww Hin. simpl. rewrite Hw4 in Hin.
    apply map_lookup_filter_Some in Hin as [_ Hexp]. simpl in Hexp.
    rewrite (expired_sameConfig w w1 timeNow Hc). exact Hexp.
  - intros key l Hin. simpl. rewrite Hw6, lookup_fmap in Hin.
    destruct (writersIpv6 w !! key) as [l0 |]; [| discriminate].
    simpl in Hin. injection Hin as <-.
    apply Forall_forall. intros ww Hww.
    apply list_elem_of_filter in Hww as [Hexp _].
    rewrite (expired_sameConfig w w1 timeNow Hc). exact Hexp.
Qed.

(** *** The end of [Process] *)

Lemma sameShape_refl w : sameShape w w.
Proof. split; intros k; reflexivity. Qed.

Lemma sameShape_trans w1 w2 w3 : sameShape w1 w2 -> sameShape w2 w3 -> sameShape w1 w3.
Proof.
  intros [H4 H6] [H4' H6']. split; intros k.
  - rewrite H4'. apply H4.
  - rewrite H6'. apply H6.
Qed.

Lemma closeWriter_step key ww world w :
  printable ww -> is_Some (writers w !! key) ->
  exists world' w',
    closeWriter (key, ww) world w = Ok (tt, world', w') /\
    sameShape w w' /\ sameConfig w w' /\
    FileCloses (counter w') = incr64 (FileCloses (counter w)).
Proof.
  intros Hp Hkey. unfold closeWriter, bind at 1, getWorker. simpl.
  destruct (getFilename_printable ww (baseDirectory w) Hp) as [name Hname].
  unfold bind at 1, liftRes. rewrite Hname.
  destruct (finishWriter_frame ww name world w)
    as (ww' & world' & w' & Hfin & Hw4 & Hw6 & Hc & Hcl).
  unfold bind. rewrite Hfin. unfold modifyWorker.
  do 2 eexists. split; [reflexivity |]. simpl.
  split; [| split; [repeat split; apply Hc | exact Hcl]].
  split; simpl.
  - intros k. rewrite Hw4. destruct (decide (k = key)) as [-> | Hne].
    + rewrite lookup_insert_eq. split; [intros _; exact Hkey | eauto].
    + rewrite lookup_insert_ne by congruence. reflexivity.
  - intros k. rewrite Hw6. reflexivity.
Qed.

Lemma close4_loop es : forall world w,
  Forall (fun e => printable (snd e) /\ is_Some (writers w !! fst e)) es ->
  exists world' w' q,
    forEach es closeWriter world w = Ok (tt, world', w') /\
    sameShape w w' /\ sameConfig w w' /\
    FileCloses (counter w')
    = FileCloses (counter w) + Z.of_nat (length es) + q * 2 ^ 64.
Proof.
  induction es as [| [key ww] es IH]; intros world w Hall.
  - exists world, w, 0. split; [reflexivity |].
    split; [apply sameShape_refl |]. split; [apply sameConfig_refl |]. simpl. lia.
  - inversion Hall as [| ? ? [Hp Hkey] Hrest]; subst. simpl in Hp, Hkey.
    destruct (closeWriter_step key ww world w Hp Hkey)
      as (world1 & w1 & Hstep & Hs & Hc & Hcl).
    destruct (IH world1 w1) as (world2 & w2 & q & Hloop & Hs' & Hc' & Hcl').
    { eapply Forall_impl; [exact Hrest |]. intros [k x] [Hpx Hkx]. simpl in *.
      split; [exact Hpx |]. apply Hs. exact Hkx. }
    destruct (incr64_wraps (FileCloses (counter w))) as [q1 Hq1].
    exists world2, w2, (q + q1). split.
    + simpl. unfold bind at 1. rewrite Hstep. exact Hloop.
    + split; [eapply sameShape_trans; eassumption |].
      split; [eapply sameConfig_trans; eassumption |].
      rewrite Hcl', Hcl, Hq1. simpl length. lia.
Qed.

Lemma closeList_spec l : forall world w,
  Forall printable l ->
  exists closed world' w' q,
    closeList l world w = Ok (closed, world', w') /\
    length closed = length l /\
    writers w' = writers w /\ writersIpv6 w' = writersIpv6 w /\ sameConfig w w' /\
    FileCloses (counter w')
    = FileCloses (counter w) + Z.of_nat (length l) + q * 2 ^ 64.
Proof.
  induction l as [| ww l IH]; intros world w Hall.
  - exists [], world, w, 0. split; [reflexivity |]. repeat split. simpl. lia.
  - inversion Hall as [| ? ? Hp Hrest]; subst.
    simpl. unfold bind at 1, getWorker.
    destruct (getFilename_printable ww (baseDirectory w) Hp) as [name Hname].
    unfold bind at 1, liftRes. rewrite Hname.
    destruct (finishWriter_frame ww name world w)
      as (ww' & world1 & w1 & Hfin & Hw4 & Hw6 & Hc & Hcl).
    unfold bind at 1. rewrite Hfin.
    destruct (IH world1 w1 Hrest)
      as (closed & world2 & w2 & q & Hloop & Hlen & Hw4' & Hw6' & Hc' & Hcl').
    destruct (incr64_wraps (FileCloses (counter w))) as [q1 Hq1].
    exists (ww' :: closed), world2, w2, (q + q1). split.
    + unfold bind, ret. rewrite Hloop. reflexivity.
    + split; [simpl; congruence |]. split; [congruence |]. split; [congruence |].
      split; [eapply sameConfig_trans; eassumption |].
      rewrite Hcl', Hcl, Hq1. simpl length. lia.
Qed.

Lemma closeBucket_step key l world w :
  Forall printable l -> length <$> (writersIpv6 w !! key) = Some (length l) ->
  exists world' w' q,
    closeBucket (key, l) world w = Ok (tt, world', w') /\
    sameShape w w' /\ sameConfig w w' /\
    FileCloses (counter w')
    = FileCloses (counter w) + Z.of_nat (length l) + q * 2 ^ 64.
Proof.
  intros Hall Hkey. unfold closeBucket, bind. simpl.
  destruct (closeList_spec l world w Hall)
    as (closed & world1 & w1 & q & Hlist & Hlen & Hw4 & Hw6 & Hc & Hcl).
  rewrite Hlist. unfold modifyWorker.
  exists world1, (set_bucket key closed w1), q. split; [reflexivity |].
  split; [| split; [repeat split; apply Hc | exact Hcl]].
  split; simpl.
  - intros k. rewrite Hw4. reflexivity.
  - intros k. rewrite Hw6. destruct (decide (k = key)) as [-> | Hne].
    + rewrite lookup_insert_eq, Hkey. simpl. congruence.
    + rewrite lookup_insert_ne by congruence. reflexivity.
Qed.

Lemma close6_loop es : forall world w,
  Forall (fun e => Forall printable (snd e) /\
                   length <$> (writersIpv6 w !! fst e) = Some (length (snd e))) es ->
  exists world' w' q,
    forEach es closeBucket world w = Ok (tt, world', w') /\
    sameShape w w' /\ sameConfig w w' /\
    FileCloses (counter w') = FileCloses (counter w) + listTotal es + q * 2 ^ 64.
Proof.
  induction es as [| [key l] es IH]; intros world w Hall.
  - exists world, w, 0. split; [reflexivity |].
    split; [apply sameShape_refl |]. split; [apply sameConfig_refl |]. simpl. lia.
  - inversion Hall as [| ? ? [Hp Hkey] Hrest]; subst. simpl in Hp, Hkey.
    destruct (closeBucket_step key l world w Hp Hkey)
      as (world1 & w1 & q1 & Hstep & Hs & Hc & Hcl).
    destruct (IH world1 w1) as (world2 & w2 & q & Hloop & Hs' & Hc' & Hcl').
    { eapply Forall_impl; [exact Hrest |]. intros [k x] [Hpx Hkx]. simpl in *.
      split; [exact Hpx |]. destruct Hs as [_ Hs6]. rewrite Hs6. exact Hkx. }
    exists world2, w2, (q + q1). split.
    + simpl. unfold bind at 1. rewrite Hstep. exact Hloop.
    + split; [eapply sameShape_trans; eassumption |].
      split; [eapply sameConfig_trans; eassumption |].
      rewrite Hcl', Hcl. simpl. lia.
Qed.

(** X22: the two loops at the end of [Process] finish every open writer
    once and remove none.  When every writer has a tap type that
    [tapTypeToString] names, they return; both registries hold the keys
    and the bucket lengths they held, the configuration is unchanged,
    and FileCloses has grown by the number of open writers (modulo
    2^64). *)
Theorem closeAll_closes_every_open_writer world w :
  allPrintable w ->
  exists world' w',
    closeAll world w = Ok (tt, world', w') /\
    sameShape w w' /\ sameConfig w w' /\
    uint64 (FileCloses (counter w'))
    = uint64 (FileCloses (counter w) + openWriterCount w).
Proof.
  intros [Hp4 Hp6]. unfold closeAll, bind at 1, getWorker.
  destruct (close4_loop (map_to_list (writers w)) world w)
    as (world1 & w1 & q1 & Hloop4 & Hs & Hc & Hcl).
  { apply Forall_forall. intros [k ww] Hin. apply elem_of_map_to_list in Hin.
    simpl. split; [exact (Hp4 k ww Hin) | eauto]. }
  destruct (close6_loop (map_to_list (writersIpv6 w)) world1 w1)
    as (world2 & w2 & q2 & Hloop6 & Hs' & Hc' & Hcl').
  { apply Forall_forall. intros [k l] Hin. apply elem_of_map_to_list in Hin.
    simpl. split; [exact (Hp6 k l Hin) |].
    destruct Hs as [_ Hs6]. rewrite Hs6, Hin. reflexivity. }
  exists world2, w2. split.
  - unfold bind. rewrite Hloop4. exact Hloop6.
  - split; [eapply sameShape_trans; eassumption |].
    split; [eapply sameConfig_trans; eassumption |].
    rewrite Hcl', Hcl, openWriterCount_eq, bucketTotal_listTotal.
    rewrite length_map_to_list.
    apply (uint64_congr _ _ (q1 + q2)). lia.
Qed.

(** *** A new worker and its first statistics *)

(** X23: [newWorker] shares the cap of the manager among the queues.
    With no queue the division panics.  Otherwise the worker's cap is
    the quotient, so the caps of all workers together stay within the
    manager's; the worker starts with no writer and all counters zero;
    and when the manager allows fewer files than there are queues, the
    cap is zero and every packet on the IPv4 path is rejected. *)
Theorem newWorker_shares_the_cap m idx :
  0 <= WorkerManager.maxConcurrentFiles m < 2 ^ 63 ->
  0 <= WorkerManager.nQueues m < 2 ^ 63 ->
  (WorkerManager.nQueues m = 0 ->
   newWorker (W := Writer) m idx = Panic "integer divide by zero") /\
  (0 < WorkerManager.nQueues m ->
   exists w,
     newWorker m idx = Ok w /\
     maxConcurrentFiles w * WorkerManager.nQueues m
       <= WorkerManager.maxConcurrentFiles m
       < (maxConcurrentFiles w + 1) * WorkerManager.nQueues m /\
     openWriterCount w = 0 /\ counter w = zeroCounter /\ fileBalance w = 0 /\
     (WorkerManager.maxConcurrentFiles m < WorkerManager.nQueues m ->
      forall packet tap ipInt macInt gid world,
        writePacket packet tap ipInt macInt gid world w
        = Ok (tt, world, set_counter (incr_FileRejections (counter w)) w))).
Proof.
  intros Hmax Hq. unfold newWorker. split.
  - intros ->. reflexivity.
  - intros Hb.
    destruct (Z.eqb_spec (WorkerManager.nQueues m) 0) as [Hz | Hnz]; [lia |].
    set (a := WorkerManager.maxConcurrentFiles m) in *.
    set (b := WorkerManager.nQueues m) in *.
    assert (Hquot : a ÷ b = a / b) by (apply Z.quot_div_nonneg; lia).
    assert (Hdiv : 0 <= a / b <= a).
    { split; [apply Z.div_pos; lia |]. apply Z.div_le_upper_bound; nia. }
    assert (Hcap : int64 (a ÷ b) = a / b).
    { rewrite Hquot. apply sint_small; [lia |]. unfold is_sint.
      change (2 ^ (64 - 1)) with (2 ^ 63). lia. }
    eexists. split; [reflexivity |].
    cbn [maxConcurrentFiles counter]. rewrite Hcap.
    split.
    { pose proof (Z.mul_div_le a b Hb). pose proof (Z.mul_succ_div_gt a b Hb). nia. }
    split; [reflexivity |]. split; [reflexivity |]. split; [reflexivity |].
    intros Hfew packet tap ipInt macInt gid world.
    assert (Hzero : a / b = 0) by (apply Z.div_small; lia).
    unfold writePacket. unfold bind at 1. unfold getWorker at 1.
    unfold bind at 1. cbn [writers]. rewrite lookup_empty. unfold ret at 1.
    unfold bind at 1. unfold bind at 1.
    rewrite generateWrappedWriter_rejects; [reflexivity |].
    cbn [maxConcurrentFiles writers]. rewrite ?Hcap, Hzero, map_size_empty. lia.
Qed.

(** X24: the first statistics of a worker account for its open files.
    After any batch a worker made by [newWorker] has processed,
    [GetCounter] returns a block in which the files created less the
    files closed are the writers still open (modulo 2^64); it leaves the
    world and both registries alone and resets the counters, so that a
    second call would return zeros. *)
Theorem first_GetCounter_accounts_for_the_open_files
    m idx w timeNow elements world stop world1 w1 :
  newWorker m idx = Ok w ->
  processBatch timeNow elements world w = Ok (stop, world1, w1) ->
  exists c w2,
    GetCounter world1 w1 = Ok (c, world1, w2) /\
    uint64 (FileCreations c - FileCloses c) = uint64 (openWriterCount w2) /\
    writers w2 = writers w1 /\ writersIpv6 w2 = writersIpv6 w1 /\
    counter w2 = zeroCounter /\
    GetCounter world1 w2 = Ok (zeroCounter, world1, w2).
Proof.
  intros Hnew Hrun.
  assert (Hzero : fileBalance w = 0).
  { unfold newWorker in Hnew. destruct (WorkerManager.nQueues m =? 0); [discriminate |].
    injection Hnew as <-. reflexivity. }
  assert (Hb : fileBalance w1 = 0).
  { rewrite <- Hzero.
    exact (keeps_balance_processBatch (fileBalance w) timeNow elements
             world w stop world1 w1 eq_refl Hrun). }
  exists (counter w1), (set_counter zeroCounter w1).
  split; [reflexivity |]. split.
  - symmetry. exact (fileBalance_zero w1 Hb).
  - repeat split.
Qed.

End Registry.

(** *** The properties on sample runs *)

Lemma allPrintable_workerWith first : allPrintable (H := env) (workerWith first).
Proof.
  split.
  - apply map_Forall_singleton. unfold printable. simpl. lia.
  - apply map_Forall_empty.
Qed.

Lemma emitSet_shape_witness :
  exists e,
    emitSet (H := env) (ip4Packet 16 0x30001 1000) someEndpoints = Some e /\
    length (macs e) = (length (ips e) + length (ip6s e))%nat /\
    ips e = [0x0a000001] /\ emitTapType e = ToR.
Proof.
  eexists. split; [reflexivity |].
  split; [| split; reflexivity].
  exact (proj1 (emitSet_shape (H := env) (ip4Packet 16 0x30001 1000) someEndpoints
                  _ eq_refl)).
Defined.

Lemma emitSet_never_broadcast_witness :
  exists e,
    emitSet (H := env) (ip4Packet 16 0x30001 1000) someEndpoints = Some e /\
    macs e = [0x0a0b0c0d0e0f] /\ BROADCAST_MAC ∉ macs e.
Proof.
  eexists. split; [reflexivity |]. split; [reflexivity |].
  exact (proj1 (emitSet_never_broadcast (H := env) (ip4Packet 16 0x30001 1000)
                  someEndpoints _ eq_refl)).
Defined.

Lemma processPacket_without_capture_witness :
  processPacket (H := env) (ip4Packet 16 0x20001 1000) []
    (freshWorker 10 1048576 60000000000)
  = Ok (tt, [EvRelease 1000], freshWorker 10 1048576 60000000000).
Proof.
  apply (processPacket_without_capture (H := env)).
  right. right. left. split; reflexivity.
Defined.

Lemma writePacket_touches_only_its_key_witness :
  exists world' w',
    writePacket (H := env) (ip4Packet 16 0x30001 2000) ToR 0x0a000002
      0x0a0b0c0d0e0f 5 [] (workerWith 1000) = Ok (tt, world', w') /\
    writers w' !! getWriterKey 0x0a000001 5 ToR = Some (someWriter 1000) /\
    writersIpv6 w' = ∅.
Proof.
  do 2 eexists. split; [vm_compute; reflexivity |].
  destruct (writePacket_touches_only_its_key (H := env)
              (ip4Packet 16 0x30001 2000) ToR 0x0a000002 0x0a0b0c0d0e0f 5 []
              (workerWith 1000) _ _ ltac:(vm_compute; reflexivity))
    as (Hother & Hw6 & _).
  split.
  - rewrite Hother by (vm_compute; discriminate). vm_compute. reflexivity.
  - exact Hw6.
Defined.

Lemma writePacketIpv6_touches_only_its_bucket_witness :
  exists world' w',
    writePacketIpv6 (H := env) (ip6Packet 16 0x30001 ip6A 2000) ToR ip6A
      0x0a0b0c0d0e0f 5 [] (workerWith 1000) = Ok (tt, world', w') /\
    writers w' = writers (workerWith 1000).
Proof.
  do 2 eexists. split; [vm_compute; reflexivity |].
  exact (proj1 (proj2 (writePacketIpv6_touches_only_its_bucket (H := env)
                         (ip6Packet 16 0x30001 ip6A 2000) ToR ip6A 0x0a0b0c0d0e0f 5 []
                         (workerWith 1000) _ _ ltac:(vm_compute; reflexivity)))).
Defined.

(** The packet that comes two periods after the first one closes the
    file and opens the next. *)
Lemma writePacket_rotation_is_not_rejected_witness :
  exists world' w',
    writePacket (H := env) (ip4Packet 16 0x30001 (1000 + 2 * 60000000000)) ToR
      0x0a000001 0x0a0b0c0d0e0f 5 [] (workerWith 1000) = Ok (tt, world', w') /\
    FileCloses (counter w') = 1 /\ FileRejections (counter w') = 0.
Proof.
  do 2 eexists. split; [vm_compute; reflexivity |].
  edestruct (writePacket_rotation_is_not_rejected (H := env)
               (ip4Packet 16 0x30001 (1000 + 2 * 60000000000)) ToR
               0x0a000001 0x0a0b0c0d0e0f 5 [] (workerWith 1000) (someWriter 1000))
    as (Hcl & Hrej & _).
  - vm_compute. reflexivity.
  - vm_compute. reflexivity.
  - vm_compute. discriminate.
  - vm_compute. reflexivity.
  - split; [exact Hcl | exact Hrej].
Defined.

Lemma writePacket_new_key_at_the_cap_witness :
  writePacket (H := env) (ip4Packet 16 0x30001 2000) ToR 0x0a000001
    0x0a0b0c0d0e0f 5 [] (freshWorker 0 1048576 60000000000)
  = Ok (tt, [], set_counter (incr_FileRejections noCounts)
                  (freshWorker 0 1048576 60000000000)).
Proof.
  apply (writePacket_new_key_at_the_cap (H := env)).
  - reflexivity.
  - vm_compute. discriminate.
Defined.

Lemma writePacket_registers_the_triple_witness :
  exists world' w' made,
    writePacket (H := env) (ip4Packet 16 0x30001 2000) ToR 0x0a000001
      0x0a0b0c0d0e0f 5 [] (freshWorker 10 1048576 60000000000)
      = Ok (tt, world', w') /\
    writers w' !! getWriterKey 0x0a000001 5 ToR = Some made /\
    tapType made = ToR /\ aclGID made = 5 /\ mac made = 0x0a0b0c0d0e0f /\
    ip6 made = [] /\ firstPacketTime made = 2000.
Proof.
  do 3 eexists. split; [vm_compute; reflexivity |].
  split; [vm_compute; reflexivity |].
  edestruct (writePacket_registers_the_triple (H := env)
               (ip4Packet 16 0x30001 2000) ToR 0x0a000001 0x0a0b0c0d0e0f 5 []
               (freshWorker 10 1048576 60000000000))
    as (Htap & Hgid & Hmac & _ & Hip6 & Hfirst & _).
  - reflexivity.
  - vm_compute. reflexivity.
  - vm_compute. reflexivity.
  - repeat split; assumption.
Defined.

(** On a full disk the write fails; the writer stays where it was, with
    the time of its last packet. *)
Lemma writePacket_failed_write_witness :
  exists w',
    writePacket (H := fullDiskEnv) (ip4Packet 16 0x30001 2000) ToR 0x0a000001
      0x0a0b0c0d0e0f 5 [] (workerWith 1000) = Ok (tt, [], w') /\
    FileWritingFailures (counter w') = 1 /\
    (lastPacketTime <$> writers w' !! getWriterKey 0x0a000001 5 ToR) = Some 1000.
Proof.
  destruct (writePacket_failed_write (H := fullDiskEnv)
              (ip4Packet 16 0x30001 2000) ToR 0x0a000001 0x0a0b0c0d0e0f 5 []
              (workerWith 1000) (someWriter 1000)
              (writer (someWriter 1000)) [])
    as (w' & Hrun & Hw4 & _ & Hcount & _).
  - vm_compute. reflexivity.
  - vm_compute. reflexivity.
  - reflexivity.
  - exists w'. split; [exact Hrun |]. split.
    + rewrite Hcount. reflexivity.
    + rewrite Hw4, lookup_insert_eq. reflexivity.
Defined.

(** A packet from [::ffff:10.0.0.1] on a ToR port: the writer made for
    it is stored without its address, and [Equal] does not find it. *)
Lemma getWrappedWriter_never_reuses_for_a_4_byte_form_witness :
  exists ww world' w',
    getWrappedWriter (H := env) ip6Mapped 0x0a0b0c0d0e0f ToR 5
      (ip6Packet 16 0x30001 ip6Mapped 1000) [] (freshWorker 10 1048576 60000000000)
      = Ok (Some (0%nat, ww), world', w') /\
    ip6 ww = [] /\ Net.Equal (ip6 ww) ip6Mapped = false.
Proof.
  do 3 eexists. split; [vm_compute; reflexivity |].
  edestruct (getWrappedWriter_never_reuses_for_a_4_byte_form (H := env)
               ip6Mapped 0x0a0b0c0d0e0f ToR 5 (ip6Packet 16 0x30001 ip6Mapped 1000) []
               (freshWorker 10 1048576 60000000000) 0%nat)
    as (_ & _ & Hip6 & _).
  - vm_compute. discriminate.
  - vm_compute. constructor.
  - vm_compute. reflexivity.
  - split; [exact Hip6 | reflexivity].
Defined.

Lemma final_name_keeps_the_stem_of_the_temporary_name_witness :
  exists ww world' w' stem,
    generateWrappedWriter (H := env) (IpFromUint32 0x0a000001) 0x0a0b0c0d0e0f ToR 5
      1000 [] (freshWorker 10 1048576 60000000000) = Ok (Some ww, world', w') /\
    tempFilename ww = stem +:+ "." +:+ Fmt.d (tid ww) +:+ ".pcap.temp" /\
    getFilename (H := env) (set_lastPacketTime 2000 (set_writer (writer ww) ww)) "/pcap"
    = Ok (stem +:+ formatDuration (H := env) 2000 +:+ "." +:+ Fmt.d (tid ww) +:+ ".pcap").
Proof.
  edestruct (final_name_keeps_the_stem_of_the_temporary_name (H := env)
               (IpFromUint32 0x0a000001) 0x0a0b0c0d0e0f ToR 5 1000 []
               (freshWorker 10 1048576 60000000000))
    as (stem & Htemp & Hfinal).
  - vm_compute. reflexivity.
  - do 3 eexists. exists stem. split; [vm_compute; reflexivity |].
    split; [exact Htemp |]. apply Hfinal.
Defined.

Lemma ipv4_registry_stays_within_the_cap_witness :
  exists stop world' w',
    processBatch (H := env) 3000 someBatch [] (freshWorker 1 1048576 60000000000)
      = Ok (stop, world', w') /\
    Z.of_nat (size (writers w')) <= maxConcurrentFiles w'.
Proof.
  do 3 eexists. split; [vm_compute; reflexivity |].
  edestruct (ipv4_registry_stays_within_the_cap (H := env) 3000 someBatch []
               (freshWorker 1 1048576 60000000000)) as [Hcap _].
  - vm_compute. discriminate.
  - vm_compute. reflexivity.
  - exact Hcap.
Defined.

(** With [exiting] set, the batch stops at its tick: the first packet is
    written and the last one is not even released. *)
Lemma processBatch_stops_at_a_tick_while_exiting_witness :
  exists world' w',
    processBatch (H := env) 3000 someBatch [] exitingWorker
    = Ok (true, world', w') /\
    EvRelease 1000 ∈ world' /\ EvRelease 2000 ∉ world'.
Proof.
  pose proof (proj2 (processBatch_stops_at_a_tick_while_exiting (H := env))
                3000 [Some (ip4Packet 16 0x30001 1000)]
                [Some (ip6Packet 16 0x30001 ip6A 2000)] [] exitingWorker
                eq_refl) as Hstop.
  do 2 eexists. split.
  - etransitivity; [apply Hstop |].
    + repeat constructor. eexists. reflexivity.
    + vm_compute. reflexivity.
  - split.
    + apply list_elem_of_In. vm_compute. tauto.
    + intros Hin. apply list_elem_of_In in Hin. vm_compute in Hin.
      intuition discriminate.
Defined.

Lemma open_writers_are_creations_less_closes_witness :
  exists stop world' w',
    processBatch (H := env) 3000 someBatch [] (freshWorker 10 1048576 60000000000)
      = Ok (stop, world', w') /\
    fileBalance w' = 0 /\ openWriterCount w' = 2 /\
    FileCreations (counter w') = 2 /\ FileCloses (counter w') = 0.
Proof.
  do 3 eexists. split; [vm_compute; reflexivity |].
  split; [| repeat split; vm_compute; reflexivity].
  edestruct (open_writers_are_creations_less_closes (H := env) 3000 someBatch []
               (freshWorker 10 1048576 60000000000)) as [Hb _].
  - vm_compute. reflexivity.
  - rewrite Hb. vm_compute. reflexivity.
Defined.

Lemma processBatch_returns_for_printable_tap_types_witness :
  exists stop world' w',
    processBatch (H := env) 3000 someBatch [] (workerWith 1000)
      = Ok (stop, world', w') /\
    allPrintable w'.
Proof.
  apply (processBatch_returns_for_printable_tap_types (H := env)).
  - apply allPrintable_workerWith.
  - unfold someBatch.
    constructor; [| constructor; [| constructor; [| constructor]]].
    all: intros packet Heq; try discriminate.
    all: injection Heq as <-; intros Hisp; vm_compute in Hisp; discriminate.
Defined.

(** A tick one second after the last packet of the only writer closes
    nothing; a tick two periods later closes it, and the second such
    tick finds nothing. *)
Lemma tick_closes_nothing_twice_witness :
  tick (H := env) 1000001000 [] (workerWith 1000) = Ok (tt, [], workerWith 1000) /\
  exists world1 w1,
    tick (H := env) 120000001000 [] (workerWith 1000) = Ok (tt, world1, w1) /\
    writers w1 = ∅ /\
    tick (H := env) 120000001000 world1 w1 = Ok (tt, world1, w1).
Proof.
  split.
  - apply (proj1 (tick_closes_nothing_twice (H := env))). split.
    + apply map_Forall_singleton. vm_compute. reflexivity.
    + apply map_Forall_empty.
  - do 2 eexists. split; [vm_compute; reflexivity |].
    split; [vm_compute; reflexivity |].
    eapply (proj2 (tick_closes_nothing_twice (H := env)) 120000001000 []
              (workerWith 1000)).
    + apply allPrintable_workerWith.
    + vm_compute. reflexivity.
Defined.

Lemma closeAll_closes_every_open_writer_witness :
  exists world' w',
    closeAll (H := env) [] (workerWith 1000) = Ok (tt, world', w') /\
    FileCloses (counter w') = 1 /\
    size (writers w') = 1%nat.
Proof.
  edestruct (closeAll_closes_every_open_writer (H := env) [] (workerWith 1000))
    as (world' & w' & Hrun & _ & _ & _).
  - apply allPrintable_workerWith.
  - exists world', w'. split; [exact Hrun |].
    vm_compute in Hrun. injection Hrun as <- <-. split; vm_compute; reflexivity.
Defined.

(** Two files for four queues: every worker gets a cap of zero and
    rejects every IPv4 packet. *)
Lemma newWorker_shares_the_cap_witness :
  exists w,
    newWorker (W := SimWriter) (someManager 2) 0 = Ok w /\
    maxConcurrentFiles w = 0 /\
    writePacket (H := env) (ip4Packet 16 0x30001 2000) ToR 0x0a000001
      0x0a0b0c0d0e0f 5 [] w
    = Ok (tt, [], set_counter (incr_FileRejections (counter w)) w).
Proof.
  edestruct (newWorker_shares_the_cap (H := env) (someManager 2) 0) as [_ Hsome].
  - vm_compute. split; [discriminate | reflexivity].
  - vm_compute. split; [discriminate | reflexivity].
  - destruct Hsome as (w & Hnew & _ & _ & _ & _ & Hreject); [reflexivity |].
    exists w. split; [exact Hnew |]. split.
    + vm_compute in Hnew. injection Hnew as <-. reflexivity.
    + apply Hreject. reflexivity.
Defined.

Lemma first_GetCounter_accounts_for_the_open_files_witness :
  exists stop world1 w1 c w2,
    newWorker (W := SimWriter) (someManager 40) 0
      = Ok (freshWorker 10 1048576 60000000000) /\
    processBatch (H := env) 3000 someBatch [] (freshWorker 10 1048576 60000000000)
      = Ok (stop, world1, w1) /\
    GetCounter (H := env) world1 w1 = Ok (c, world1, w2) /\
    uint64 (FileCreations c - FileCloses c) = uint64 (openWriterCount w2) /\
    FileCreations c = 2 /\ counter w2 = zeroCounter.
Proof.
  edestruct (first_GetCounter_accounts_for_the_open_files (H := env)
               (someManager 40) 0 (freshWorker 10 1048576 60000000000)
               3000 someBatch []) as (c & w2 & Hget & Hbal & _ & _ & Hzero & _).
  - vm_compute. reflexivity.
  - vm_compute. reflexivity.
  - do 3 eexists. exists c, w2.
    split; [vm_compute; reflexivity |]. split; [vm_compute; reflexivity |].
    split; [exact Hget |]. split; [exact Hbal |]. split; [| exact Hzero].
    vm_compute in Hget. injection Hget as <- _. reflexivity.
Defined.

End PcapRegistry.

(* ================================================================= *)
(** ** The UDP path of the flow generator *)

Module FlowUdp.

Import FlowGen GoIntFacts.

Section Udp.
Context `{FlowEnv}.

(** A hash table of [hashMapSize] shards has the shard of every packet. *)
Lemma shard_exists f meta :
  length (hashMap f) = Z.to_nat hashMapSize ->
  exists flowCache, hashMap f !! shardIndex meta = Some flowCache.
Proof.
  intros Hlen. apply lookup_lt_is_Some_2. rewrite Hlen. unfold shardIndex.
  pose proof hashMapSize_pos as Hpos.
  pose proof (Z.mod_pos_bound (uint64 (getQuinTupleHash meta)) hashMapSize Hpos).
  lia.
Qed.

(** C4: when the packet matches no flow of its shard ([keyMatch] returns
    nil) and CurrNumFlows >= flowLimitNum, [processUdpPacket] returns
    with FloodDropPackets incremented by one (modulo 2^64, so by one
    below the maximum) and with nothing else changed: no shard gets a
    flow, and CurrNumFlows and TotalNumFlows are as before. *)
Theorem processUdpPacket_flood_drop f meta flowCache :
  hashMap f !! shardIndex meta = Some flowCache ->
  keyMatch f flowCache meta = None ->
  flowLimitNum f <= CurrNumFlows (stats f) ->
  exists f',
    processUdpPacket f meta = Ok f' /\
    FloodDropPackets (stats f') = incr64 (FloodDropPackets (stats f)) /\
    (0 <= FloodDropPackets (stats f) < 2 ^ 64 - 1 ->
     FloodDropPackets (stats f') = FloodDropPackets (stats f) + 1) /\
    hashMap f' = hashMap f /\
    CurrNumFlows (stats f') = CurrNumFlows (stats f) /\
    TotalNumFlows (stats f') = TotalNumFlows (stats f) /\
    flowLimitNum f' = flowLimitNum f /\
    TimeoutConfig f' = TimeoutConfig f.
Proof.
  intros Hshard Hmatch Hfull.
  exists (set_stats (incr_FloodDropPackets (stats f)) f). split.
  - unfold processUdpPacket. rewrite Hshard, Hmatch.
    destruct (Z.geb_spec (CurrNumFlows (stats f)) (flowLimitNum f)); [reflexivity | lia].
  - simpl. split; [reflexivity |]. split; [apply incr64_small |]. repeat split.
Qed.

(** The state and the timeout [initUdpFlow] sets, whatever the helpers
    return. *)
Lemma initUdpFlow_state f meta :
  flowState (initUdpFlow f meta) = FLOW_STATE_ESTABLISHED /\
  timeout (initUdpFlow f meta) = Opening (TimeoutConfig f).
Proof. split; reflexivity. Qed.

(** The counters and times of the source peer that [initUdpFlow] sets
    are those of the new flow when [updatePlatformData], which runs
    after the assignments, leaves them as they are. *)
Lemma initUdpFlow_metrics f meta :
  (forall tf ed reverse,
     metricsOf (FlowMetricsPeerSrc (updatePlatformData tf ed reverse))
     = metricsOf (FlowMetricsPeerSrc tf)) ->
  metricsOf (FlowMetricsPeerSrc (taggedFlow (initUdpFlow f meta)))
  = (Timestamp meta, Timestamp meta, 1, 1,
     uint64 (PacketLen meta), uint64 (PacketLen meta)).
Proof.
  intros Hkeep. unfold initUdpFlow. simpl. rewrite Hkeep. reflexivity.
Qed.

(** C5: when the packet matches no flow of its shard and
    CurrNumFlows < flowLimitNum, [processUdpPacket] creates the flow
    [initUdpFlow f meta], whose source peer has ArrTime0 = ArrTimeLast =
    meta.Timestamp, PacketCount = TotalPacketCount = 1 and ByteCount =
    TotalByteCount = meta.PacketLen, whose state is ESTABLISHED and
    whose timeout is TimeoutConfig.Opening; it puts the flow into the
    shard of the packet with [addFlow] and increments CurrNumFlows and
    TotalNumFlows by one.  [updatePlatformData] and [addFlow] are
    declared outside [flow_udp.go]: the counters and times are stated
    for an [updatePlatformData] that leaves those of the source peer
    alone, the membership in the shard for an [addFlow] that inserts
    the flow. *)
Theorem processUdpPacket_new_flow f meta flowCache :
  hashMap f !! shardIndex meta = Some flowCache ->
  keyMatch f flowCache meta = None ->
  CurrNumFlows (stats f) < flowLimitNum f ->
  is_sint 32 (CurrNumFlows (stats f)) ->
  is_sint 32 (flowLimitNum f) ->
  is_uint 64 (PacketLen meta) ->
  exists f' flowExtra flowCache',
    processUdpPacket f meta = Ok f' /\
    flowExtra = initUdpFlow f meta /\
    ((forall tf ed reverse,
        metricsOf (FlowMetricsPeerSrc (updatePlatformData tf ed reverse))
        = metricsOf (FlowMetricsPeerSrc tf)) ->
     ArrTime0 (FlowMetricsPeerSrc (taggedFlow flowExtra)) = Timestamp meta /\
     ArrTimeLast (FlowMetricsPeerSrc (taggedFlow flowExtra)) = Timestamp meta /\
     PacketCount (FlowMetricsPeerSrc (taggedFlow flowExtra)) = 1 /\
     TotalPacketCount (FlowMetricsPeerSrc (taggedFlow flowExtra)) = 1 /\
     ByteCount (FlowMetricsPeerSrc (taggedFlow flowExtra)) = PacketLen meta /\
     TotalByteCount (FlowMetricsPeerSrc (taggedFlow flowExtra)) = PacketLen meta) /\
    flowState flowExtra = FLOW_STATE_ESTABLISHED /\
    timeout flowExtra = Opening (TimeoutConfig f) /\
    flowCache'
      = addFlow (set_stats (incr_TotalNumFlows (stats f)) f) flowCache flowExtra /\
    hashMap f' = <[shardIndex meta := flowCache']> (hashMap f) /\
    hashMap f' !! shardIndex meta = Some flowCache' /\
    ((forall g c fe, fe ∈ flowList (addFlow g c fe)) ->
     flowExtra ∈ flowList flowCache') /\
    CurrNumFlows (stats f') = CurrNumFlows (stats f) + 1 /\
    TotalNumFlows (stats f') = incr64 (TotalNumFlows (stats f)) /\
    (0 <= TotalNumFlows (stats f) < 2 ^ 64 - 1 ->
     TotalNumFlows (stats f') = TotalNumFlows (stats f) + 1) /\
    FloodDropPackets (stats f') = FloodDropPackets (stats f).
Proof.
  intros Hshard Hmatch Hroom Hcur Hlim Hlen.
  eexists. exists (initUdpFlow f meta). eexists.
  split.
  { unfold processUdpPacket. rewrite Hshard, Hmatch.
    destruct (Z.geb_spec (CurrNumFlows (stats f)) (flowLimitNum f)); [lia |].
    reflexivity. }
  split; [reflexivity |].
  split.
  { intros Hkeep. pose proof (initUdpFlow_metrics f meta Hkeep) as Hm.
    unfold uint64 in Hm. rewrite (uint_small 64 (PacketLen meta) Hlen) in Hm.
    unfold metricsOf in Hm. injection Hm as Ha0 Hal Htp Hpc Htb Hbc.
    repeat split; assumption. }
  split; [reflexivity |]. split; [reflexivity |].
  split; [reflexivity |].
  simpl. split; [reflexivity |].
  split; [apply list_lookup_insert_eq; apply lookup_lt_is_Some_1; eauto |].
  split; [intros Hadd; apply Hadd |].
  split.
  { unfold int32. apply sint_small; [lia |].
    unfold is_sint in *. lia. }
  split; [reflexivity |]. split; [apply incr64_small | reflexivity].
Qed.

(** C6: when the packet matches the flow at position [j] of its shard,
    [processUdpPacket] writes [updateUdpFlow] of that flow back at the
    same position and creates no flow.  When [reply] is true the
    timeout of the updated flow is TimeoutConfig.EstablishedRst; when
    [reply] is false [updateUdpFlow] is [updateFlow] and writes no
    timeout, so the timeout is the one the flow had, for an
    [updateFlow] (declared outside [flow_udp.go]) that does not write
    it. *)
Theorem processUdpPacket_matched_flow f meta flowCache j reply flowExtra :
  hashMap f !! shardIndex meta = Some flowCache ->
  keyMatch f flowCache meta = Some (j, reply) ->
  flowList flowCache !! j = Some flowExtra ->
  exists f' flowCache',
    processUdpPacket f meta = Ok f' /\
    hashMap f' = <[shardIndex meta := flowCache']> (hashMap f) /\
    hashMap f' !! shardIndex meta = Some flowCache' /\
    flowList flowCache'
      = <[j := updateUdpFlow f flowExtra meta reply]> (flowList flowCache) /\
    flowList flowCache' !! j = Some (updateUdpFlow f flowExtra meta reply) /\
    length (flowList flowCache') = length (flowList flowCache) /\
    (reply = true ->
     timeout (updateUdpFlow f flowExtra meta reply) = EstablishedRst (TimeoutConfig f)) /\
    (reply = false ->
     updateUdpFlow f flowExtra meta reply = updateFlow f flowExtra meta reply) /\
    (reply = false ->
     (forall g fe m r, timeout (updateFlow g fe m r) = timeout fe) ->
     timeout (updateUdpFlow f flowExtra meta reply) = timeout flowExtra) /\
    stats f' = stats f.
Proof.
  intros Hshard Hmatch Hflow.
  do 2 eexists. split.
  { unfold processUdpPacket. rewrite Hshard, Hmatch, Hflow. reflexivity. }
  simpl. split; [reflexivity |].
  split; [apply list_lookup_insert_eq; apply lookup_lt_is_Some_1; eauto |].
  split; [reflexivity |].
  split; [apply list_lookup_insert_eq; apply lookup_lt_is_Some_1; eauto |].
  split; [apply length_insert |].
  split; [intros ->; reflexivity |].
  split; [intros ->; reflexivity |].
  split; [| reflexivity].
  intros -> Hkeep. unfold updateUdpFlow. apply Hkeep.
Qed.

End Udp.

(** *** The helpers modelled from the specification *)

Import FlowSpecModel.

Lemma spec_updatePlatformData_keeps_metrics tf ed reverse :
  metricsOf (FlowMetricsPeerSrc (FlowSpecModel.updatePlatformData tf ed reverse))
  = metricsOf (FlowMetricsPeerSrc tf).
Proof. destruct ed; reflexivity. Qed.

Lemma spec_addFlow_inserts g c fe : fe ∈ flowList (FlowSpecModel.addFlow g c fe).
Proof. simpl. apply elem_of_app. right. apply list_elem_of_singleton. reflexivity. Qed.

Lemma spec_updateFlow_keeps_timeout g fe m r :
  timeout (FlowSpecModel.updateFlow g fe m r) = timeout fe.
Proof. reflexivity. Qed.

Lemma scan_None l meta : forall j,
  scan l meta j = None <-> (forall fe, fe ∈ l -> flowMatch fe meta = None).
Proof.
  induction l as [| fe l IH]; intros j; simpl.
  - split; [intros _ fe Hin; inversion Hin | reflexivity].
  - destruct (flowMatch fe meta) as [r |] eqn:Hm.
    + split; [discriminate |]. intros Hall.
      rewrite (Hall fe) in Hm by left. discriminate.
    + rewrite IH. split.
      * intros Hall x Hin. apply elem_of_cons in Hin as [-> | Hin]; auto.
      * intros Hall x Hin. apply Hall. right. exact Hin.
Qed.

(** In the model of the specification [keyMatch] returns nil exactly
    when no flow of the shard has the 5-tuple of the packet, in either
    direction. *)
Lemma spec_keyMatch_None f c meta :
  FlowSpecModel.keyMatch f c meta = None <->
  (forall fe, fe ∈ flowList c -> flowMatch fe meta = None).
Proof. apply scan_None. Qed.

(** The hash of the model is the same for both directions of a 5-tuple. *)
Lemma spec_hash_both_directions a b pa pb ts len ts' len' :
  FlowSpecModel.getQuinTupleHash (udpPacket a b pa pb ts len)
  = FlowSpecModel.getQuinTupleHash (udpPacket b a pb pa ts' len').
Proof.
  unfold FlowSpecModel.getQuinTupleHash. simpl.
  rewrite (Z.lxor_comm a b), (Z.lxor_comm pa pb). reflexivity.
Qed.

(** Scenarios 1 to 3 and R1 of the specification. *)
Example scenario_new_udp_flow :
  stats (after (newFlowGenerator 2 5000 3000) [request])
    = {| TotalNumFlows := 1; CurrNumFlows := 1; FloodDropPackets := 0 |} /\
  (fun c =>
     (fun fe => (metricsOf (FlowMetricsPeerSrc (taggedFlow fe)), flowState fe, timeout fe))
       <$> flowList c)
    <$> (hashMap (after (newFlowGenerator 2 5000 3000) [request]) !! 15%nat)
    = Some [((7000, 7000, 1, 1, 100, 100), FLOW_STATE_ESTABLISHED, 5000)].
Proof. split; reflexivity. Qed.

Example scenario_reply_observed :
  stats (after (newFlowGenerator 2 5000 3000) [request; reply])
    = {| TotalNumFlows := 1; CurrNumFlows := 1; FloodDropPackets := 0 |} /\
  (fun c =>
     (fun fe => (metricsOf (FlowMetricsPeerDst (taggedFlow fe)), timeout fe))
       <$> flowList c)
    <$> (hashMap (after (newFlowGenerator 2 5000 3000) [request; reply]) !! 15%nat)
    = Some [((0, 7001, 1, 1, 200, 200), 3000)].
Proof. split; reflexivity. Qed.

Example scenario_flood_drop :
  stats (after (newFlowGenerator 2 5000 3000) [request; request2; request3])
    = {| TotalNumFlows := 2; CurrNumFlows := 2; FloodDropPackets := 1 |}.
Proof. reflexivity. Qed.

Example scenario_same_tuple_twice :
  stats (after (newFlowGenerator 2 5000 3000) [request; request])
    = {| TotalNumFlows := 1; CurrNumFlows := 1; FloodDropPackets := 0 |} /\
  (fun c => (fun fe => PacketCount (FlowMetricsPeerSrc (taggedFlow fe))) <$> flowList c)
    <$> (hashMap (after (newFlowGenerator 2 5000 3000) [request; request]) !! 15%nat)
    = Some [2].
Proof. split; reflexivity. Qed.

Lemma processUdpPacket_flood_drop_witness :
  exists f',
    processUdpPacket (after (newFlowGenerator 2 5000 3000) [request; request2]) request3
      = Ok f' /\
    FloodDropPackets (stats f') = 1 /\ CurrNumFlows (stats f') = 2.
Proof.
  edestruct (processUdpPacket_flood_drop (H := flowEnv)
               (after (newFlowGenerator 2 5000 3000) [request; request2]) request3)
    as (f' & Hrun & Hdrop & _ & _ & Hcur & _).
  - vm_compute. reflexivity.
  - vm_compute. reflexivity.
  - vm_compute. intros Habs. discriminate Habs.
  - exists f'. split; [exact Hrun |]. rewrite Hdrop, Hcur. split; reflexivity.
Defined.

Lemma processUdpPacket_new_flow_witness :
  exists f' flowExtra flowCache',
    processUdpPacket (newFlowGenerator 2 5000 3000) request = Ok f' /\
    ArrTime0 (FlowMetricsPeerSrc (taggedFlow flowExtra)) = 7000 /\
    ByteCount (FlowMetricsPeerSrc (taggedFlow flowExtra)) = 100 /\
    timeout flowExtra = 5000 /\
    hashMap f' !! 15%nat = Some flowCache' /\
    flowExtra ∈ flowList flowCache' /\
    CurrNumFlows (stats f') = 1.
Proof.
  edestruct (processUdpPacket_new_flow (H := flowEnv)
               (newFlowGenerator 2 5000 3000) request)
    as (f' & fe & c' & Hrun & _ & Hm & _ & Hto & _ & _ & Hshard & Hin & Hcur & _).
  - vm_compute. reflexivity.
  - vm_compute. reflexivity.
  - vm_compute. reflexivity.
  - unfold is_sint. simpl. lia.
  - unfold is_sint. simpl. lia.
  - unfold is_uint. simpl. lia.
  - destruct (Hm spec_updatePlatformData_keeps_metrics) as (Ha0 & _ & _ & _ & Hbc & _).
    exists f', fe, c'. split; [exact Hrun |].
    split; [exact Ha0 |]. split; [exact Hbc |]. split; [exact Hto |].
    split; [exact Hshard |]. split; [exact (Hin spec_addFlow_inserts) |]. exact Hcur.
Defined.

Lemma processUdpPacket_matched_flow_witness :
  exists f' flowCache' flowExtra',
    processUdpPacket (after (newFlowGenerator 2 5000 3000) [request]) reply = Ok f' /\
    hashMap f' !! 15%nat = Some flowCache' /\
    flowList flowCache' !! 0%nat = Some flowExtra' /\
    timeout flowExtra' = 3000.
Proof.
  edestruct (processUdpPacket_matched_flow (H := flowEnv)
               (after (newFlowGenerator 2 5000 3000) [request]) reply)
    as (f' & c' & Hrun & _ & Hshard & _ & Hflow & _ & Hto & _).
  - vm_compute. reflexivity.
  - vm_compute. reflexivity.
  - vm_compute. reflexivity.
  - exists f', c'. eexists. split; [exact Hrun |].
    split; [exact Hshard |]. split; [exact Hflow |]. exact (Hto eq_refl).
Defined.

End FlowUdp.


(* ================================================================= *)
(** ** The flow table under [processUdpPacket] *)

Module FlowTable.

Import GoInt datatype FlowGen GoIntFacts.

Section Table.
Context `{FlowEnv}.

(** The three ways [processUdpPacket] returns. *)
Lemma processUdpPacket_cases f meta f' :
  processUdpPacket f meta = Ok f' ->
  exists flowCache,
    hashMap f !! shardIndex meta = Some flowCache /\
    ((exists j reply flowExtra,
        keyMatch f flowCache meta = Some (j, reply) /\
        flowList flowCache !! j = Some flowExtra /\
        f' = set_hashMap
               (<[shardIndex meta :=
                    {| flowList := <[j := updateUdpFlow f flowExtra meta reply]>
                                     (flowList flowCache) |}]> (hashMap f)) f) \/
     (keyMatch f flowCache meta = None /\
      flowLimitNum f <= CurrNumFlows (stats f) /\
      f' = set_stats (incr_FloodDropPackets (stats f)) f) \/
     (keyMatch f flowCache meta = None /\
      CurrNumFlows (stats f) < flowLimitNum f /\
      f' = set_stats
             (add_CurrNumFlows (incr_TotalNumFlows (stats f)))
             (set_hashMap
                (<[shardIndex meta :=
                     addFlow (set_stats (incr_TotalNumFlows (stats f)) f) flowCache
                       (initUdpFlow f meta)]> (hashMap f))
                (set_stats (incr_TotalNumFlows (stats f)) f)))).
Proof.
  unfold processUdpPacket.
  destruct (hashMap f !! shardIndex meta) as [flowCache |] eqn:Hshard; [| discriminate].
  intros Hrun. exists flowCache. split; [reflexivity |].
  destruct (keyMatch f flowCache meta) as [[j reply] |] eqn:Hmatch.
  - destruct (flowList flowCache !! j) as [flowExtra |] eqn:Hflow; [| discriminate].
    injection Hrun as <-. left. exists j, reply, flowExtra. repeat split; assumption.
  - destruct (Z.geb_spec (CurrNumFlows (stats f)) (flowLimitNum f)).
    + injection Hrun as <-. right. left. repeat split. assumption.
    + injection Hrun as <-. right. right. repeat split. assumption.
Qed.

(** X25: the flow count never passes the limit.  When [flowLimitNum] and
    [CurrNumFlows] are int32 values and the count is within the limit,
    it still is after [processUdpPacket]: the call leaves the limit
    alone, never lowers the count, and the count does not wrap. *)
Theorem CurrNumFlows_stays_within_flowLimitNum f meta f' :
  is_sint 32 (flowLimitNum f) ->
  CurrNumFlows (stats f) <= flowLimitNum f ->
  is_sint 32 (CurrNumFlows (stats f)) ->
  processUdpPacket f meta = Ok f' ->
  flowLimitNum f' = flowLimitNum f /\
  CurrNumFlows (stats f') <= flowLimitNum f' /\
  is_sint 32 (CurrNumFlows (stats f')) /\
  CurrNumFlows (stats f) <= CurrNumFlows (stats f').
Proof.
  intros Hlim Hinv Hcur Hrun.
  destruct (processUdpPacket_cases f meta f' Hrun)
    as (flowCache & _ & [(j & reply & fe & _ & _ & ->) | [(_ & _ & ->) | (_ & Hroom & ->)]]);
    simpl.
  - repeat split; try apply Hcur; lia.
  - repeat split; try apply Hcur; lia.
  - unfold int32. rewrite sint_small by (unfold is_sint in *; lia).
    unfold is_sint in *. repeat split; lia.
Qed.

(** X26: [processUdpPacket] reaches the shard of the packet only: the
    table keeps its number of shards, every other shard is as before,
    and the limit and the timeouts are unchanged. *)
Theorem processUdpPacket_touches_only_its_shard f meta f' :
  processUdpPacket f meta = Ok f' ->
  length (hashMap f') = length (hashMap f) /\
  (forall i, i <> shardIndex meta -> hashMap f' !! i = hashMap f !! i) /\
  flowLimitNum f' = flowLimitNum f /\
  TimeoutConfig f' = TimeoutConfig f.
Proof.
  intros Hrun.
  destruct (processUdpPacket_cases f meta f' Hrun)
    as (flowCache & _ & [(j & reply & fe & _ & _ & ->) | [(_ & _ & ->) | (_ & Hroom & ->)]]);
    simpl.
  - split; [apply length_insert |]. split; [| split; reflexivity].
    intros i Hi. apply list_lookup_insert_ne. congruence.
  - repeat split.
  - split; [apply length_insert |]. split; [| split; reflexivity].
    intros i Hi. apply list_lookup_insert_ne. congruence.
Qed.

End Table.

(** *** The properties on the sample packets *)

Import FlowSpecModel.

Lemma CurrNumFlows_stays_within_flowLimitNum_witness :
  exists f',
    processUdpPacket (H := flowEnv) (newFlowGenerator 2 5000 3000) request = Ok f' /\
    CurrNumFlows (stats f') <= flowLimitNum f' /\
    0 <= CurrNumFlows (stats f').
Proof.
  destruct (processUdpPacket (H := flowEnv) (newFlowGenerator 2 5000 3000) request)
    as [f' | msg] eqn:Hrun; [| vm_compute in Hrun; discriminate Hrun].
  edestruct (CurrNumFlows_stays_within_flowLimitNum (H := flowEnv)
               (newFlowGenerator 2 5000 3000) request f')
    as (_ & Hle & _ & Hge).
  - unfold is_sint. simpl. lia.
  - simpl. lia.
  - unfold is_sint. simpl. lia.
  - exact Hrun.
  - exists f'. split; [reflexivity |]. split; [exact Hle | exact Hge].
Defined.

Lemma processUdpPacket_touches_only_its_shard_witness :
  exists f',
    processUdpPacket (H := flowEnv) (newFlowGenerator 2 5000 3000) request = Ok f' /\
    length (hashMap f') = 16%nat /\
    hashMap f' !! 0%nat = Some {| flowList := [] |}.
Proof.
  destruct (processUdpPacket (H := flowEnv) (newFlowGenerator 2 5000 3000) request)
    as [f' | msg] eqn:Hrun; [| vm_compute in Hrun; discriminate Hrun].
  destruct (processUdpPacket_touches_only_its_shard (H := flowEnv)
              (newFlowGenerator 2 5000 3000) request f' Hrun)
    as (Hlen & Hother & _).
  exists f'. split; [reflexivity |]. split; [exact Hlen |].
  rewrite Hother by (vm_compute; discriminate). reflexivity.
Defined.

End FlowTable.
